(** * msi-ec: the MSI embedded-controller driver, register layer and codecs

    A shallow embedding of [msi-ec.c].  The embedded controller is a
    register file reached through the kernel's [ec_read]/[ec_write]; the
    driver's sysfs callbacks translate between register bytes and text.

    Conventions of the embedding:
    - C integers are [Z]; a conversion to [u8] is written [u8 x] (wrap
      around modulo 256); [int] division is [Z.quot] (truncation);
    - a C string is a [string] (the characters before the terminating NUL);
    - a callback that returns [ssize_t] returns a [Z]: a negative errno
      or a byte count;
    - every call into the transport is recorded in a log, so that the
      order and the absence of register accesses can be stated. *)

From Stdlib Require Import ZArith List String Ascii Bool Lia.
From Stdlib Require Import DecimalString.
Import ListNotations.

Local Open Scope string_scope.
Local Open Scope list_scope.
Local Open Scope Z_scope.

(** String concatenation is written [+++]; [++] is kept for lists. *)
Infix "+++" := String.append (right associativity, at level 60).

(** ** C integer conversions and errno values *)

Definition u8 (x : Z) : Z := x mod 256.

(** Conversion to a 32-bit [int] (what [sscanf] stores through an [int *]). *)
Definition s32 (x : Z) : Z := (x + 2 ^ 31) mod 2 ^ 32 - 2 ^ 31.

Definition EINVAL : Z := 22.
Definition ERANGE : Z := 34.

(** ** The register transport

    [ec_read] and [ec_write] are the kernel's ACPI EC accessors
    ([int ec_read(u8 addr, u8 *val)], [int ec_write(u8 addr, u8 val)]).
    They return 0 or a negative errno.  Whether a call faults is decided by
    the chip: the oracle sees the calls made so far and the call at hand. *)

Inductive event : Type :=
| EvRead (addr : Z)
| EvWrite (addr data : Z).

Record ec_state : Type := mkEc {
  ec_regs : Z -> Z;
  ec_log : list event;
  ec_rfault : list event -> Z -> option positive;
  ec_wfault : list event -> Z -> Z -> option positive
}.

Definition log_call (st : ec_state) (ev : event) : ec_state :=
  mkEc (ec_regs st) (ec_log st ++ [ev]) (ec_rfault st) (ec_wfault st).

Definition set_reg (st : ec_state) (a d : Z) : ec_state :=
  mkEc (fun x => if x =? a then d else ec_regs st x)
       (ec_log st) (ec_rfault st) (ec_wfault st).

(** The errno a call would fault with, given the calls made before it. *)
Definition call_fault (st : ec_state) (before : list event) (ev : event)
  : option positive :=
  match ev with
  | EvRead a => ec_rfault st before a
  | EvWrite a d => ec_wfault st before a d
  end.

(** [ec_read addr &val]: result, the byte stored through [val] (0 stands
    for "not written" when the call faults), new state. *)
Definition ec_read (addr : Z) (st : ec_state) : Z * Z * ec_state :=
  let a := u8 addr in
  match ec_rfault st (ec_log st) a with
  | Some e => (Zneg e, 0, log_call st (EvRead a))
  | None => (0, u8 (ec_regs st a), log_call st (EvRead a))
  end.

Definition ec_write (addr data : Z) (st : ec_state) : Z * ec_state :=
  let a := u8 addr in
  let d := u8 data in
  match ec_wfault st (ec_log st) a d with
  | Some e => (Zneg e, log_call st (EvWrite a d))
  | None => (0, set_reg (log_call st (EvWrite a d)) a d)
  end.

(** ** Text: characters, [strcmp], [sprintf] conversions *)

Definition code (c : ascii) : Z := Z.of_N (N_of_ascii c).
Definition chr (b : Z) : ascii := ascii_of_N (Z.to_N b).

Definition nl : string := String (chr 10) "".

Fixpoint strcmp (x y : string) : Z :=
  match x, y with
  | EmptyString, EmptyString => 0
  | EmptyString, String b _ => - code b
  | String a _, EmptyString => code a
  | String a x', String b y' =>
      if code a =? code b then strcmp x' y' else code a - code b
  end.

(** [#define streq(x, y) (strcmp(x, y) == 0 || strcmp(x, y "\n") == 0)] *)
Definition streq (x y : string) : bool :=
  (strcmp x y =? 0) || (strcmp x (y +++ nl) =? 0).

(** [%i] and [%d] of an [int]. *)
Definition fmt_i (z : Z) : string := NilZero.string_of_int (Z.to_int z).

Fixpoint zeros (n : nat) : string :=
  match n with
  | O => ""
  | S n' => String "0"%char (zeros n')
  end.

Definition pad0 (w : nat) (s : string) : string :=
  zeros (w - String.length s) +++ s.

(** [%0wd]: zero padding up to the field width; a sign counts in the width. *)
Definition fmt_0d (w : nat) (z : Z) : string :=
  if z <? 0 then "-" +++ pad0 (w - 1) (fmt_i (- z)) else pad0 w (fmt_i z).

(** [sprintf(buf, ...)]: the number of characters written and the text. *)
Definition sprintf (text : string) : Z * string :=
  (Z.of_nat (String.length text), text).

(** The C string held by a byte buffer: the bytes before the first NUL. *)
Fixpoint cstring (bytes : list Z) : string :=
  match bytes with
  | [] => ""
  | b :: bs => if b =? 0 then "" else String (chr b) (cstring bs)
  end.

(** ** The kernel's number parsing ([lib/kstrtox.c], [lib/vsprintf.c]) *)

Definition isdigit (c : ascii) : bool := (48 <=? code c) && (code c <=? 57).

Definition isspace (c : ascii) : bool :=
  ((9 <=? code c) && (code c <=? 13)) || (code c =? 32) || (code c =? 160).

Definition digit_val (c : ascii) : Z := code c - 48.

(** [_parse_integer_limit(s, 10, &res, max_chars)]: consumes decimal digits,
    at most [max_chars] of them; the accumulator is an [unsigned long long]
    that wraps, and an overflow is flagged.  Returns the number of
    characters consumed, the value, the overflow flag and the rest. *)
Fixpoint _parse_integer_limit (s : string) (max_chars : nat)
         (res : Z) (rv : Z) (ovf : bool) : Z * Z * bool * string :=
  match max_chars, s with
  | S m, String c s' =>
      if isdigit c then
        _parse_integer_limit s' m
          ((res * 10 + digit_val c) mod 2 ^ 64) (rv + 1)
          (ovf || (2 ^ 64 <=? res * 10 + digit_val c))
      else (rv, res, ovf, s)
  | _, _ => (rv, res, ovf, s)
  end.

(** [_parse_integer] is [_parse_integer_limit] with no limit. *)
Definition _parse_integer (s : string) : Z * Z * bool * string :=
  _parse_integer_limit s (String.length s) 0 0 false.

(** [kstrtoull(s, 10, &res)]: optional [+], digits, optional newline, end. *)
Definition kstrtoull (s : string) : Z * Z :=
  let s :=
    match s with
    | String c s' => if code c =? 43 then s' else s
    | EmptyString => s
    end in
  let '(rv, res, ovf, rest) := _parse_integer s in
  if ovf then (- ERANGE, 0)
  else if rv =? 0 then (- EINVAL, 0)
  else
    let rest :=
      match rest with
      | String c r => if code c =? 10 then r else rest
      | EmptyString => rest
      end in
    match rest with
    | String _ _ => (- EINVAL, 0)
    | EmptyString => (0, res)
    end.

(** [kstrtou8(s, 10, &res)]: result and the value stored through [res]. *)
Definition kstrtou8 (s : string) : Z * Z :=
  let '(rv, tmp) := kstrtoull s in
  if rv <? 0 then (rv, 0)
  else if negb (tmp =? u8 tmp) then (- ERANGE, 0)
  else (0, tmp).

Fixpoint skip_spaces (s : string) : string :=
  match s with
  | String c s' => if isspace c then skip_spaces s' else s
  | EmptyString => s
  end.

(** [simple_strntoll(cp, &endp, 10, max_chars)]: value and [endp]. *)
Definition simple_strntoll (cp : string) (max_chars : nat) : Z * string :=
  match cp, max_chars with
  | String c cp', S m =>
      if code c =? 45 then
        let '(_, res, _, rest) := _parse_integer_limit cp' m 0 0 false in
        (- res, rest)
      else
        let '(_, res, _, rest) := _parse_integer_limit cp max_chars 0 0 false in
        (res, rest)
  | _, _ =>
      let '(_, res, _, rest) := _parse_integer_limit cp max_chars 0 0 false in
      (res, rest)
  end.

(** The part of a [scanf] format that the driver uses: [%<w>d] with a field
    width, and literal characters. *)
Inductive fmt_item : Type :=
| FmtD (width : nat)
| FmtLit (c : ascii).

(** [vsscanf(str, fmt, args)] for such a format.  [args] holds the current
    values of the [int]s the arguments point to; a conversion that succeeds
    overwrites the next of them, the others keep what they held.  Returns the
    number of conversions and the values. *)
Fixpoint vsscanf (str : string) (fmt : list fmt_item) (args : list Z) (num : Z)
  : Z * list Z :=
  match fmt with
  | [] => (num, args)
  | FmtLit c :: fmt' =>
      match str with
      | String d str' =>
          if code c =? code d then vsscanf str' fmt' args num else (num, args)
      | EmptyString => (num, args)
      end
  | FmtD width :: fmt' =>
      match width, str, args with
      | O, _, _ => (num, args)
      | _, EmptyString, _ => (num, args)
      | _, _, [] => (num, args)
      | _, String _ _, a :: args' =>
          let str := skip_spaces str in
          let digit :=
            match str with
            | String c (String d _) => if code c =? 45 then Some d else Some c
            | String c EmptyString => if code c =? 45 then None else Some c
            | EmptyString => None
            end in
          let sign_only :=
            match str with
            | String c _ => (code c =? 45) && (Nat.eqb width 1)
            | EmptyString => false
            end in
          if sign_only then (num, args)
          else
            match digit with
            | None => (num, args)
            | Some d =>
                if isdigit d then
                  let '(val, next) := simple_strntoll str width in
                  let '(n, rest) := vsscanf next fmt' args' (num + 1) in
                  (n, s32 val :: rest)
                else (num, args)
            end
      end
  end.

Definition sscanf (str : string) (fmt : list fmt_item) (args : list Z)
  : Z * list Z :=
  vsscanf str fmt args 0.

(** ** The constants of [constants.h]

    The addresses, codes, offsets and ranges depend on the laptop model
    and live in a header of their own; [msi-ec.c] only names them.  They
    are parameters here: the driver is modelled for any values of them. *)

Class constants : Type := {
  MSI_EC_CHARGE_CONTROL_ADDRESS : Z;
  MSI_EC_CHARGE_CONTROL_OFFSET_START : Z;
  MSI_EC_CHARGE_CONTROL_OFFSET_END : Z;
  MSI_EC_CHARGE_CONTROL_RANGE_MIN : Z;
  MSI_EC_CHARGE_CONTROL_RANGE_MAX : Z;
  MSI_EC_WEBCAM_ADDRESS : Z;
  MSI_EC_WEBCAM_ON : Z;
  MSI_EC_WEBCAM_OFF : Z;
  MSI_EC_FN_WIN_ADDRESS : Z;
  MSI_EC_FN_KEY_LEFT : Z;
  MSI_EC_FN_KEY_RIGHT : Z;
  MSI_EC_WIN_KEY_LEFT : Z;
  MSI_EC_WIN_KEY_RIGHT : Z;
  MSI_EC_BATTERY_MODE_ADDRESS : Z;
  MSI_EC_BATTERY_MODE_MAX_CHARGE : Z;
  MSI_EC_BATTERY_MODE_MEDIUM_CHARGE : Z;
  MSI_EC_BATTERY_MODE_MIN_CHARGE : Z;
  MSI_EC_COOLER_BOOST_ADDRESS : Z;
  MSI_EC_COOLER_BOOST_ON : Z;
  MSI_EC_COOLER_BOOST_OFF : Z;
  MSI_EC_SHIFT_MODE_ADDRESS : Z;
  MSI_EC_SHIFT_MODE_PERFORMANCE : Z;
  MSI_EC_SHIFT_MODE_BALANCED : Z;
  MSI_EC_SHIFT_MODE_ECO : Z;
  MSI_EC_SHIFT_MODE_OFF : Z;
  MSI_EC_FAN_MODE_ADDRESS : Z;
  MSI_EC_FAN_MODE_SILENT : Z;
  MSI_EC_FAN_MODE_BASIC : Z;
  MSI_EC_FAN_MODE_ADVANCED : Z;
  MSI_EC_FW_VERSION_ADDRESS : Z;
  MSI_EC_FW_VERSION_LENGTH : Z;
  MSI_EC_FW_DATE_ADDRESS : Z;
  MSI_EC_FW_DATE_LENGTH : Z;
  MSI_EC_FW_TIME_ADDRESS : Z;
  MSI_EC_FW_TIME_LENGTH : Z;
  MSI_EC_CPU_REALTIME_TEMPERATURE_ADDRESS : Z;
  MSI_EC_CPU_REALTIME_FAN_SPEED_ADDRESS : Z;
  MSI_EC_CPU_REALTIME_FAN_SPEED_BASE_MIN : Z;
  MSI_EC_CPU_REALTIME_FAN_SPEED_BASE_MAX : Z;
  MSI_EC_CPU_BASIC_FAN_SPEED_ADDRESS : Z;
  MSI_EC_CPU_BASIC_FAN_SPEED_BASE_MIN : Z;
  MSI_EC_CPU_BASIC_FAN_SPEED_BASE_MAX : Z;
  MSI_EC_GPU_REALTIME_TEMPERATURE_ADDRESS : Z;
  MSI_EC_GPU_REALTIME_FAN_SPEED_ADDRESS : Z;
  MSI_EC_LED_MICMUTE_ADDRESS : Z;
  MSI_EC_MIC_LED_STATE_ON : Z;
  MSI_EC_MIC_LED_STATE_OFF : Z;
  MSI_EC_LED_MUTE_ADDRESS : Z;
  MSI_EC_MUTE_LED_STATE_ON : Z;
  MSI_EC_MUTE_LED_STATE_OFF : Z;
  MSI_EC_KBD_BL_ADDRESS : Z;
  MSI_EC_KBD_BL_STATE_MASK : Z;
  MSI_EC_KBD_BL_STATE : list Z
}.

(** ** Byte buffers *)

(** [buf[i] = v] on a buffer; nothing is modelled beyond the buffer's end. *)
Fixpoint poke (buf : list Z) (i : nat) (v : Z) : list Z :=
  match buf, i with
  | [], _ => []
  | _ :: t, O => v :: t
  | h :: t, S i' => h :: poke t i' v
  end.

(** [u8 rdata[n]; memset(rdata, 0, n);] *)
Definition zeroed (n : Z) : list Z := repeat 0 (Z.to_nat n).

(** ** [ec_read_seq]

    [for (i = 0; i < len; i++)] with [u8 i] and [int len]: the counter wraps
    at 256, so the loop need not end; it is run on fuel, one unit per test
    of the loop condition, and [None] means the fuel ran out. *)

Fixpoint ec_read_seq_loop (fuel : nat) (addr : Z) (buf : list Z) (len : Z)
         (i : Z) (st : ec_state) : option (Z * list Z * ec_state) :=
  match fuel with
  | O => None
  | S fuel' =>
      if i <? len then
        let '(result, val, st) := ec_read (addr + i) st in
        if result <? 0 then Some (result, buf, st)
        else ec_read_seq_loop fuel' addr (poke buf (Z.to_nat i) val) len
                              (u8 (i + 1)) st
      else Some (0, buf, st)
  end.

Definition ec_read_seq (fuel : nat) (addr : Z) (buf : list Z) (len : Z)
           (st : ec_state) : option (Z * list Z * ec_state) :=
  let addr := u8 addr in
  ec_read_seq_loop fuel addr buf len 0 st.

Section Driver.

Context {K : constants}.

(** ** Sysfs power_supply subsystem *)

Definition charge_control_threshold_show (offset : Z) (buf : string)
           (st : ec_state) : Z * string * ec_state :=
  let offset := u8 offset in
  let '(result, rdata, st) := ec_read MSI_EC_CHARGE_CONTROL_ADDRESS st in
  if result <? 0 then (result, buf, st)
  else
    let '(n, text) := sprintf (fmt_i (rdata - offset) +++ nl) in
    (n, text, st).

Definition charge_control_start_threshold_show :=
  charge_control_threshold_show MSI_EC_CHARGE_CONTROL_OFFSET_START.

Definition charge_control_end_threshold_show :=
  charge_control_threshold_show MSI_EC_CHARGE_CONTROL_OFFSET_END.

Definition charge_control_threshold_store (offset : Z) (buf : string)
           (count : Z) (st : ec_state) : Z * ec_state :=
  let offset := u8 offset in
  let '(result, wdata) := kstrtou8 buf in
  if result <? 0 then (result, st)
  else
    let wdata := u8 (wdata + offset) in
    if (wdata <? MSI_EC_CHARGE_CONTROL_RANGE_MIN)
       || (wdata >? MSI_EC_CHARGE_CONTROL_RANGE_MAX)
    then (- EINVAL, st)
    else
      let '(result, st) := ec_write MSI_EC_CHARGE_CONTROL_ADDRESS wdata st in
      if result <? 0 then (result, st) else (count, st).

Definition charge_control_start_threshold_store :=
  charge_control_threshold_store MSI_EC_CHARGE_CONTROL_OFFSET_START.

Definition charge_control_end_threshold_store :=
  charge_control_threshold_store MSI_EC_CHARGE_CONTROL_OFFSET_END.

(** ** Sysfs platform device attributes (root) *)

Definition webcam_show (buf : string) (st : ec_state)
  : Z * string * ec_state :=
  let '(result, rdata, st) := ec_read MSI_EC_WEBCAM_ADDRESS st in
  if result <? 0 then (result, buf, st)
  else
    let '(n, text) :=
      if rdata =? MSI_EC_WEBCAM_ON then sprintf ("on" +++ nl)
      else if rdata =? MSI_EC_WEBCAM_OFF then sprintf ("off" +++ nl)
      else sprintf ("unknown" +++ " (" +++ fmt_i rdata +++ ")" +++ nl) in
    (n, text, st).

Definition webcam_store (buf : string) (count : Z) (st : ec_state)
  : Z * ec_state :=
  let result := - EINVAL in
  let '(result, st) :=
    if streq buf "on"
    then ec_write MSI_EC_WEBCAM_ADDRESS MSI_EC_WEBCAM_ON st
    else (result, st) in
  let '(result, st) :=
    if streq buf "off"
    then ec_write MSI_EC_WEBCAM_ADDRESS MSI_EC_WEBCAM_OFF st
    else (result, st) in
  if result <? 0 then (result, st) else (count, st).

Definition fn_key_show (buf : string) (st : ec_state)
  : Z * string * ec_state :=
  let '(result, rdata, st) := ec_read MSI_EC_FN_WIN_ADDRESS st in
  if result <? 0 then (result, buf, st)
  else
    let '(n, text) :=
      if rdata =? MSI_EC_FN_KEY_LEFT then sprintf ("left" +++ nl)
      else if rdata =? MSI_EC_FN_KEY_RIGHT then sprintf ("right" +++ nl)
      else sprintf ("unknown" +++ " (" +++ fmt_i rdata +++ ")" +++ nl) in
    (n, text, st).

Definition fn_key_store (buf : string) (count : Z) (st : ec_state)
  : Z * ec_state :=
  let result := - EINVAL in
  let '(result, st) :=
    if streq buf "left"
    then ec_write MSI_EC_FN_WIN_ADDRESS MSI_EC_FN_KEY_LEFT st
    else (result, st) in
  let '(result, st) :=
    if streq buf "right"
    then ec_write MSI_EC_FN_WIN_ADDRESS MSI_EC_FN_KEY_RIGHT st
    else (result, st) in
  if result <? 0 then (result, st) else (count, st).

Definition win_key_show (buf : string) (st : ec_state)
  : Z * string * ec_state :=
  let '(result, rdata, st) := ec_read MSI_EC_FN_WIN_ADDRESS st in
  if result <? 0 then (result, buf, st)
  else
    let '(n, text) :=
      if rdata =? MSI_EC_WIN_KEY_LEFT then sprintf ("left" +++ nl)
      else if rdata =? MSI_EC_WIN_KEY_RIGHT then sprintf ("right" +++ nl)
      else sprintf ("unknown" +++ " (" +++ fmt_i rdata +++ ")" +++ nl) in
    (n, text, st).

Definition win_key_store (buf : string) (count : Z) (st : ec_state)
  : Z * ec_state :=
  let result := - EINVAL in
  let '(result, st) :=
    if streq buf "left"
    then ec_write MSI_EC_FN_WIN_ADDRESS MSI_EC_WIN_KEY_LEFT st
    else (result, st) in
  let '(result, st) :=
    if streq buf "right"
    then ec_write MSI_EC_FN_WIN_ADDRESS MSI_EC_WIN_KEY_RIGHT st
    else (result, st) in
  if result <? 0 then (result, st) else (count, st).

Definition battery_mode_show (buf : string) (st : ec_state)
  : Z * string * ec_state :=
  let '(result, rdata, st) := ec_read MSI_EC_BATTERY_MODE_ADDRESS st in
  if result <? 0 then (result, buf, st)
  else
    let '(n, text) :=
      if rdata =? MSI_EC_BATTERY_MODE_MAX_CHARGE then sprintf ("max" +++ nl)
      else if rdata =? MSI_EC_BATTERY_MODE_MEDIUM_CHARGE
      then sprintf ("medium" +++ nl)
      else if rdata =? MSI_EC_BATTERY_MODE_MIN_CHARGE
      then sprintf ("min" +++ nl)
      else sprintf ("unknown" +++ " (" +++ fmt_i rdata +++ ")" +++ nl) in
    (n, text, st).

Definition battery_mode_store (buf : string) (count : Z) (st : ec_state)
  : Z * ec_state :=
  let result := - EINVAL in
  let '(result, st) :=
    if streq buf "max"
    then ec_write MSI_EC_BATTERY_MODE_ADDRESS MSI_EC_BATTERY_MODE_MAX_CHARGE st
    else (result, st) in
  let '(result, st) :=
    if streq buf "medium"
    then ec_write MSI_EC_BATTERY_MODE_ADDRESS
                  MSI_EC_BATTERY_MODE_MEDIUM_CHARGE st
    else (result, st) in
  let '(result, st) :=
    if streq buf "min"
    then ec_write MSI_EC_BATTERY_MODE_ADDRESS MSI_EC_BATTERY_MODE_MIN_CHARGE st
    else (result, st) in
  if result <? 0 then (result, st) else (count, st).

Definition cooler_boost_show (buf : string) (st : ec_state)
  : Z * string * ec_state :=
  let '(result, rdata, st) := ec_read MSI_EC_COOLER_BOOST_ADDRESS st in
  if result <? 0 then (result, buf, st)
  else
    let '(n, text) :=
      if rdata =? MSI_EC_COOLER_BOOST_ON then sprintf ("on" +++ nl)
      else if rdata =? MSI_EC_COOLER_BOOST_OFF then sprintf ("off" +++ nl)
      else sprintf ("unknown" +++ " (" +++ fmt_i rdata +++ ")" +++ nl) in
    (n, text, st).

Definition cooler_boost_store (buf : string) (count : Z) (st : ec_state)
  : Z * ec_state :=
  let result := - EINVAL in
  let '(result, st) :=
    if streq buf "on"
    then ec_write MSI_EC_COOLER_BOOST_ADDRESS MSI_EC_COOLER_BOOST_ON st
    else (result, st) in
  let '(result, st) :=
    if streq buf "off"
    then ec_write MSI_EC_COOLER_BOOST_ADDRESS MSI_EC_COOLER_BOOST_OFF st
    else (result, st) in
  if result <? 0 then (result, st) else (count, st).

Definition shift_mode_show (buf : string) (st : ec_state)
  : Z * string * ec_state :=
  let '(result, rdata, st) := ec_read MSI_EC_SHIFT_MODE_ADDRESS st in
  if result <? 0 then (result, buf, st)
  else
    let '(n, text) :=
      if rdata =? MSI_EC_SHIFT_MODE_PERFORMANCE
      then sprintf ("performance" +++ nl)
      else if rdata =? MSI_EC_SHIFT_MODE_BALANCED
      then sprintf ("balanced" +++ nl)
      else if rdata =? MSI_EC_SHIFT_MODE_ECO then sprintf ("eco" +++ nl)
      else if rdata =? MSI_EC_SHIFT_MODE_OFF then sprintf ("off" +++ nl)
      else sprintf ("unknown" +++ " (" +++ fmt_i rdata +++ ")" +++ nl) in
    (n, text, st).

Definition shift_mode_store (buf : string) (count : Z) (st : ec_state)
  : Z * ec_state :=
  let result := - EINVAL in
  let '(result, st) :=
    if streq buf "performance"
    then ec_write MSI_EC_SHIFT_MODE_ADDRESS MSI_EC_SHIFT_MODE_PERFORMANCE st
    else (result, st) in
  let '(result, st) :=
    if streq buf "balanced"
    then ec_write MSI_EC_SHIFT_MODE_ADDRESS MSI_EC_SHIFT_MODE_BALANCED st
    else (result, st) in
  let '(result, st) :=
    if streq buf "eco"
    then ec_write MSI_EC_SHIFT_MODE_ADDRESS MSI_EC_SHIFT_MODE_ECO st
    else (result, st) in
  let '(result, st) :=
    if streq buf "off"
    then ec_write MSI_EC_SHIFT_MODE_ADDRESS MSI_EC_SHIFT_MODE_OFF st
    else (result, st) in
  if result <? 0 then (result, st) else (count, st).

Definition fan_mode_show (buf : string) (st : ec_state)
  : Z * string * ec_state :=
  let '(result, rdata, st) := ec_read MSI_EC_FAN_MODE_ADDRESS st in
  if result <? 0 then (result, buf, st)
  else
    let '(n, text) :=
      if rdata =? MSI_EC_FAN_MODE_SILENT then sprintf ("silent" +++ nl)
      else if rdata =? MSI_EC_FAN_MODE_BASIC then sprintf ("basic" +++ nl)
      else if rdata =? MSI_EC_FAN_MODE_ADVANCED
      then sprintf ("advanced" +++ nl)
      else sprintf ("unknown" +++ " (" +++ fmt_i rdata +++ ")" +++ nl) in
    (n, text, st).

Definition fan_mode_store (buf : string) (count : Z) (st : ec_state)
  : Z * ec_state :=
  let result := - EINVAL in
  let '(result, st) :=
    if streq buf "silent"
    then ec_write MSI_EC_FAN_MODE_ADDRESS MSI_EC_FAN_MODE_SILENT st
    else (result, st) in
  let '(result, st) :=
    if streq buf "basic"
    then ec_write MSI_EC_FAN_MODE_ADDRESS MSI_EC_FAN_MODE_BASIC st
    else (result, st) in
  let '(result, st) :=
    if streq buf "advanced"
    then ec_write MSI_EC_FAN_MODE_ADDRESS MSI_EC_FAN_MODE_ADVANCED st
    else (result, st) in
  if result <? 0 then (result, st) else (count, st).

Definition fw_version_show (fuel : nat) (buf : string) (st : ec_state)
  : option (Z * string * ec_state) :=
  let rdata := zeroed (MSI_EC_FW_VERSION_LENGTH + 1) in
  match ec_read_seq fuel MSI_EC_FW_VERSION_ADDRESS rdata
                    MSI_EC_FW_VERSION_LENGTH st with
  | None => None
  | Some (result, rdata, st) =>
      if result <? 0 then Some (result, buf, st)
      else
        let '(n, text) := sprintf (cstring rdata +++ nl) in
        Some (n, text, st)
  end.

(** The formats ["%02d%02d%04d"] and ["%02d:%02d:%02d"]. *)
Definition date_format : list fmt_item := [FmtD 2; FmtD 2; FmtD 4].
Definition time_format : list fmt_item :=
  [FmtD 2; FmtLit ":"%char; FmtD 2; FmtLit ":"%char; FmtD 2].

(** [int year, month, day, hour, minute, second;] are not initialised: the
    values they hold on entry are arguments of the model.  The result of
    [sscanf] is not looked at. *)
Definition fw_release_date_show (fuel : nat)
           (year month day hour minute second : Z)
           (buf : string) (st : ec_state)
  : option (Z * string * ec_state) :=
  let rdate := zeroed (MSI_EC_FW_DATE_LENGTH + 1) in
  match ec_read_seq fuel MSI_EC_FW_DATE_ADDRESS rdate
                    MSI_EC_FW_DATE_LENGTH st with
  | None => None
  | Some (result, rdate, st) =>
      if result <? 0 then Some (result, buf, st)
      else
        let '(_, date) := sscanf (cstring rdate) date_format
                                 [month; day; year] in
        let month := nth 0 date month in
        let day := nth 1 date day in
        let year := nth 2 date year in
        let rtime := zeroed (MSI_EC_FW_TIME_LENGTH + 1) in
        match ec_read_seq fuel MSI_EC_FW_TIME_ADDRESS rtime
                          MSI_EC_FW_TIME_LENGTH st with
        | None => None
        | Some (result, rtime, st) =>
            if result <? 0 then Some (result, buf, st)
            else
              let '(_, time) := sscanf (cstring rtime) time_format
                                       [hour; minute; second] in
              let hour := nth 0 time hour in
              let minute := nth 1 time minute in
              let second := nth 2 time second in
              let '(n, text) :=
                sprintf (fmt_0d 4 year +++ "/" +++ fmt_0d 2 month +++ "/"
                         +++ fmt_0d 2 day +++ " " +++ fmt_0d 2 hour +++ ":"
                         +++ fmt_0d 2 minute +++ ":" +++ fmt_0d 2 second
                         +++ nl) in
              Some (n, text, st)
        end
  end.

(** ** Sysfs platform device attributes (cpu)

    The percentage is computed in [int]: [/] is [Z.quot].  With
    [BASE_MAX = BASE_MIN] a byte that passes the range check makes the C
    code divide by zero, which traps; [Z.quot] gives 0 there, so the two
    definitions with a division stand for the code only when
    [BASE_MIN <> BASE_MAX] or on a run that returns before the division.
    Every statement below about a run that reaches the division assumes
    the former. *)

Definition cpu_realtime_temperature_show (buf : string) (st : ec_state)
  : Z * string * ec_state :=
  let '(result, rdata, st) :=
    ec_read MSI_EC_CPU_REALTIME_TEMPERATURE_ADDRESS st in
  if result <? 0 then (result, buf, st)
  else
    let '(n, text) := sprintf (fmt_i rdata +++ nl) in
    (n, text, st).

Definition cpu_realtime_fan_speed_show (buf : string) (st : ec_state)
  : Z * string * ec_state :=
  let '(result, rdata, st) :=
    ec_read MSI_EC_CPU_REALTIME_FAN_SPEED_ADDRESS st in
  if result <? 0 then (result, buf, st)
  else if (rdata <? MSI_EC_CPU_REALTIME_FAN_SPEED_BASE_MIN)
          || (rdata >? MSI_EC_CPU_REALTIME_FAN_SPEED_BASE_MAX)
  then (- EINVAL, buf, st)
  else
    let '(n, text) :=
      sprintf (fmt_i (Z.quot
                        (100 * (rdata - MSI_EC_CPU_REALTIME_FAN_SPEED_BASE_MIN))
                        (MSI_EC_CPU_REALTIME_FAN_SPEED_BASE_MAX
                         - MSI_EC_CPU_REALTIME_FAN_SPEED_BASE_MIN))
               +++ nl) in
    (n, text, st).

Definition cpu_basic_fan_speed_show (buf : string) (st : ec_state)
  : Z * string * ec_state :=
  let '(result, rdata, st) :=
    ec_read MSI_EC_CPU_BASIC_FAN_SPEED_ADDRESS st in
  if result <? 0 then (result, buf, st)
  else if (rdata <? MSI_EC_CPU_BASIC_FAN_SPEED_BASE_MIN)
          || (rdata >? MSI_EC_CPU_BASIC_FAN_SPEED_BASE_MAX)
  then (- EINVAL, buf, st)
  else
    let '(n, text) :=
      sprintf (fmt_i (Z.quot
                        (100 * (rdata - MSI_EC_CPU_BASIC_FAN_SPEED_BASE_MIN))
                        (MSI_EC_CPU_BASIC_FAN_SPEED_BASE_MAX
                         - MSI_EC_CPU_BASIC_FAN_SPEED_BASE_MIN))
               +++ nl) in
    (n, text, st).

Definition cpu_basic_fan_speed_store (buf : string) (count : Z)
           (st : ec_state) : Z * ec_state :=
  let '(result, wdata) := kstrtou8 buf in
  if result <? 0 then (result, st)
  else if wdata >? 100 then (- EINVAL, st)
  else
    let '(result, st) :=
      ec_write MSI_EC_CPU_BASIC_FAN_SPEED_ADDRESS
               (Z.quot
                  (wdata * (MSI_EC_CPU_BASIC_FAN_SPEED_BASE_MAX
                            - MSI_EC_CPU_BASIC_FAN_SPEED_BASE_MIN)
                   + 100 * MSI_EC_CPU_BASIC_FAN_SPEED_BASE_MIN)
                  100) st in
    if result <? 0 then (result, st) else (count, st).

(** ** Sysfs platform device attributes (gpu) *)

Definition gpu_realtime_temperature_show (buf : string) (st : ec_state)
  : Z * string * ec_state :=
  let '(result, rdata, st) :=
    ec_read MSI_EC_GPU_REALTIME_TEMPERATURE_ADDRESS st in
  if result <? 0 then (result, buf, st)
  else
    let '(n, text) := sprintf (fmt_i rdata +++ nl) in
    (n, text, st).

Definition gpu_realtime_fan_speed_show (buf : string) (st : ec_state)
  : Z * string * ec_state :=
  let '(result, rdata, st) :=
    ec_read MSI_EC_GPU_REALTIME_FAN_SPEED_ADDRESS st in
  if result <? 0 then (result, buf, st)
  else
    let '(n, text) := sprintf (fmt_i rdata +++ nl) in
    (n, text, st).

(** ** Sysfs leds subsystem *)

Definition micmute_led_sysfs_set (brightness : Z) (st : ec_state)
  : Z * ec_state :=
  let state :=
    if brightness =? 0 then MSI_EC_MIC_LED_STATE_OFF
    else MSI_EC_MIC_LED_STATE_ON in
  let '(result, st) := ec_write MSI_EC_LED_MICMUTE_ADDRESS state st in
  if result <? 0 then (result, st) else (0, st).

Definition mute_led_sysfs_set (brightness : Z) (st : ec_state)
  : Z * ec_state :=
  let state :=
    if brightness =? 0 then MSI_EC_MUTE_LED_STATE_OFF
    else MSI_EC_MUTE_LED_STATE_ON in
  let '(result, st) := ec_write MSI_EC_LED_MUTE_ADDRESS state st in
  if result <? 0 then (result, st) else (0, st).

Definition kbd_bl_sysfs_get (st : ec_state) : Z * ec_state :=
  let '(result, rdata, st) := ec_read MSI_EC_KBD_BL_ADDRESS st in
  if result <? 0 then (0, st)
  else (Z.land rdata MSI_EC_KBD_BL_STATE_MASK, st).

Definition kbd_bl_sysfs_set (brightness : Z) (st : ec_state)
  : Z * ec_state :=
  if (brightness <? 0) || (brightness >? 3) then (- 1, st)
  else
    let wdata := nth (Z.to_nat brightness) MSI_EC_KBD_BL_STATE 0 in
    ec_write MSI_EC_KBD_BL_ADDRESS wdata st.

End Driver.

(** ** The attribute tables

    [DEVICE_ATTR_RW(webcam)] and the like bind a name to its [_show] and
    [_store] callbacks.  For the switches and modes, the table below lists
    each attribute with its register and the names its callbacks use, each
    with the register code the source pairs it with. *)

Record enum_attr : Type := mkEnumAttr {
  ea_name : string;
  ea_show : string -> ec_state -> Z * string * ec_state;
  ea_store : string -> Z -> ec_state -> Z * ec_state;
  ea_address : Z;
  ea_codes : list (string * Z)
}.

Definition enum_attrs {K : constants} : list enum_attr :=
  [ mkEnumAttr "webcam" webcam_show webcam_store MSI_EC_WEBCAM_ADDRESS
      [("on", MSI_EC_WEBCAM_ON); ("off", MSI_EC_WEBCAM_OFF)];
    mkEnumAttr "fn_key" fn_key_show fn_key_store MSI_EC_FN_WIN_ADDRESS
      [("left", MSI_EC_FN_KEY_LEFT); ("right", MSI_EC_FN_KEY_RIGHT)];
    mkEnumAttr "win_key" win_key_show win_key_store MSI_EC_FN_WIN_ADDRESS
      [("left", MSI_EC_WIN_KEY_LEFT); ("right", MSI_EC_WIN_KEY_RIGHT)];
    mkEnumAttr "battery_mode" battery_mode_show battery_mode_store
      MSI_EC_BATTERY_MODE_ADDRESS
      [("max", MSI_EC_BATTERY_MODE_MAX_CHARGE);
       ("medium", MSI_EC_BATTERY_MODE_MEDIUM_CHARGE);
       ("min", MSI_EC_BATTERY_MODE_MIN_CHARGE)];
    mkEnumAttr "cooler_boost" cooler_boost_show cooler_boost_store
      MSI_EC_COOLER_BOOST_ADDRESS
      [("on", MSI_EC_COOLER_BOOST_ON); ("off", MSI_EC_COOLER_BOOST_OFF)];
    mkEnumAttr "shift_mode" shift_mode_show shift_mode_store
      MSI_EC_SHIFT_MODE_ADDRESS
      [("performance", MSI_EC_SHIFT_MODE_PERFORMANCE);
       ("balanced", MSI_EC_SHIFT_MODE_BALANCED);
       ("eco", MSI_EC_SHIFT_MODE_ECO);
       ("off", MSI_EC_SHIFT_MODE_OFF)];
    mkEnumAttr "fan_mode" fan_mode_show fan_mode_store
      MSI_EC_FAN_MODE_ADDRESS
      [("silent", MSI_EC_FAN_MODE_SILENT);
       ("basic", MSI_EC_FAN_MODE_BASIC);
       ("advanced", MSI_EC_FAN_MODE_ADVANCED)] ].

(** ** Vocabulary of the statements *)

(** A [string] stands for a C string when none of its characters is NUL. *)
Fixpoint nul_free (s : string) : bool :=
  match s with
  | EmptyString => true
  | String c s' => negb (code c =? 0) && nul_free s'
  end.

(** A decimal numeral and the number it denotes. *)
Fixpoint all_digits (s : string) : bool :=
  match s with
  | EmptyString => true
  | String c s' => isdigit c && all_digits s'
  end.

Fixpoint dec_value (acc : Z) (s : string) : Z :=
  match s with
  | EmptyString => acc
  | String c s' => dec_value (acc * 10 + digit_val c) s'
  end.

Definition numeral (s : string) : option Z :=
  match s with
  | EmptyString => None
  | String _ _ => if all_digits s then Some (dec_value 0 s) else None
  end.

(** What user space writes for a numeral: the digits, with or without the
    newline that [echo] adds. *)
Definition written (s : string) (newline : bool) : string :=
  if newline then s +++ nl else s.

(** A chip none of whose accesses faults. *)
Definition reliable (st : ec_state) : Prop :=
  (forall before a, ec_rfault st before a = None) /\
  (forall before a d, ec_wfault st before a d = None).

(** The reads of [ec_read_seq addr _ len], in the order they are issued:
    [reads_from a j n] are the [n] reads from index [j] on. *)
Definition reads_from (addr : Z) (j n : nat) : list event :=
  map (fun m => EvRead (u8 (addr + Z.of_nat m))) (seq j n).

Definition read_events (addr : Z) (n : nat) : list event :=
  reads_from (u8 addr) 0 n.

(** An operation propagates faults when any transport call of its that
    faults is its last one and its errno is what the operation returns. *)
Definition faults_propagate (run : ec_state -> option (Z * ec_state)) : Prop :=
  forall st r st' before ev after e,
    run st = Some (r, st') ->
    ec_log st' = before ++ ev :: after ->
    (List.length (ec_log st) <= List.length before)%nat ->
    call_fault st before ev = Some e ->
    r = Zneg e /\ after = [].

Definition of_show (show : ec_state -> Z * string * ec_state)
  : ec_state -> option (Z * ec_state) :=
  fun st => let '(r, _, st') := show st in Some (r, st').

Definition of_show_opt (show : ec_state -> option (Z * string * ec_state))
  : ec_state -> option (Z * ec_state) :=
  fun st => match show st with
            | Some (r, _, st') => Some (r, st')
            | None => None
            end.

Definition of_seq (rd : ec_state -> option (Z * list Z * ec_state))
  : ec_state -> option (Z * ec_state) :=
  fun st => match rd st with
            | Some (r, _, st') => Some (r, st')
            | None => None
            end.

Definition of_store (store : ec_state -> Z * ec_state)
  : ec_state -> option (Z * ec_state) :=
  fun st => Some (store st).

(** An input is listed in a table of names when it is one of the names,
    bare or followed by one newline. *)
Definition listed (codes : list (string * Z)) (buf : string) : Prop :=
  exists name code,
    In (name, code) codes /\ (buf = name \/ buf = name +++ nl).

(** A [_store] accepts [buf] as [code]: it writes [code] to the register and
    returns the byte count, or the errno of the write. *)
Definition store_writes (store : string -> Z -> ec_state -> Z * ec_state)
           (addr code : Z) (buf : string) : Prop :=
  forall count st,
    store buf count st
    = (let '(r, st') := ec_write addr code st in
       if r <? 0 then (r, st') else (count, st')).

(** A [_store] rejects [buf]: [-EINVAL], and the chip is not touched. *)
Definition store_rejects (store : string -> Z -> ec_state -> Z * ec_state)
           (buf : string) : Prop :=
  forall count st, store buf count st = (- EINVAL, st).

(** The arguments of the driver's operations, gathered. *)
Record inputs : Type := mkInputs {
  in_buf : string;
  in_count : Z;
  in_brightness : Z;
  in_fuel : nat;
  in_locals : Z * Z * Z * Z * Z * Z;
  in_addr : Z;
  in_bytes : list Z;
  in_len : Z
}.

(** Every operation of the driver that calls the transport, but for
    [kbd_bl_sysfs_get], as a run from a chip state to a result. *)
Definition operations {K : constants} (i : inputs)
  : list (string * (ec_state -> option (Z * ec_state))) :=
  let buf := in_buf i in
  let count := in_count i in
  let '(year, month, day, hour, minute, second) := in_locals i in
  [ ("ec_read_seq",
     of_seq (ec_read_seq (in_fuel i) (in_addr i) (in_bytes i) (in_len i)));
    ("charge_control_start_threshold_show",
     of_show (charge_control_start_threshold_show buf));
    ("charge_control_end_threshold_show",
     of_show (charge_control_end_threshold_show buf));
    ("charge_control_start_threshold_store",
     of_store (charge_control_start_threshold_store buf count));
    ("charge_control_end_threshold_store",
     of_store (charge_control_end_threshold_store buf count));
    ("webcam_show", of_show (webcam_show buf));
    ("webcam_store", of_store (webcam_store buf count));
    ("fn_key_show", of_show (fn_key_show buf));
    ("fn_key_store", of_store (fn_key_store buf count));
    ("win_key_show", of_show (win_key_show buf));
    ("win_key_store", of_store (win_key_store buf count));
    ("battery_mode_show", of_show (battery_mode_show buf));
    ("battery_mode_store", of_store (battery_mode_store buf count));
    ("cooler_boost_show", of_show (cooler_boost_show buf));
    ("cooler_boost_store", of_store (cooler_boost_store buf count));
    ("shift_mode_show", of_show (shift_mode_show buf));
    ("shift_mode_store", of_store (shift_mode_store buf count));
    ("fan_mode_show", of_show (fan_mode_show buf));
    ("fan_mode_store", of_store (fan_mode_store buf count));
    ("fw_version_show", of_show_opt (fw_version_show (in_fuel i) buf));
    ("fw_release_date_show",
     of_show_opt (fw_release_date_show (in_fuel i) year month day
                                       hour minute second buf));
    ("cpu_realtime_temperature_show",
     of_show (cpu_realtime_temperature_show buf));
    ("cpu_realtime_fan_speed_show",
     of_show (cpu_realtime_fan_speed_show buf));
    ("cpu_basic_fan_speed_show", of_show (cpu_basic_fan_speed_show buf));
    ("cpu_basic_fan_speed_store",
     of_store (cpu_basic_fan_speed_store buf count));
    ("gpu_realtime_temperature_show",
     of_show (gpu_realtime_temperature_show buf));
    ("gpu_realtime_fan_speed_show",
     of_show (gpu_realtime_fan_speed_show buf));
    ("micmute_led_sysfs_set",
     of_store (micmute_led_sysfs_set (in_brightness i)));
    ("mute_led_sysfs_set", of_store (mute_led_sysfs_set (in_brightness i)));
    ("kbd_bl_sysfs_set", of_store (kbd_bl_sysfs_set (in_brightness i))) ].

(** A [_store] followed by the [_show] of the same attribute: the result of
    the store and what the show then returns. *)
Definition store_then_show
           (store : string -> Z -> ec_state -> Z * ec_state)
           (show : string -> ec_state -> Z * string * ec_state)
           (buf : string) (count : Z) (st : ec_state) : Z * (Z * string) :=
  let '(r, st1) := store buf count st in
  let '(n, text, _) := show "" st1 in
  (r, (n, text)).

(** ** Example configurations and chips *)

(** An example configuration; the fan range of the basic speed is the one
    of the specification's end-to-end example, [0x00..0x96]. *)
Definition example_constants : constants := {|
  MSI_EC_CHARGE_CONTROL_ADDRESS := 0xef;
  MSI_EC_CHARGE_CONTROL_OFFSET_START := 0x8a;
  MSI_EC_CHARGE_CONTROL_OFFSET_END := 0x80;
  MSI_EC_CHARGE_CONTROL_RANGE_MIN := 0x8a;
  MSI_EC_CHARGE_CONTROL_RANGE_MAX := 0xe4;
  MSI_EC_WEBCAM_ADDRESS := 0x2e;
  MSI_EC_WEBCAM_ON := 0x4a;
  MSI_EC_WEBCAM_OFF := 0x48;
  MSI_EC_FN_WIN_ADDRESS := 0xbf;
  MSI_EC_FN_KEY_LEFT := 0x40;
  MSI_EC_FN_KEY_RIGHT := 0x50;
  MSI_EC_WIN_KEY_LEFT := 0x50;
  MSI_EC_WIN_KEY_RIGHT := 0x40;
  MSI_EC_BATTERY_MODE_ADDRESS := 0xef;
  MSI_EC_BATTERY_MODE_MAX_CHARGE := 0xe4;
  MSI_EC_BATTERY_MODE_MEDIUM_CHARGE := 0xd0;
  MSI_EC_BATTERY_MODE_MIN_CHARGE := 0xbc;
  MSI_EC_COOLER_BOOST_ADDRESS := 0x98;
  MSI_EC_COOLER_BOOST_ON := 0x82;
  MSI_EC_COOLER_BOOST_OFF := 0x02;
  MSI_EC_SHIFT_MODE_ADDRESS := 0xf2;
  MSI_EC_SHIFT_MODE_PERFORMANCE := 0xc4;
  MSI_EC_SHIFT_MODE_BALANCED := 0xc1;
  MSI_EC_SHIFT_MODE_ECO := 0xc2;
  MSI_EC_SHIFT_MODE_OFF := 0x80;
  MSI_EC_FAN_MODE_ADDRESS := 0xf4;
  MSI_EC_FAN_MODE_SILENT := 0x1d;
  MSI_EC_FAN_MODE_BASIC := 0x4d;
  MSI_EC_FAN_MODE_ADVANCED := 0x8d;
  MSI_EC_FW_VERSION_ADDRESS := 0xa0;
  MSI_EC_FW_VERSION_LENGTH := 12;
  MSI_EC_FW_DATE_ADDRESS := 0xac;
  MSI_EC_FW_DATE_LENGTH := 8;
  MSI_EC_FW_TIME_ADDRESS := 0xb4;
  MSI_EC_FW_TIME_LENGTH := 8;
  MSI_EC_CPU_REALTIME_TEMPERATURE_ADDRESS := 0x68;
  MSI_EC_CPU_REALTIME_FAN_SPEED_ADDRESS := 0x71;
  MSI_EC_CPU_REALTIME_FAN_SPEED_BASE_MIN := 0x19;
  MSI_EC_CPU_REALTIME_FAN_SPEED_BASE_MAX := 0x37;
  MSI_EC_CPU_BASIC_FAN_SPEED_ADDRESS := 0x89;
  MSI_EC_CPU_BASIC_FAN_SPEED_BASE_MIN := 0x00;
  MSI_EC_CPU_BASIC_FAN_SPEED_BASE_MAX := 0x96;
  MSI_EC_GPU_REALTIME_TEMPERATURE_ADDRESS := 0x80;
  MSI_EC_GPU_REALTIME_FAN_SPEED_ADDRESS := 0x89;
  MSI_EC_LED_MICMUTE_ADDRESS := 0x2b;
  MSI_EC_MIC_LED_STATE_ON := 0x84;
  MSI_EC_MIC_LED_STATE_OFF := 0x81;
  MSI_EC_LED_MUTE_ADDRESS := 0x2c;
  MSI_EC_MUTE_LED_STATE_ON := 0x84;
  MSI_EC_MUTE_LED_STATE_OFF := 0x81;
  MSI_EC_KBD_BL_ADDRESS := 0xf3;
  MSI_EC_KBD_BL_STATE_MASK := 0x3;
  MSI_EC_KBD_BL_STATE := [0x80; 0x81; 0x82; 0x83]
|}.

(** A configuration with another range for the basic fan speed. *)
Definition with_basic_fan_range {K : constants} (lo hi : Z) : constants :=
  Build_constants
    MSI_EC_CHARGE_CONTROL_ADDRESS MSI_EC_CHARGE_CONTROL_OFFSET_START
    MSI_EC_CHARGE_CONTROL_OFFSET_END MSI_EC_CHARGE_CONTROL_RANGE_MIN
    MSI_EC_CHARGE_CONTROL_RANGE_MAX MSI_EC_WEBCAM_ADDRESS MSI_EC_WEBCAM_ON
    MSI_EC_WEBCAM_OFF MSI_EC_FN_WIN_ADDRESS MSI_EC_FN_KEY_LEFT
    MSI_EC_FN_KEY_RIGHT MSI_EC_WIN_KEY_LEFT MSI_EC_WIN_KEY_RIGHT
    MSI_EC_BATTERY_MODE_ADDRESS MSI_EC_BATTERY_MODE_MAX_CHARGE
    MSI_EC_BATTERY_MODE_MEDIUM_CHARGE MSI_EC_BATTERY_MODE_MIN_CHARGE
    MSI_EC_COOLER_BOOST_ADDRESS MSI_EC_COOLER_BOOST_ON MSI_EC_COOLER_BOOST_OFF
    MSI_EC_SHIFT_MODE_ADDRESS MSI_EC_SHIFT_MODE_PERFORMANCE
    MSI_EC_SHIFT_MODE_BALANCED MSI_EC_SHIFT_MODE_ECO MSI_EC_SHIFT_MODE_OFF
    MSI_EC_FAN_MODE_ADDRESS MSI_EC_FAN_MODE_SILENT MSI_EC_FAN_MODE_BASIC
    MSI_EC_FAN_MODE_ADVANCED MSI_EC_FW_VERSION_ADDRESS
    MSI_EC_FW_VERSION_LENGTH MSI_EC_FW_DATE_ADDRESS MSI_EC_FW_DATE_LENGTH
    MSI_EC_FW_TIME_ADDRESS MSI_EC_FW_TIME_LENGTH
    MSI_EC_CPU_REALTIME_TEMPERATURE_ADDRESS
    MSI_EC_CPU_REALTIME_FAN_SPEED_ADDRESS
    MSI_EC_CPU_REALTIME_FAN_SPEED_BASE_MIN
    MSI_EC_CPU_REALTIME_FAN_SPEED_BASE_MAX
    MSI_EC_CPU_BASIC_FAN_SPEED_ADDRESS lo hi
    MSI_EC_GPU_REALTIME_TEMPERATURE_ADDRESS
    MSI_EC_GPU_REALTIME_FAN_SPEED_ADDRESS MSI_EC_LED_MICMUTE_ADDRESS
    MSI_EC_MIC_LED_STATE_ON MSI_EC_MIC_LED_STATE_OFF MSI_EC_LED_MUTE_ADDRESS
    MSI_EC_MUTE_LED_STATE_ON MSI_EC_MUTE_LED_STATE_OFF MSI_EC_KBD_BL_ADDRESS
    MSI_EC_KBD_BL_STATE_MASK MSI_EC_KBD_BL_STATE.

(** A configuration with another length for the firmware version. *)
Definition with_fw_version_length {K : constants} (len : Z) : constants :=
  Build_constants
    MSI_EC_CHARGE_CONTROL_ADDRESS MSI_EC_CHARGE_CONTROL_OFFSET_START
    MSI_EC_CHARGE_CONTROL_OFFSET_END MSI_EC_CHARGE_CONTROL_RANGE_MIN
    MSI_EC_CHARGE_CONTROL_RANGE_MAX MSI_EC_WEBCAM_ADDRESS MSI_EC_WEBCAM_ON
    MSI_EC_WEBCAM_OFF MSI_EC_FN_WIN_ADDRESS MSI_EC_FN_KEY_LEFT
    MSI_EC_FN_KEY_RIGHT MSI_EC_WIN_KEY_LEFT MSI_EC_WIN_KEY_RIGHT
    MSI_EC_BATTERY_MODE_ADDRESS MSI_EC_BATTERY_MODE_MAX_CHARGE
    MSI_EC_BATTERY_MODE_MEDIUM_CHARGE MSI_EC_BATTERY_MODE_MIN_CHARGE
    MSI_EC_COOLER_BOOST_ADDRESS MSI_EC_COOLER_BOOST_ON MSI_EC_COOLER_BOOST_OFF
    MSI_EC_SHIFT_MODE_ADDRESS MSI_EC_SHIFT_MODE_PERFORMANCE
    MSI_EC_SHIFT_MODE_BALANCED MSI_EC_SHIFT_MODE_ECO MSI_EC_SHIFT_MODE_OFF
    MSI_EC_FAN_MODE_ADDRESS MSI_EC_FAN_MODE_SILENT MSI_EC_FAN_MODE_BASIC
    MSI_EC_FAN_MODE_ADVANCED MSI_EC_FW_VERSION_ADDRESS
    len MSI_EC_FW_DATE_ADDRESS MSI_EC_FW_DATE_LENGTH
    MSI_EC_FW_TIME_ADDRESS MSI_EC_FW_TIME_LENGTH
    MSI_EC_CPU_REALTIME_TEMPERATURE_ADDRESS
    MSI_EC_CPU_REALTIME_FAN_SPEED_ADDRESS
    MSI_EC_CPU_REALTIME_FAN_SPEED_BASE_MIN
    MSI_EC_CPU_REALTIME_FAN_SPEED_BASE_MAX
    MSI_EC_CPU_BASIC_FAN_SPEED_ADDRESS
    MSI_EC_CPU_BASIC_FAN_SPEED_BASE_MIN MSI_EC_CPU_BASIC_FAN_SPEED_BASE_MAX
    MSI_EC_GPU_REALTIME_TEMPERATURE_ADDRESS
    MSI_EC_GPU_REALTIME_FAN_SPEED_ADDRESS MSI_EC_LED_MICMUTE_ADDRESS
    MSI_EC_MIC_LED_STATE_ON MSI_EC_MIC_LED_STATE_OFF MSI_EC_LED_MUTE_ADDRESS
    MSI_EC_MUTE_LED_STATE_ON MSI_EC_MUTE_LED_STATE_OFF MSI_EC_KBD_BL_ADDRESS
    MSI_EC_KBD_BL_STATE_MASK MSI_EC_KBD_BL_STATE.

(** The example with a firmware version of 256 bytes. *)
Definition long_version_constants : constants :=
  @with_fw_version_length example_constants 256.

(** The example with a basic fan range of sixteen steps, [0x00..0x0f]. *)
Definition narrow_fan_constants : constants :=
  @with_basic_fan_range example_constants 0x00 0x0f.

(** A chip whose registers hold [regs] and that never faults. *)
Definition quiet_ec (regs : Z -> Z) : ec_state :=
  mkEc regs [] (fun _ _ => None) (fun _ _ _ => None).

(** A chip every read of which faults with [EIO] (5); writes succeed. *)
Definition deaf_ec (regs : Z -> Z) : ec_state :=
  mkEc regs [] (fun _ _ => Some 5%positive) (fun _ _ _ => None).

(** A chip whose reads of register [bad] fault with [EIO] (5). *)
Definition flaky_ec (regs : Z -> Z) (bad : Z) : ec_state :=
  mkEc regs []
       (fun _ a => if a =? bad then Some 5%positive else None)
       (fun _ _ _ => None).

(** Registers holding the bytes of [s] from address [base] on, 0 elsewhere. *)
Definition regs_of_string (base : Z) (s : string) : Z -> Z :=
  fun a =>
    if (base <=? a) && (a <? base + Z.of_nat (String.length s))
    then match String.get (Z.to_nat (a - base)) s with
         | Some c => code c
         | None => 0
         end
    else 0.

(** Two strings in two places. *)
Definition regs_of_strings (b1 : Z) (s1 : string) (b2 : Z) (s2 : string)
  : Z -> Z :=
  fun a =>
    if (b1 <=? a) && (a <? b1 + Z.of_nat (String.length s1))
    then regs_of_string b1 s1 a
    else regs_of_string b2 s2 a.

(** ** Tables of the callbacks, by register *)

(** The show callbacks that read one register, each with its address and
    with the number its code divides by, for the two that have a division
    ([BASE_MAX - BASE_MIN], after the range check). *)
Definition single_read_shows {K : constants}
  : list (Z * option Z * (string -> ec_state -> Z * string * ec_state)) :=
  [ (MSI_EC_CHARGE_CONTROL_ADDRESS, None,
     charge_control_start_threshold_show);
    (MSI_EC_CHARGE_CONTROL_ADDRESS, None, charge_control_end_threshold_show);
    (MSI_EC_WEBCAM_ADDRESS, None, webcam_show);
    (MSI_EC_FN_WIN_ADDRESS, None, fn_key_show);
    (MSI_EC_FN_WIN_ADDRESS, None, win_key_show);
    (MSI_EC_BATTERY_MODE_ADDRESS, None, battery_mode_show);
    (MSI_EC_COOLER_BOOST_ADDRESS, None, cooler_boost_show);
    (MSI_EC_SHIFT_MODE_ADDRESS, None, shift_mode_show);
    (MSI_EC_FAN_MODE_ADDRESS, None, fan_mode_show);
    (MSI_EC_CPU_REALTIME_TEMPERATURE_ADDRESS, None,
     cpu_realtime_temperature_show);
    (MSI_EC_CPU_REALTIME_FAN_SPEED_ADDRESS,
     Some (MSI_EC_CPU_REALTIME_FAN_SPEED_BASE_MAX
           - MSI_EC_CPU_REALTIME_FAN_SPEED_BASE_MIN),
     cpu_realtime_fan_speed_show);
    (MSI_EC_CPU_BASIC_FAN_SPEED_ADDRESS,
     Some (MSI_EC_CPU_BASIC_FAN_SPEED_BASE_MAX
           - MSI_EC_CPU_BASIC_FAN_SPEED_BASE_MIN),
     cpu_basic_fan_speed_show);
    (MSI_EC_GPU_REALTIME_TEMPERATURE_ADDRESS, None,
     gpu_realtime_temperature_show);
    (MSI_EC_GPU_REALTIME_FAN_SPEED_ADDRESS, None,
     gpu_realtime_fan_speed_show) ].

(** The store callbacks, each with the register it writes. *)
Definition single_write_stores {K : constants}
  : list (Z * (string -> Z -> ec_state -> Z * ec_state)) :=
  [ (MSI_EC_CHARGE_CONTROL_ADDRESS, charge_control_start_threshold_store);
    (MSI_EC_CHARGE_CONTROL_ADDRESS, charge_control_end_threshold_store);
    (MSI_EC_WEBCAM_ADDRESS, webcam_store);
    (MSI_EC_FN_WIN_ADDRESS, fn_key_store);
    (MSI_EC_FN_WIN_ADDRESS, win_key_store);
    (MSI_EC_BATTERY_MODE_ADDRESS, battery_mode_store);
    (MSI_EC_COOLER_BOOST_ADDRESS, cooler_boost_store);
    (MSI_EC_SHIFT_MODE_ADDRESS, shift_mode_store);
    (MSI_EC_FAN_MODE_ADDRESS, fan_mode_store);
    (MSI_EC_CPU_BASIC_FAN_SPEED_ADDRESS, cpu_basic_fan_speed_store) ].

(** The LED setters, each with the register it writes. *)
Definition led_setters {K : constants}
  : list (Z * (Z -> ec_state -> Z * ec_state)) :=
  [ (MSI_EC_LED_MICMUTE_ADDRESS, micmute_led_sysfs_set);
    (MSI_EC_LED_MUTE_ADDRESS, mute_led_sysfs_set);
    (MSI_EC_KBD_BL_ADDRESS, kbd_bl_sysfs_set) ].

(** What an operation may do to the chip: nothing, or one call [ev]. *)
Definition untouched_or_one_call (st st' : ec_state) (ev : event) : Prop :=
  st' = st
  \/ st' = log_call st ev
  \/ match ev with
     | EvWrite a d => st' = set_reg (log_call st ev) a d
     | EvRead _ => False
     end.

(** The bytes of the registers [addr], [addr + 1], ... ([n] of them, the
    addresses taken in a byte). *)
Definition reg_bytes (st : ec_state) (addr : Z) (n : nat) : list Z :=
  map (fun j => u8 (ec_regs st (u8 (u8 addr + Z.of_nat j)))) (seq 0 n).

(** The text of a list of characters. *)
Fixpoint string_of_chars (l : list ascii) : string :=
  match l with
  | [] => ""
  | c :: l' => String c (string_of_chars l')
  end.

(** ** Module load and unload

    [msi_ec_init] and [msi_ec_exit] call into the kernel.  Each call is
    logged with what it returned; what a call returns is decided outside
    the driver, by an oracle that sees the calls made so far.  For
    [platform_device_alloc] the result is the pointer (0 is [NULL]). *)

Inductive kcall : Type :=
| pr_err (msg : string)
| pr_info (msg : string)
| platform_driver_register
| platform_driver_unregister
| platform_device_alloc
| platform_device_add
| platform_device_del
| battery_hook_register
| battery_hook_unregister
| led_classdev_register (name : string)
| led_classdev_unregister (name : string).

Record kernel : Type := mkKernel {
  acpi_disabled : bool;
  k_log : list (kcall * Z);
  k_oracle : list (kcall * Z) -> kcall -> Z;
  msi_platform_device : Z
}.

Definition ENODEV : Z := 19.
Definition ENOMEM : Z := 12.

(** A call: its result, logged. *)
Definition kdo (c : kcall) (k : kernel) : Z * kernel :=
  let r := k_oracle k (k_log k) c in
  (r, mkKernel (acpi_disabled k) (k_log k ++ [(c, r)]) (k_oracle k)
               (msi_platform_device k)).

Definition set_platform_device (p : Z) (k : kernel) : kernel :=
  mkKernel (acpi_disabled k) (k_log k) (k_oracle k) p.

(** The names of the three LED class devices. *)
Definition micmute_led_cdev : string := "platform::micmute".
Definition mute_led_cdev : string := "platform::mute".
Definition msiacpi_led_kbdlight : string := "msiacpi::kbd_backlight".

Definition msi_ec_init (k : kernel) : Z * kernel :=
  if acpi_disabled k then
    let '(_, k) :=
      kdo (pr_err ("Unable to init because ACPI needs to be enabled first!"
                   +++ nl)) k in
    (- ENODEV, k)
  else
    let '(result, k) := kdo platform_driver_register k in
    if result <? 0 then (result, k)
    else
      let '(dev, k) := kdo platform_device_alloc k in
      let k := set_platform_device dev k in
      if dev =? 0 then
        let '(_, k) := kdo platform_driver_unregister k in
        (- ENOMEM, k)
      else
        let '(result, k) := kdo platform_device_add k in
        if result <? 0 then
          let '(_, k) := kdo platform_device_del k in
          let '(_, k) := kdo platform_driver_unregister k in
          (result, k)
        else
          let '(_, k) := kdo battery_hook_register k in
          let '(_, k) := kdo (led_classdev_register micmute_led_cdev) k in
          let '(_, k) := kdo (led_classdev_register mute_led_cdev) k in
          let '(_, k) := kdo (led_classdev_register msiacpi_led_kbdlight) k in
          let '(_, k) := kdo (pr_info ("msi-ec: module_init" +++ nl)) k in
          (0, k).

Definition msi_ec_exit (k : kernel) : kernel :=
  let '(_, k) := kdo (led_classdev_unregister mute_led_cdev) k in
  let '(_, k) := kdo (led_classdev_unregister micmute_led_cdev) k in
  let '(_, k) := kdo (led_classdev_unregister msiacpi_led_kbdlight) k in
  let '(_, k) := kdo battery_hook_unregister k in
  let '(_, k) := kdo platform_driver_unregister k in
  let '(_, k) := kdo platform_device_del k in
  let '(_, k) := kdo (pr_info ("msi-ec: module_exit" +++ nl)) k in
  k.

(** The calls of a log, without their results. *)
Definition calls (l : list (kcall * Z)) : list kcall := map fst l.

(** A kernel in which ACPI is on and nothing was called yet; [oracle]
    decides the results. *)
Definition fresh_kernel (oracle : list (kcall * Z) -> kcall -> Z) : kernel :=
  mkKernel false [] oracle 0.

(** Every call succeeds; [platform_device_alloc] returns some pointer. *)
Definition all_succeed : list (kcall * Z) -> kcall -> Z :=
  fun _ c => match c with platform_device_alloc => 4096 | _ => 0 end.

(** As [all_succeed], but [platform_device_add] fails with [-EEXIST] and
    the LED registrations fail with [-ENOMEM]. *)
Definition add_fails : list (kcall * Z) -> kcall -> Z :=
  fun _ c => match c with
             | platform_device_alloc => 4096
             | platform_device_add => - 17
             | led_classdev_register _ => - 12
             | _ => 0
             end.

(** As [all_succeed], but every LED registration fails with [-ENOMEM]. *)
Definition leds_fail : list (kcall * Z) -> kcall -> Z :=
  fun _ c => match c with
             | platform_device_alloc => 4096
             | led_classdev_register _ => - 12
             | _ => 0
             end.

(** The call that undoes a registration. *)
Definition undo (c : kcall) : option kcall :=
  match c with
  | platform_driver_register => Some platform_driver_unregister
  | platform_device_add => Some platform_device_del
  | battery_hook_register => Some battery_hook_unregister
  | led_classdev_register name => Some (led_classdev_unregister name)
  | _ => None
  end.

Definition kcall_eqb (a b : kcall) : bool :=
  match a, b with
  | pr_err x, pr_err y => String.eqb x y
  | pr_info x, pr_info y => String.eqb x y
  | platform_driver_register, platform_driver_register => true
  | platform_driver_unregister, platform_driver_unregister => true
  | platform_device_alloc, platform_device_alloc => true
  | platform_device_add, platform_device_add => true
  | platform_device_del, platform_device_del => true
  | battery_hook_register, battery_hook_register => true
  | battery_hook_unregister, battery_hook_unregister => true
  | led_classdev_register x, led_classdev_register y => String.eqb x y
  | led_classdev_unregister x, led_classdev_unregister y => String.eqb x y
  | _, _ => false
  end.

(** The registrations of a log that succeeded (result not negative) and
    that no later call of the log undoes. *)
Fixpoint outstanding (l : list (kcall * Z)) : list kcall :=
  match l with
  | [] => []
  | (c, r) :: l' =>
      match undo c with
      | Some u =>
          if (0 <=? r) && negb (existsb (kcall_eqb u) (calls l'))
          then c :: outstanding l'
          else outstanding l'
      | None => outstanding l'
      end
  end.

(** * Properties *)

(** ** Bytes and characters *)

Lemma u8_range (x : Z) : 0 <= u8 x <= 255.
Proof. unfold u8. pose proof (Z.mod_pos_bound x 256). lia. Qed.

Lemma u8_small (x : Z) : 0 <= x <= 255 -> u8 x = x.
Proof. intros H. unfold u8. apply Z.mod_small. lia. Qed.

Lemma u8_idem (x : Z) : u8 (u8 x) = u8 x.
Proof. apply u8_small, u8_range. Qed.

Lemma code_inj (a b : ascii) : code a = code b -> a = b.
Proof.
  unfold code. intros H. apply N2Z.inj in H.
  rewrite <- (ascii_N_embedding a), <- (ascii_N_embedding b).
  now rewrite H.
Qed.

Lemma code_range (c : ascii) : 0 <= code c <= 255.
Proof.
  unfold code. pose proof (N_ascii_bounded c). lia.
Qed.

Lemma isdigit_digit_val (c : ascii) :
  isdigit c = true -> 0 <= digit_val c <= 9.
Proof.
  unfold isdigit, digit_val. intros H.
  apply andb_prop in H. destruct H as [H1 H2].
  apply Z.leb_le in H1. apply Z.leb_le in H2. lia.
Qed.

(** ** [strcmp] and [streq] *)

Lemma strcmp_refl (x : string) : strcmp x x = 0.
Proof.
  induction x as [|a x IH]; simpl; [reflexivity|].
  now rewrite Z.eqb_refl.
Qed.

Lemma strcmp_eq (x y : string) :
  nul_free x = true -> nul_free y = true -> (strcmp x y = 0 <-> x = y).
Proof.
  intros Hx Hy. split; [|intros ->; apply strcmp_refl].
  revert y Hx Hy. induction x as [|a x IH]; intros [|b y]; simpl;
    intros Hx Hy H.
  - reflexivity.
  - apply andb_prop in Hy. destruct Hy as [Hb _].
    apply negb_true_iff, Z.eqb_neq in Hb. lia.
  - apply andb_prop in Hx. destruct Hx as [Ha _].
    apply negb_true_iff, Z.eqb_neq in Ha. lia.
  - apply andb_prop in Hx. destruct Hx as [_ Hx].
    apply andb_prop in Hy. destruct Hy as [_ Hy].
    destruct (code a =? code b) eqn:E.
    + apply Z.eqb_eq, code_inj in E. subst b. f_equal. now apply IH.
    + apply Z.eqb_neq in E. lia.
Qed.

Lemma nul_free_app (x y : string) :
  nul_free x = true -> nul_free y = true -> nul_free (x +++ y) = true.
Proof.
  intros Hx Hy. induction x as [|a x IH]; simpl in *; [exact Hy|].
  apply andb_prop in Hx. destruct Hx as [Ha Hx].
  rewrite Ha. simpl. now apply IH.
Qed.

Lemma streq_spec (x y : string) :
  nul_free x = true -> nul_free y = true ->
  (streq x y = true <-> x = y \/ x = y +++ nl).
Proof.
  intros Hx Hy. unfold streq. rewrite orb_true_iff, !Z.eqb_eq.
  rewrite (strcmp_eq x y Hx Hy).
  rewrite (strcmp_eq x (y +++ nl) Hx (nul_free_app y nl Hy eq_refl)).
  reflexivity.
Qed.

Lemma streq_false (x y : string) :
  nul_free x = true -> nul_free y = true ->
  x <> y -> x <> y +++ nl -> streq x y = false.
Proof.
  intros Hx Hy H1 H2. destruct (streq x y) eqn:E; [|reflexivity].
  apply (streq_spec x y Hx Hy) in E. tauto.
Qed.

(** ** [kstrtou8] on decimal numerals *)

Lemma dec_value_ge (s : string) : forall acc,
  all_digits s = true -> 0 <= acc -> acc <= dec_value acc s.
Proof.
  induction s as [|c s IH]; intros acc Hd Hacc; simpl in *; [lia|].
  apply andb_prop in Hd. destruct Hd as [Hc Hs].
  pose proof (isdigit_digit_val c Hc).
  specialize (IH (acc * 10 + digit_val c) Hs). lia.
Qed.

Lemma append_length (s t : string) :
  String.length (s +++ t) = (String.length s + String.length t)%nat.
Proof. induction s as [|c s IH]; simpl; [reflexivity | now rewrite IH]. Qed.

(** Digits are consumed up to a terminator [t] that is empty or starts with
    a character that is no digit; the overflow flag is raised exactly when
    the number does not fit 64 bits. *)
Lemma parse_digits (s t : string) :
  (t = "" \/ exists c r, t = String c r /\ isdigit c = false) ->
  forall m res rv ovf,
    all_digits s = true ->
    (String.length s <= m)%nat ->
    0 <= res < 2 ^ 64 ->
    exists R,
      _parse_integer_limit (s +++ t) m res rv ovf
      = (rv + Z.of_nat (String.length s), R,
         ovf || (2 ^ 64 <=? dec_value res s), t)
      /\ (dec_value res s < 2 ^ 64 -> R = dec_value res s).
Proof.
  intros Ht. induction s as [|c s IH]; intros m res rv ovf Hd Hm Hres.
  - cbn [String.append String.length dec_value Z.of_nat].
    exists res. split; [|reflexivity].
    replace (2 ^ 64 <=? res) with false by (symmetry; apply Z.leb_gt; lia).
    rewrite orb_false_r, Z.add_0_r.
    destruct Ht as [-> | (c & r & -> & Hc)].
    + destruct m; reflexivity.
    + destruct m; simpl; [reflexivity | now rewrite Hc].
  - simpl in Hd. apply andb_prop in Hd. destruct Hd as [Hc Hs].
    pose proof (isdigit_digit_val c Hc) as Hv.
    destruct m as [|m]; [simpl in Hm; lia|].
    cbn [String.append _parse_integer_limit]. rewrite Hc.
    assert (Hb : 0 <= (res * 10 + digit_val c) mod 2 ^ 64 < 2 ^ 64)
      by (apply Z.mod_pos_bound; lia).
    destruct (IH m ((res * 10 + digit_val c) mod 2 ^ 64) (rv + 1)
                 (ovf || (2 ^ 64 <=? res * 10 + digit_val c)) Hs
                 ltac:(simpl in Hm; lia) Hb) as (R & HR & Hexact).
    exists R. rewrite HR. cbn [String.length dec_value].
    pose proof (dec_value_ge s (res * 10 + digit_val c) Hs ltac:(lia)) as Hge.
    destruct (Z.leb_spec (2 ^ 64) (res * 10 + digit_val c)) as [Hov | Hfit].
    + split; [|intros Hlt; lia].
      rewrite orb_true_r. cbn [orb].
      replace (2 ^ 64 <=? dec_value (res * 10 + digit_val c) s) with true
        by (symmetry; apply Z.leb_le; lia).
      rewrite orb_true_r. do 3 f_equal. lia.
    + rewrite Z.mod_small in * by lia. split; [|exact Hexact].
      rewrite orb_false_r. do 3 f_equal. lia.
Qed.

Lemma numeral_inv (s : string) (v : Z) :
  numeral s = Some v ->
  exists c s', s = String c s' /\ isdigit c = true
               /\ all_digits s = true /\ v = dec_value 0 s.
Proof.
  unfold numeral. destruct s as [|c s']; [discriminate|].
  destruct (all_digits (String c s')) eqn:Hd; [|discriminate].
  intros [= <-]. exists c, s'. repeat split; trivial.
  simpl in Hd. now apply andb_prop in Hd.
Qed.

Lemma numeral_nonneg (s : string) (v : Z) : numeral s = Some v -> 0 <= v.
Proof.
  intros H. apply numeral_inv in H. destruct H as (c & s' & _ & _ & Hd & ->).
  apply dec_value_ge; [exact Hd | lia].
Qed.

Lemma isdigit_not_plus (c : ascii) : isdigit c = true -> (code c =? 43) = false.
Proof.
  unfold isdigit. intros H. apply andb_prop in H. destruct H as [H _].
  apply Z.leb_le in H. apply Z.eqb_neq. lia.
Qed.

Lemma kstrtoull_numeral (s : string) (v : Z) (newline : bool) :
  numeral s = Some v ->
  kstrtoull (written s newline)
  = if 2 ^ 64 <=? v then (- ERANGE, 0) else (0, v).
Proof.
  intros H. destruct (numeral_inv s v H) as (c & s' & Hs & Hc & Hd & Hv).
  set (t := if newline then nl else "").
  assert (Hw : written s newline = s +++ t).
  { unfold written, t. destruct newline; [reflexivity|].
    clear. induction s as [|a s IH]; simpl; [reflexivity | now rewrite <- IH]. }
  assert (Ht : t = "" \/ exists c r, t = String c r /\ isdigit c = false).
  { unfold t. destruct newline; [right | now left].
    exists (chr 10), "". split; reflexivity. }
  unfold kstrtoull. rewrite Hw.
  assert (Hhead : s +++ t = String c (s' +++ t)) by (now rewrite Hs).
  rewrite Hhead, (isdigit_not_plus c Hc), <- Hhead.
  unfold _parse_integer.
  destruct (parse_digits s t Ht (String.length (s +++ t)) 0 0 false Hd
              ltac:(rewrite append_length; lia) ltac:(lia))
    as (R & HR & Hexact).
  rewrite HR, <- Hv. cbn [orb].
  destruct (Z.leb_spec (2 ^ 64) v) as [Hov | Hfit]; [reflexivity|].
  replace (0 + Z.of_nat (String.length s) =? 0) with false.
  2:{ symmetry. apply Z.eqb_neq. rewrite Hs. simpl String.length. lia. }
  rewrite (Hexact ltac:(lia)), <- Hv.
  unfold t. destruct newline; reflexivity.
Qed.

Lemma kstrtou8_numeral (s : string) (v : Z) (newline : bool) :
  numeral s = Some v ->
  kstrtou8 (written s newline)
  = if v <=? 255 then (0, v) else (- ERANGE, 0).
Proof.
  intros H. unfold kstrtou8. rewrite (kstrtoull_numeral s v newline H).
  pose proof (numeral_nonneg s v H) as Hv.
  destruct (Z.leb_spec (2 ^ 64) v) as [Hov | Hfit].
  - replace (v <=? 255) with false by (symmetry; apply Z.leb_gt; lia).
    reflexivity.
  - cbn [Z.ltb Z.compare]. destruct (Z.leb_spec v 255) as [Hb | Hb].
    + rewrite (u8_small v) by lia. now rewrite Z.eqb_refl.
    + replace (v =? u8 v) with false; [reflexivity|].
      symmetry. apply Z.eqb_neq. pose proof (u8_range v). lia.
Qed.

(** ** The transport calls *)

Lemma ec_read_ok (addr : Z) (st : ec_state) :
  ec_rfault st (ec_log st) (u8 addr) = None ->
  ec_read addr st
  = (0, u8 (ec_regs st (u8 addr)), log_call st (EvRead (u8 addr))).
Proof. intros H. unfold ec_read. now rewrite H. Qed.

Lemma ec_read_fault (addr : Z) (st : ec_state) (e : positive) :
  ec_rfault st (ec_log st) (u8 addr) = Some e ->
  ec_read addr st = (Zneg e, 0, log_call st (EvRead (u8 addr))).
Proof. intros H. unfold ec_read. now rewrite H. Qed.

Lemma ec_write_ok (addr data : Z) (st : ec_state) :
  ec_wfault st (ec_log st) (u8 addr) (u8 data) = None ->
  ec_write addr data st
  = (0, set_reg (log_call st (EvWrite (u8 addr) (u8 data)))
                (u8 addr) (u8 data)).
Proof. intros H. unfold ec_write. now rewrite H. Qed.

Lemma ec_write_fault (addr data : Z) (st : ec_state) (e : positive) :
  ec_wfault st (ec_log st) (u8 addr) (u8 data) = Some e ->
  ec_write addr data st
  = (Zneg e, log_call st (EvWrite (u8 addr) (u8 data))).
Proof. intros H. unfold ec_write. now rewrite H. Qed.

(** A log that grew by one call: where a given call of it can sit. *)
Lemma one_call_split (old before after : list event) (ev0 ev : event) :
  old ++ [ev0] = before ++ ev :: after ->
  (List.length old <= List.length before)%nat ->
  before = old /\ ev = ev0 /\ after = [].
Proof.
  revert before. induction old as [|x old IH]; intros before H Hlen.
  - destruct before as [|b before]; simpl in *.
    + injection H as <- <-. auto.
    + injection H as _ H. destruct before; discriminate H.
  - destruct before as [|b before]; simpl in *; [lia|].
    injection H as <- H.
    destruct (IH before H ltac:(lia)) as (-> & -> & ->). auto.
Qed.

Lemma app_same_length (a b c d : list event) :
  a ++ b = c ++ d -> List.length a = List.length c -> a = c /\ b = d.
Proof.
  revert c. induction a as [|x a IH]; intros [|y c] H Hlen;
    simpl in *; try discriminate; [auto|].
  injection H as <- H. destruct (IH c H ltac:(lia)) as (-> & ->). auto.
Qed.

Lemma no_call_split (old before after : list event) (ev : event) :
  old = before ++ ev :: after ->
  (List.length old <= List.length before)%nat -> False.
Proof.
  intros -> H. rewrite length_app in H. simpl in H. lia.
Qed.

(** ** The loop of [ec_read_seq] *)

Lemma reads_from_S (addr : Z) (j n : nat) :
  reads_from addr j (S n)
  = EvRead (u8 (addr + Z.of_nat j)) :: reads_from addr (S j) n.
Proof. reflexivity. Qed.

Lemma reads_from_snoc (addr : Z) (j n : nat) :
  reads_from addr j (S n)
  = reads_from addr j n ++ [EvRead (u8 (addr + Z.of_nat (j + n)))].
Proof.
  unfold reads_from. rewrite seq_S, map_app. reflexivity.
Qed.

Lemma reads_from_length (addr : Z) (j n : nat) :
  List.length (reads_from addr j n) = n.
Proof. unfold reads_from. now rewrite length_map, length_seq. Qed.

(** Whatever the loop returns, it only appended calls to the log, and left
    the registers and the chip's behaviour alone. *)
Lemma loop_frame (fuel : nat) : forall addr buf len i st r buf' st',
  ec_read_seq_loop fuel addr buf len i st = Some (r, buf', st') ->
  (exists l, ec_log st' = ec_log st ++ l)
  /\ ec_regs st' = ec_regs st
  /\ ec_rfault st' = ec_rfault st /\ ec_wfault st' = ec_wfault st.
Proof.
  induction fuel as [|fuel IH]; intros addr buf len i st r buf' st' H;
    [discriminate|].
  simpl in H. destruct (i <? len).
  - unfold ec_read in H.
    destruct (ec_rfault st (ec_log st) (u8 (addr + i))) as [e|].
    + cbn in H. injection H as <- <- <-. simpl.
      repeat split; trivial. eexists; reflexivity.
    + cbn in H. apply IH in H. destruct H as ((l & Hl) & Hr & Hrf & Hwf).
      simpl in *. repeat split; trivial.
      exists (EvRead (u8 (addr + i)) :: l). rewrite Hl, <- app_assoc.
      reflexivity.
  - injection H as <- <- <-. repeat split; trivial.
    exists []. now rewrite app_nil_r.
Qed.

(** A fault inside the loop ends it and is its result. *)
Lemma loop_faults_propagate (fuel : nat) :
  forall addr buf len i st r buf' st' before ev after e,
    ec_read_seq_loop fuel addr buf len i st = Some (r, buf', st') ->
    ec_log st' = before ++ ev :: after ->
    (List.length (ec_log st) <= List.length before)%nat ->
    call_fault st before ev = Some e ->
    r = Zneg e /\ after = [].
Proof.
  induction fuel as [|fuel IH];
    intros addr buf len i st r buf' st' before ev after e H Hlog Hlen Hf;
    [discriminate|].
  simpl in H. destruct (i <? len).
  - unfold ec_read in H.
    destruct (ec_rfault st (ec_log st) (u8 (addr + i))) as [e0|] eqn:E.
    + cbn in H. injection H as <- <- <-. simpl in Hlog.
      destruct (one_call_split _ _ _ _ _ Hlog Hlen) as (-> & -> & ->).
      simpl in Hf. rewrite E in Hf. injection Hf as ->. auto.
    + cbn in H.
      destruct (loop_frame _ _ _ _ _ _ _ _ _ H) as ((l & Hl) & _).
      simpl in Hl.
      destruct (Nat.eq_dec (List.length before) (List.length (ec_log st)))
        as [Heq | Hne].
      * exfalso. rewrite Hlog, <- app_assoc in Hl. simpl in Hl.
        destruct (app_same_length _ _ _ _ Hl Heq) as (-> & Hev).
        injection Hev as -> _. simpl in Hf. congruence.
      * eapply (IH _ _ _ _ _ _ _ _ before ev after e H Hlog).
        -- simpl. rewrite length_app. simpl. lia.
        -- destruct ev; exact Hf.
  - injection H as <- <- <-. exfalso. eapply no_call_split; eauto.
Qed.

Lemma log_call_reads (st : ec_state) (addr : Z) (j m : nat) :
  ec_log (log_call st (EvRead (u8 (addr + Z.of_nat j))))
    ++ reads_from addr (S j) m
  = ec_log st ++ reads_from addr j (S m).
Proof.
  unfold log_call. cbn [ec_log]. rewrite <- app_assoc. reflexivity.
Qed.

(** The counter stays the iteration number while that is below 256. *)
Lemma u8_succ (j : nat) : (j < 255)%nat -> u8 (Z.of_nat j + 1) = Z.of_nat (S j).
Proof. intros H. rewrite u8_small; lia. Qed.

(** The first [n] reads from iteration [j] on succeed and the next one
    faults with [e]: the loop returns [-e] after these [n + 1] reads. *)
Lemma loop_fault_at (n : nat) : forall fuel addr buf len j st e,
  (j + n <= 255)%nat ->
  Z.of_nat (j + n) < len ->
  (n < fuel)%nat ->
  (forall m, (m < n)%nat ->
     ec_rfault st (ec_log st ++ reads_from addr j m)
               (u8 (addr + Z.of_nat (j + m))) = None) ->
  ec_rfault st (ec_log st ++ reads_from addr j n)
            (u8 (addr + Z.of_nat (j + n))) = Some e ->
  exists buf' st',
    ec_read_seq_loop fuel addr buf len (Z.of_nat j) st
    = Some (Zneg e, buf', st')
    /\ ec_log st' = ec_log st ++ reads_from addr j (S n)
    /\ ec_regs st' = ec_regs st.
Proof.
  induction n as [|n IH]; intros fuel addr buf len j st e Hj Hlen Hfuel Hok He.
  - destruct fuel as [|fuel]; [lia|]. simpl.
    replace (Z.of_nat j <? len) with true
      by (symmetry; apply Z.ltb_lt; lia).
    unfold reads_from in He. simpl in He.
    rewrite app_nil_r, Nat.add_0_r in He.
    rewrite (ec_read_fault _ _ _ He). cbn.
    eexists _, _. split; [reflexivity|]. split; reflexivity.
  - destruct fuel as [|fuel]; [lia|]. simpl.
    replace (Z.of_nat j <? len) with true
      by (symmetry; apply Z.ltb_lt; lia).
    pose proof (Hok 0%nat ltac:(lia)) as H0.
    unfold reads_from in H0. simpl in H0.
    rewrite app_nil_r, Nat.add_0_r in H0.
    rewrite (ec_read_ok _ _ H0). cbn.
    rewrite u8_succ by lia.
    set (st1 := log_call st (EvRead (u8 (addr + Z.of_nat j)))).
    destruct (IH fuel addr
                 (poke buf (Z.to_nat (Z.of_nat j))
                       (u8 (ec_regs st (u8 (addr + Z.of_nat j)))))
                 len (S j) st1 e)
      as (buf' & st' & Hrun & Hlog & Hregs).
    + lia.
    + replace (S j + n)%nat with (j + S n)%nat by lia. exact Hlen.
    + lia.
    + intros m Hm. unfold st1. rewrite log_call_reads.
      replace (S j + m)%nat with (j + S m)%nat by lia.
      apply (Hok (S m)). lia.
    + unfold st1. rewrite log_call_reads.
      replace (S j + n)%nat with (j + S n)%nat by lia. exact He.
    + exists buf', st'. split; [exact Hrun|]. split.
      * rewrite Hlog. unfold st1. apply log_call_reads.
      * rewrite Hregs. reflexivity.
Qed.

(** All the reads from iteration [j] up to [len] succeed: the loop returns
    0 after exactly these reads. *)
Lemma loop_ok_run (n : nat) : forall fuel addr buf len j st,
  (j + n <= 255)%nat ->
  len <= Z.of_nat (j + n) ->
  (n = 0%nat \/ Z.of_nat (j + n) = len) ->
  (n < fuel)%nat ->
  (forall m, (m < n)%nat ->
     ec_rfault st (ec_log st ++ reads_from addr j m)
               (u8 (addr + Z.of_nat (j + m))) = None) ->
  exists buf' st',
    ec_read_seq_loop fuel addr buf len (Z.of_nat j) st = Some (0, buf', st')
    /\ ec_log st' = ec_log st ++ reads_from addr j n
    /\ ec_regs st' = ec_regs st.
Proof.
  induction n as [|n IH]; intros fuel addr buf len j st Hj Hlen Hn Hfuel Hok.
  - destruct fuel as [|fuel]; [lia|]. simpl.
    replace (Z.of_nat j <? len) with false
      by (symmetry; apply Z.ltb_ge; lia).
    exists buf, st. split; [reflexivity|]. split; [|reflexivity].
    unfold reads_from. simpl. now rewrite app_nil_r.
  - destruct Hn as [Hn | Hn]; [discriminate|].
    destruct fuel as [|fuel]; [lia|]. simpl.
    replace (Z.of_nat j <? len) with true
      by (symmetry; apply Z.ltb_lt; lia).
    pose proof (Hok 0%nat ltac:(lia)) as H0.
    unfold reads_from in H0. simpl in H0.
    rewrite app_nil_r, Nat.add_0_r in H0.
    rewrite (ec_read_ok _ _ H0). cbn.
    rewrite u8_succ by lia.
    set (st1 := log_call st (EvRead (u8 (addr + Z.of_nat j)))).
    destruct (IH fuel addr
                 (poke buf (Z.to_nat (Z.of_nat j))
                       (u8 (ec_regs st (u8 (addr + Z.of_nat j)))))
                 len (S j) st1)
      as (buf' & st' & Hrun & Hlog & Hregs).
    + lia.
    + lia.
    + right. lia.
    + lia.
    + intros m Hm. unfold st1. rewrite log_call_reads.
      replace (S j + m)%nat with (j + S m)%nat by lia.
      apply (Hok (S m)). lia.
    + exists buf', st'. split; [exact Hrun|]. split.
      * rewrite Hlog. unfold st1. apply log_call_reads.
      * rewrite Hregs. reflexivity.
Qed.

(** With a length of at most 255 the loop ends, faults or not. *)
Lemma loop_terminates (n : nat) : forall fuel addr buf len j st,
  (j + n <= 255)%nat ->
  len <= Z.of_nat (j + n) ->
  (n < fuel)%nat ->
  exists res, ec_read_seq_loop fuel addr buf len (Z.of_nat j) st = Some res.
Proof.
  induction n as [|n IH]; intros fuel addr buf len j st Hj Hlen Hfuel.
  - destruct fuel as [|fuel]; [lia|]. simpl.
    replace (Z.of_nat j <? len) with false
      by (symmetry; apply Z.ltb_ge; lia).
    eexists; reflexivity.
  - destruct fuel as [|fuel]; [lia|]. simpl.
    destruct (Z.of_nat j <? len); [|eexists; reflexivity].
    unfold ec_read.
    destruct (ec_rfault st (ec_log st) (u8 (addr + Z.of_nat j))); cbn.
    + eexists; reflexivity.
    + rewrite u8_succ by lia. apply IH; lia.
Qed.

(** With a length above 255 and reads that never fault, the condition
    [i < len] holds at every test: no amount of fuel ends the loop. *)
Lemma loop_diverges (fuel : nat) : forall addr buf len i st,
  256 <= len ->
  0 <= i <= 255 ->
  (forall before a, ec_rfault st before a = None) ->
  ec_read_seq_loop fuel addr buf len i st = None.
Proof.
  induction fuel as [|fuel IH]; intros addr buf len i st Hlen Hi Hok;
    [reflexivity|].
  simpl. replace (i <? len) with true by (symmetry; apply Z.ltb_lt; lia).
  unfold ec_read. rewrite Hok. cbn.
  apply IH; [exact Hlen | apply u8_range | exact Hok].
Qed.

(** ** The sequential reader and its callers *)

Section SequentialReader.

Context {K : constants}.

Lemma read_events_plain (addr : Z) (n : nat) :
  0 <= addr -> addr + Z.of_nat n <= 256 ->
  read_events addr n = map (fun j => EvRead (addr + Z.of_nat j)) (seq 0 n).
Proof.
  intros Ha Hn. unfold read_events, reads_from.
  apply map_ext_in. intros j Hj. apply in_seq in Hj.
  rewrite (u8_small addr) by lia. rewrite u8_small by lia. reflexivity.
Qed.

Lemma ec_read_seq_ok (fuel : nat) (addr : Z) (buf : list Z) (len : Z)
      (st : ec_state) :
  0 <= len <= 255 ->
  (Z.to_nat len < fuel)%nat ->
  (forall m, (m < Z.to_nat len)%nat ->
     ec_rfault st (ec_log st ++ read_events addr m)
               (u8 (u8 addr + Z.of_nat m)) = None) ->
  exists buf' st',
    ec_read_seq fuel addr buf len st = Some (0, buf', st')
    /\ ec_log st' = ec_log st ++ read_events addr (Z.to_nat len)
    /\ ec_regs st' = ec_regs st.
Proof.
  intros Hlen Hfuel Hok. unfold ec_read_seq, read_events.
  apply (loop_ok_run (Z.to_nat len) fuel (u8 addr) buf len 0%nat st);
    try lia.
  exact Hok.
Qed.

Lemma ec_read_seq_fault (fuel : nat) (addr : Z) (buf : list Z) (len : Z)
      (st : ec_state) (k : nat) (e : positive) :
  (k <= 255)%nat ->
  Z.of_nat k < len ->
  (k < fuel)%nat ->
  (forall m, (m < k)%nat ->
     ec_rfault st (ec_log st ++ read_events addr m)
               (u8 (u8 addr + Z.of_nat m)) = None) ->
  ec_rfault st (ec_log st ++ read_events addr k)
            (u8 (u8 addr + Z.of_nat k)) = Some e ->
  exists buf' st',
    ec_read_seq fuel addr buf len st = Some (Zneg e, buf', st')
    /\ ec_log st' = ec_log st ++ read_events addr (S k)
    /\ ec_regs st' = ec_regs st.
Proof.
  intros Hk Hlen Hfuel Hok He. unfold ec_read_seq, read_events.
  apply (loop_fault_at k fuel (u8 addr) buf len 0%nat st e); try lia.
  - exact Hok.
  - exact He.
Qed.

Lemma fw_version_show_fault (fuel : nat) (buf : string) (st st' : ec_state)
      (r : Z) (rdata : list Z) :
  ec_read_seq fuel MSI_EC_FW_VERSION_ADDRESS
              (zeroed (MSI_EC_FW_VERSION_LENGTH + 1))
              MSI_EC_FW_VERSION_LENGTH st = Some (r, rdata, st') ->
  r < 0 ->
  fw_version_show fuel buf st = Some (r, buf, st').
Proof.
  intros H Hr. unfold fw_version_show. rewrite H.
  now replace (r <? 0) with true by (symmetry; apply Z.ltb_lt; lia).
Qed.

Lemma fw_release_date_show_date_fault (fuel : nat) (y mo d h mi s : Z)
      (buf : string) (st st' : ec_state) (r : Z) (rdate : list Z) :
  ec_read_seq fuel MSI_EC_FW_DATE_ADDRESS
              (zeroed (MSI_EC_FW_DATE_LENGTH + 1))
              MSI_EC_FW_DATE_LENGTH st = Some (r, rdate, st') ->
  r < 0 ->
  fw_release_date_show fuel y mo d h mi s buf st = Some (r, buf, st').
Proof.
  intros H Hr. unfold fw_release_date_show. rewrite H.
  now replace (r <? 0) with true by (symmetry; apply Z.ltb_lt; lia).
Qed.

Lemma fw_release_date_show_time_fault (fuel : nat) (y mo d h mi s : Z)
      (buf : string) (st st1 st2 : ec_state) (r0 r : Z)
      (rdate rtime : list Z) :
  ec_read_seq fuel MSI_EC_FW_DATE_ADDRESS
              (zeroed (MSI_EC_FW_DATE_LENGTH + 1))
              MSI_EC_FW_DATE_LENGTH st = Some (r0, rdate, st1) ->
  0 <= r0 ->
  ec_read_seq fuel MSI_EC_FW_TIME_ADDRESS
              (zeroed (MSI_EC_FW_TIME_LENGTH + 1))
              MSI_EC_FW_TIME_LENGTH st1 = Some (r, rtime, st2) ->
  r < 0 ->
  fw_release_date_show fuel y mo d h mi s buf st = Some (r, buf, st2).
Proof.
  intros H0 Hr0 H Hr. unfold fw_release_date_show. rewrite H0.
  replace (r0 <? 0) with false by (symmetry; apply Z.ltb_ge; lia).
  destruct (sscanf (cstring rdate) date_format [mo; d; y]) as [n0 date].
  rewrite H.
  now replace (r <? 0) with true by (symmetry; apply Z.ltb_lt; lia).
Qed.

(** C3.  [ec_read_seq addr buf len] reads the registers [addr], [addr + 1],
    ..., [addr + len - 1] in this order (the addresses are bytes: past 255
    they wrap, and they are the plain sums when [addr + len <= 256]).  If
    the read number [k] is the first that faults, with errno [e], the
    function returns [-e] after exactly these [k + 1] reads.  Its callers
    [fw_version_show] and [fw_release_date_show] return a negative result
    of it as their own and leave the output buffer as it was: nothing of the
    bytes read so far is printed. *)
Theorem ec_read_seq_order_and_fault :
  (forall fuel addr buf len st,
     0 <= len <= 255 ->
     (Z.to_nat len < fuel)%nat ->
     (forall m, (m < Z.to_nat len)%nat ->
        ec_rfault st (ec_log st ++ read_events addr m)
                  (u8 (u8 addr + Z.of_nat m)) = None) ->
     exists buf' st',
       ec_read_seq fuel addr buf len st = Some (0, buf', st')
       /\ ec_log st' = ec_log st ++ read_events addr (Z.to_nat len))
  /\ (forall addr n,
        0 <= addr -> addr + Z.of_nat n <= 256 ->
        read_events addr n
        = map (fun j => EvRead (addr + Z.of_nat j)) (seq 0 n))
  /\ (forall fuel addr buf len st k e,
        (k <= 255)%nat ->
        Z.of_nat k < len ->
        (k < fuel)%nat ->
        (forall m, (m < k)%nat ->
           ec_rfault st (ec_log st ++ read_events addr m)
                     (u8 (u8 addr + Z.of_nat m)) = None) ->
        ec_rfault st (ec_log st ++ read_events addr k)
                  (u8 (u8 addr + Z.of_nat k)) = Some e ->
        exists buf' st',
          ec_read_seq fuel addr buf len st = Some (Zneg e, buf', st')
          /\ ec_log st' = ec_log st ++ read_events addr (S k))
  /\ (forall fuel buf st st' r rdata,
        ec_read_seq fuel MSI_EC_FW_VERSION_ADDRESS
                    (zeroed (MSI_EC_FW_VERSION_LENGTH + 1))
                    MSI_EC_FW_VERSION_LENGTH st = Some (r, rdata, st') ->
        r < 0 ->
        fw_version_show fuel buf st = Some (r, buf, st'))
  /\ (forall fuel y mo d h mi s buf st st' r rdate,
        ec_read_seq fuel MSI_EC_FW_DATE_ADDRESS
                    (zeroed (MSI_EC_FW_DATE_LENGTH + 1))
                    MSI_EC_FW_DATE_LENGTH st = Some (r, rdate, st') ->
        r < 0 ->
        fw_release_date_show fuel y mo d h mi s buf st = Some (r, buf, st'))
  /\ (forall fuel y mo d h mi s buf st st1 st2 r0 r rdate rtime,
        ec_read_seq fuel MSI_EC_FW_DATE_ADDRESS
                    (zeroed (MSI_EC_FW_DATE_LENGTH + 1))
                    MSI_EC_FW_DATE_LENGTH st = Some (r0, rdate, st1) ->
        0 <= r0 ->
        ec_read_seq fuel MSI_EC_FW_TIME_ADDRESS
                    (zeroed (MSI_EC_FW_TIME_LENGTH + 1))
                    MSI_EC_FW_TIME_LENGTH st1 = Some (r, rtime, st2) ->
        r < 0 ->
        fw_release_date_show fuel y mo d h mi s buf st = Some (r, buf, st2)).
Proof.
  split; [|split; [|split; [|split; [|split]]]].
  - intros fuel addr buf len st Hlen Hfuel Hok.
    destruct (ec_read_seq_ok fuel addr buf len st Hlen Hfuel Hok)
      as (buf' & st' & H1 & H2 & _).
    now exists buf', st'.
  - exact read_events_plain.
  - intros fuel addr buf len st k e Hk Hlen Hfuel Hok He.
    destruct (ec_read_seq_fault fuel addr buf len st k e Hk Hlen Hfuel Hok He)
      as (buf' & st' & H1 & H2 & _).
    now exists buf', st'.
  - exact fw_version_show_fault.
  - exact fw_release_date_show_date_fault.
  - exact fw_release_date_show_time_fault.
Qed.

End SequentialReader.

(** ** Termination of the sequential reader *)

Section Termination.

Context {K : constants}.

Lemma ec_read_seq_terminates (fuel : nat) (addr : Z) (buf : list Z) (len : Z)
      (st : ec_state) :
  len <= 255 ->
  (Z.to_nat len < fuel)%nat ->
  exists res, ec_read_seq fuel addr buf len st = Some res.
Proof.
  intros Hlen Hfuel. unfold ec_read_seq.
  apply (loop_terminates (Z.to_nat len) fuel (u8 addr) buf len 0%nat st); lia.
Qed.

Lemma ec_read_seq_diverges (fuel : nat) (addr : Z) (buf : list Z) (len : Z)
      (st : ec_state) :
  256 <= len ->
  (forall before a, ec_rfault st before a = None) ->
  ec_read_seq fuel addr buf len st = None.
Proof.
  intros Hlen Hok. unfold ec_read_seq.
  apply loop_diverges; [exact Hlen | lia | exact Hok].
Qed.

Lemma fw_version_show_terminates (fuel : nat) (buf : string) (st : ec_state) :
  MSI_EC_FW_VERSION_LENGTH <= 255 ->
  (255 < fuel)%nat ->
  exists res, fw_version_show fuel buf st = Some res.
Proof.
  intros Hlen Hfuel. unfold fw_version_show.
  destruct (ec_read_seq_terminates fuel MSI_EC_FW_VERSION_ADDRESS
              (zeroed (MSI_EC_FW_VERSION_LENGTH + 1))
              MSI_EC_FW_VERSION_LENGTH st Hlen ltac:(lia))
    as ([[r rdata] st'] & ->).
  destruct (r <? 0); [eexists; reflexivity|].
  destruct (sprintf (cstring rdata +++ nl)). eexists; reflexivity.
Qed.

Lemma fw_release_date_show_terminates (fuel : nat) (y mo d h mi s : Z)
      (buf : string) (st : ec_state) :
  MSI_EC_FW_DATE_LENGTH <= 255 ->
  MSI_EC_FW_TIME_LENGTH <= 255 ->
  (255 < fuel)%nat ->
  exists res, fw_release_date_show fuel y mo d h mi s buf st = Some res.
Proof.
  intros Hdate Htime Hfuel. unfold fw_release_date_show.
  destruct (ec_read_seq_terminates fuel MSI_EC_FW_DATE_ADDRESS
              (zeroed (MSI_EC_FW_DATE_LENGTH + 1))
              MSI_EC_FW_DATE_LENGTH st Hdate ltac:(lia))
    as ([[r rdate] st1] & ->).
  destruct (r <? 0); [eexists; reflexivity|].
  destruct (sscanf (cstring rdate) date_format [mo; d; y]) as [n0 date].
  destruct (ec_read_seq_terminates fuel MSI_EC_FW_TIME_ADDRESS
              (zeroed (MSI_EC_FW_TIME_LENGTH + 1))
              MSI_EC_FW_TIME_LENGTH st1 Htime ltac:(lia))
    as ([[r' rtime] st2] & ->).
  destruct (r' <? 0); [eexists; reflexivity|].
  destruct (sscanf (cstring rtime) time_format _) as [n1 time].
  destruct (sprintf _). eexists; reflexivity.
Qed.

End Termination.

(** ** Switches and modes *)

(** Evaluates the comparisons of [streq] between literal strings. *)
Ltac eval_streq :=
  repeat match goal with
         | |- context [streq ?a ?b] =>
             let v := eval vm_compute in (streq a b) in
             change (streq a b) with v
         end.

(** Splits a membership in [enum_attrs] into its seven attributes. *)
Ltac each_attr H :=
  unfold enum_attrs in H; cbn [In] in H;
  repeat (destruct H as [H | H]; [subst | ]); [.. | contradiction];
  cbn [ea_name ea_show ea_store ea_address ea_codes] in *.

(** Splits a membership in a table of names into its entries. *)
Ltac each_name H :=
  cbn [In] in H;
  repeat (destruct H as [H | H]; [injection H as <- <- | ]);
  [.. | contradiction].

Section Enumerations.

Context {K : constants}.

Lemma enum_store_accept (a : enum_attr) :
  In a enum_attrs ->
  forall name code buf count st,
    In (name, code) (ea_codes a) ->
    buf = name \/ buf = name +++ nl ->
    ea_store a buf count st
    = (let '(r, st') := ec_write (ea_address a) code st in
       if r <? 0 then (r, st') else (count, st')).
Proof.
  intros Ha name code buf count st Hn Hbuf.
  each_attr Ha; each_name Hn; destruct Hbuf as [-> | ->];
    unfold webcam_store, fn_key_store, win_key_store, battery_mode_store,
      cooler_boost_store, shift_mode_store, fan_mode_store;
    eval_streq; cbv beta iota zeta;
    match goal with
    | |- context [ec_write ?x ?y ?s] => destruct (ec_write x y s) as [r st1]
    end; reflexivity.
Qed.

Lemma enum_store_reject (a : enum_attr) :
  In a enum_attrs ->
  forall buf count st,
    nul_free buf = true ->
    (forall name code, In (name, code) (ea_codes a) ->
                       buf <> name /\ buf <> name +++ nl) ->
    ea_store a buf count st = (- EINVAL, st).
Proof.
  intros Ha buf count st Hnul Hno.
  assert (Hs : forall name code, In (name, code) (ea_codes a) ->
                                 nul_free name = true ->
                                 streq buf name = false).
  { intros name code Hin Hname. destruct (Hno name code Hin).
    now apply streq_false. }
  each_attr Ha;
    unfold webcam_store, fn_key_store, win_key_store, battery_mode_store,
      cooler_boost_store, shift_mode_store, fan_mode_store;
    repeat match goal with
           | |- context [streq buf ?n] =>
               rewrite (Hs n _ ltac:(cbn [In]; eauto 6) eq_refl)
           end;
    reflexivity.
Qed.

(** Whether an input is a listed name, bare or with a newline, is decided. *)
Lemma listed_or_not (codes : list (string * Z)) (buf : string) :
  (exists name code, In (name, code) codes
                     /\ (buf = name \/ buf = name +++ nl))
  \/ (forall name code, In (name, code) codes ->
                        buf <> name /\ buf <> name +++ nl).
Proof.
  induction codes as [|[n c] codes IH].
  - right. intros name code [].
  - destruct (string_dec buf n) as [E | E].
    { left. exists n, c. split; [now left | now left]. }
    destruct (string_dec buf (n +++ nl)) as [E' | E'].
    { left. exists n, c. split; [now left | now right]. }
    destruct IH as [(name & code & Hin & Hm) | Hno].
    + left. exists name, code. split; [now right | exact Hm].
    + right. intros name code [Hin | Hin].
      * injection Hin as <- <-. now split.
      * exact (Hno name code Hin).
Qed.

Lemma enum_show_ok (a : enum_attr) :
  In a enum_attrs ->
  forall buf st,
    ec_rfault st (ec_log st) (u8 (ea_address a)) = None ->
    exists text,
      ea_show a buf st
      = (Z.of_nat (String.length text), text,
         log_call st (EvRead (u8 (ea_address a))))
      /\ ((exists name, In (name, u8 (ec_regs st (u8 (ea_address a))))
                           (ea_codes a)
                        /\ text = name +++ nl)
          \/ ((forall name code, In (name, code) (ea_codes a) ->
                 u8 (ec_regs st (u8 (ea_address a))) <> code)
              /\ text = "unknown" +++ " ("
                        +++ fmt_i (u8 (ec_regs st (u8 (ea_address a))))
                        +++ ")" +++ nl)).
Proof.
  intros Ha buf st Hok.
  each_attr Ha;
    unfold webcam_show, fn_key_show, win_key_show, battery_mode_show,
      cooler_boost_show, shift_mode_show, fan_mode_show;
    rewrite (ec_read_ok _ _ Hok); cbv beta iota zeta;
    change (0 <? 0) with false; cbv iota;
    match goal with
    | |- context [u8 (ec_regs st ?x)] => generalize (u8 (ec_regs st x))
    end;
    intros rdata;
    repeat match goal with
           | |- context [if ?r =? ?c then _ else _] =>
               destruct (Z.eqb_spec r c)
           end;
    unfold sprintf;
    eexists; (split; [reflexivity|]);
    solve [ left; eexists; split; [|reflexivity];
            match goal with
            | E : ?r = _ |- In (_, ?r) _ => rewrite E
            end; cbn [In]; eauto 6
          | right; split; [|reflexivity];
            intros name code Hin; each_name Hin; assumption ].
Qed.

End Enumerations.

Section EnumerationClaims.

Context {K : constants}.

Lemma ec_write_log (addr data : Z) (st : ec_state) :
  ec_log (snd (ec_write addr data st))
  = ec_log st ++ [EvWrite (u8 addr) (u8 data)].
Proof.
  unfold ec_write. destruct (ec_wfault st (ec_log st) (u8 addr) (u8 data));
    reflexivity.
Qed.

(** A store that wrote did not leave the chip as it was. *)
Lemma write_outcome_not_reject (addr code count : Z) (st : ec_state) (r : Z) :
  (let '(r, st') := ec_write addr code st in
   if r <? 0 then (r, st') else (count, st')) <> (r, st).
Proof.
  pose proof (ec_write_log addr code st) as Hlog.
  destruct (ec_write addr code st) as [r0 st0]. simpl in Hlog.
  intros H. assert (Hst : st0 = st) by (destruct (r0 <? 0); congruence).
  rewrite Hst in Hlog. apply (f_equal (@List.length event)) in Hlog.
  rewrite length_app in Hlog. simpl in Hlog. lia.
Qed.

Lemma not_listed_forall (codes : list (string * Z)) (buf : string) :
  ~ listed codes buf ->
  forall name code, In (name, code) codes ->
                    buf <> name /\ buf <> name +++ nl.
Proof.
  intros Hno name code Hin. split; intros E; apply Hno;
    exists name, code; auto.
Qed.

Lemma text_nonempty (s : string) : 0 < Z.of_nat (String.length (s +++ nl)).
Proof. rewrite append_length. simpl. lia. Qed.

(** C4.  For each of webcam, fn_key, win_key, battery_mode, cooler_boost,
    shift_mode and fan_mode: when the read of the register succeeds, the
    show callback does not fail, it returns the (positive) length of a text,
    and for a byte that is none of the attribute's codes the text is
    ["unknown (<byte>)"]; the store callback returns a non-negative result
    only for a listed name, and for any other input it returns [-EINVAL]
    and leaves the chip as it was. *)
Theorem enum_decode_total_encode_strict (a : enum_attr) :
  In a enum_attrs ->
  (forall buf st,
     ec_rfault st (ec_log st) (u8 (ea_address a)) = None ->
     exists text,
       ea_show a buf st
       = (Z.of_nat (String.length text), text,
          log_call st (EvRead (u8 (ea_address a))))
       /\ 0 < Z.of_nat (String.length text)
       /\ ((forall name code, In (name, code) (ea_codes a) ->
              u8 (ec_regs st (u8 (ea_address a))) <> code) ->
           text = "unknown" +++ " ("
                  +++ fmt_i (u8 (ec_regs st (u8 (ea_address a))))
                  +++ ")" +++ nl))
  /\ (forall buf count st r st',
        nul_free buf = true ->
        ea_store a buf count st = (r, st') ->
        (0 <= r -> listed (ea_codes a) buf)
        /\ (~ listed (ea_codes a) buf -> r = - EINVAL /\ st' = st)).
Proof.
  intros Ha. split.
  - intros buf st Hok.
    destruct (enum_show_ok a Ha buf st Hok) as (text & Hshow & Htext).
    exists text. split; [exact Hshow|].
    destruct Htext as [(name & Hin & ->) | (Hno & ->)].
    + split; [apply text_nonempty|].
      intros Hnone. exfalso. exact (Hnone name _ Hin eq_refl).
    + split; [|reflexivity].
      change ("unknown" +++ " ("
              +++ fmt_i (u8 (ec_regs st (u8 (ea_address a)))) +++ ")" +++ nl)
        with ("unknown ("
              +++ (fmt_i (u8 (ec_regs st (u8 (ea_address a)))) +++ ")"
                   +++ nl)).
      rewrite append_length. simpl String.length. lia.
  - intros buf count st r st' Hnul Hrun.
    assert (Hrej : ~ listed (ea_codes a) buf -> r = - EINVAL /\ st' = st).
    { intros Hno.
      rewrite (enum_store_reject a Ha buf count st Hnul
                 (not_listed_forall _ _ Hno)) in Hrun.
      injection Hrun as <- <-. auto. }
    split; [|exact Hrej].
    intros Hr. destruct (listed_or_not (ea_codes a) buf) as [Hl | Hno].
    + exact Hl.
    + assert (Hnl : ~ listed (ea_codes a) buf).
      { intros (name & code & Hin & Hm). destruct (Hno name code Hin).
        destruct Hm; contradiction. }
      destruct (Hrej Hnl) as [-> _]. unfold EINVAL in Hr. lia.
Qed.

(** C9.  For each of these attributes and any input: the store callback
    writes a code (it is accepted) exactly when the input is a listed name
    or a listed name followed by one newline, and it returns [-EINVAL]
    without touching the chip exactly when it is not.  So nothing else
    before or after a name is tolerated. *)
Theorem enum_store_accepts_name_or_name_newline (a : enum_attr) (buf : string) :
  In a enum_attrs ->
  nul_free buf = true ->
  ((exists code, store_writes (ea_store a) (ea_address a) code buf)
   <-> listed (ea_codes a) buf)
  /\ (store_rejects (ea_store a) buf <-> ~ listed (ea_codes a) buf)
  /\ (forall name code,
        In (name, code) (ea_codes a) ->
        store_writes (ea_store a) (ea_address a) code name
        /\ store_writes (ea_store a) (ea_address a) code (name +++ nl)).
Proof.
  intros Ha Hnul.
  assert (Hacc : listed (ea_codes a) buf ->
                 exists code, store_writes (ea_store a) (ea_address a) code buf).
  { intros (name & code & Hin & Hm). exists code. intros count st.
    exact (enum_store_accept a Ha name code buf count st Hin Hm). }
  assert (Hrej : ~ listed (ea_codes a) buf -> store_rejects (ea_store a) buf).
  { intros Hno count st.
    exact (enum_store_reject a Ha buf count st Hnul
             (not_listed_forall _ _ Hno)). }
  assert (Hdec : listed (ea_codes a) buf \/ ~ listed (ea_codes a) buf).
  { destruct (listed_or_not (ea_codes a) buf) as [Hl | Hno]; [now left|].
    right. intros (name & code & Hin & Hm). destruct (Hno name code Hin).
    destruct Hm; contradiction. }
  split; [|split].
  - split; [|exact Hacc].
    intros (code & Hw). destruct Hdec as [Hl | Hno]; [exact Hl|].
    exfalso. specialize (Hw 0 (quiet_ec (fun _ => 0))).
    rewrite (Hrej Hno 0 (quiet_ec (fun _ => 0))) in Hw.
    symmetry in Hw.
    exact (write_outcome_not_reject (ea_address a) code 0
             (quiet_ec (fun _ => 0)) (- EINVAL) Hw).
  - split; [|exact Hrej].
    intros Hr Hl. destruct (Hacc Hl) as (code & Hw).
    specialize (Hw 0 (quiet_ec (fun _ => 0))).
    rewrite (Hr 0 (quiet_ec (fun _ => 0))) in Hw.
    symmetry in Hw.
    exact (write_outcome_not_reject (ea_address a) code 0
             (quiet_ec (fun _ => 0)) (- EINVAL) Hw).
  - intros name code Hin. split; intros count st.
    + exact (enum_store_accept a Ha name code name count st Hin
               (or_introl eq_refl)).
    + exact (enum_store_accept a Ha name code (name +++ nl) count st Hin
               (or_intror eq_refl)).
Qed.

End EnumerationClaims.

(** ** The numeric attributes: fan speed and charge thresholds *)

Section NumericAttributes.

Context {K : constants}.

Lemma reg_after_write (st : ec_state) (a d : Z) :
  ec_regs (set_reg (log_call st (EvWrite a d)) a d) a = d.
Proof. simpl. now rewrite Z.eqb_refl. Qed.

Lemma reliable_after_write (st : ec_state) (a d : Z) :
  reliable st -> reliable (set_reg (log_call st (EvWrite a d)) a d).
Proof. intros [Hr Hw]. split; simpl; assumption. Qed.

Lemma fan_store_valid (s : string) (p : Z) (newline : bool) (count : Z)
      (st : ec_state) :
  numeral s = Some p ->
  p <= 100 ->
  cpu_basic_fan_speed_store (written s newline) count st
  = (let '(r, st') :=
       ec_write MSI_EC_CPU_BASIC_FAN_SPEED_ADDRESS
                (Z.quot (p * (MSI_EC_CPU_BASIC_FAN_SPEED_BASE_MAX
                              - MSI_EC_CPU_BASIC_FAN_SPEED_BASE_MIN)
                         + 100 * MSI_EC_CPU_BASIC_FAN_SPEED_BASE_MIN) 100)
                st in
     if r <? 0 then (r, st') else (count, st')).
Proof.
  intros Hs Hp. unfold cpu_basic_fan_speed_store.
  rewrite (kstrtou8_numeral s p newline Hs).
  replace (p <=? 255) with true by (symmetry; apply Z.leb_le; lia).
  change (0 <? 0) with false. cbv iota.
  replace (p >? 100) with false; [reflexivity|].
  symmetry. rewrite Z.gtb_ltb. apply Z.ltb_ge. lia.
Qed.

Lemma fan_store_invalid (s : string) (p : Z) (newline : bool) (count : Z)
      (st : ec_state) :
  numeral s = Some p ->
  100 < p ->
  cpu_basic_fan_speed_store (written s newline) count st
  = ((if p <=? 255 then - EINVAL else - ERANGE), st).
Proof.
  intros Hs Hp. unfold cpu_basic_fan_speed_store.
  rewrite (kstrtou8_numeral s p newline Hs).
  destruct (p <=? 255).
  - change (0 <? 0) with false. cbv iota.
    replace (p >? 100) with true; [reflexivity|].
    symmetry. rewrite Z.gtb_ltb. apply Z.ltb_lt. lia.
  - reflexivity.
Qed.

Lemma fan_show_in_range (buf : string) (st : ec_state) :
  ec_rfault st (ec_log st) (u8 MSI_EC_CPU_BASIC_FAN_SPEED_ADDRESS) = None ->
  MSI_EC_CPU_BASIC_FAN_SPEED_BASE_MIN <> MSI_EC_CPU_BASIC_FAN_SPEED_BASE_MAX ->
  MSI_EC_CPU_BASIC_FAN_SPEED_BASE_MIN
  <= u8 (ec_regs st (u8 MSI_EC_CPU_BASIC_FAN_SPEED_ADDRESS))
  <= MSI_EC_CPU_BASIC_FAN_SPEED_BASE_MAX ->
  cpu_basic_fan_speed_show buf st
  = (let text :=
       fmt_i (Z.quot
                (100 * (u8 (ec_regs st (u8 MSI_EC_CPU_BASIC_FAN_SPEED_ADDRESS))
                        - MSI_EC_CPU_BASIC_FAN_SPEED_BASE_MIN))
                (MSI_EC_CPU_BASIC_FAN_SPEED_BASE_MAX
                 - MSI_EC_CPU_BASIC_FAN_SPEED_BASE_MIN)) +++ nl in
     (Z.of_nat (String.length text), text,
      log_call st (EvRead (u8 MSI_EC_CPU_BASIC_FAN_SPEED_ADDRESS)))).
Proof.
  intros Hok _ Hr. unfold cpu_basic_fan_speed_show.
  rewrite (ec_read_ok _ _ Hok). cbv beta iota zeta.
  change (0 <? 0) with false. cbv iota.
  replace (_ <? MSI_EC_CPU_BASIC_FAN_SPEED_BASE_MIN) with false
    by (symmetry; apply Z.ltb_ge; lia).
  replace (_ >? MSI_EC_CPU_BASIC_FAN_SPEED_BASE_MAX) with false
    by (symmetry; rewrite Z.gtb_ltb; apply Z.ltb_ge; lia).
  reflexivity.
Qed.

(** The arithmetic of the two directions. *)
(** Any range: the round trip never overshoots, and loses less than
    [1 + 100 / width]. *)
Lemma scale_roundtrip_any_range (lo hi p : Z) :
  0 <= lo -> lo < hi -> hi <= 255 -> 0 <= p <= 100 ->
  let enc := Z.quot (p * (hi - lo) + 100 * lo) 100 in
  let dec := Z.quot (100 * (enc - lo)) (hi - lo) in
  lo <= enc <= hi
  /\ dec <= p
  /\ (p - dec) * (hi - lo) < (hi - lo) + 100
  /\ (p = 0 -> enc = lo /\ dec = 0)
  /\ (p = 100 -> enc = hi /\ dec = 100).
Proof.
  intros Hlo Hw Hhi Hp enc dec.
  assert (Henc : enc = lo + p * (hi - lo) / 100).
  { unfold enc. rewrite Z.quot_div_nonneg by nia.
    replace (p * (hi - lo) + 100 * lo) with (p * (hi - lo) + lo * 100) by lia.
    rewrite Z.div_add by lia. lia. }
  pose proof (Z.mul_div_le (p * (hi - lo)) 100 ltac:(lia)) as H1.
  pose proof (Z.mul_succ_div_gt (p * (hi - lo)) 100 ltac:(lia)) as H2.
  set (q := p * (hi - lo) / 100) in *.
  assert (Hq : 0 <= q) by (apply Z.div_pos; nia).
  assert (Hdec : dec = 100 * q / (hi - lo)).
  { unfold dec. replace (enc - lo) with q by lia.
    apply Z.quot_div_nonneg; nia. }
  pose proof (Z.mul_div_le (100 * q) (hi - lo) ltac:(lia)) as H3.
  pose proof (Z.mul_succ_div_gt (100 * q) (hi - lo) ltac:(lia)) as H4.
  rewrite Hdec. set (d := 100 * q / (hi - lo)) in *.
  split; [nia|]. split; [nia|]. split; [nia|]. split.
  - intros ->. assert (q = 0) by (unfold q; reflexivity).
    split; [lia|]. unfold d. now subst q.
  - intros ->. assert (Hq100 : q = hi - lo).
    { unfold q. rewrite Z.mul_comm. apply Z.div_mul. lia. }
    split; [lia|]. unfold d. rewrite Hq100. apply Z.div_mul. lia.
Qed.

(** C1 (as amended).  For the basic CPU fan speed with a range within a
    byte ([0 <= BASE_MIN < BASE_MAX <= 255]): for every [p] in [0..100],
    storing [p] and then showing the attribute succeeds and prints a
    percentage [d] that never exceeds [p] and falls short of it by less than
    [1 + 100 / (BASE_MAX - BASE_MIN)]; so [d] is within 1 of [p] whenever the
    range is at least 100 steps wide.  Whatever the range, the store rejects
    every number above 100, with [-EINVAL] (or [-ERANGE] when the number
    does not fit a [u8]), and without touching the chip. *)
Theorem basic_fan_speed_roundtrip_bounded_loss :
  (0 <= MSI_EC_CPU_BASIC_FAN_SPEED_BASE_MIN ->
   MSI_EC_CPU_BASIC_FAN_SPEED_BASE_MIN < MSI_EC_CPU_BASIC_FAN_SPEED_BASE_MAX ->
   MSI_EC_CPU_BASIC_FAN_SPEED_BASE_MAX <= 255 ->
   forall s p newline count st,
     numeral s = Some p ->
     0 <= p <= 100 ->
     reliable st ->
     exists d,
       store_then_show cpu_basic_fan_speed_store cpu_basic_fan_speed_show
                       (written s newline) count st
       = (count, (Z.of_nat (String.length (fmt_i d +++ nl)), fmt_i d +++ nl))
       /\ d <= p
       /\ (p - d) * (MSI_EC_CPU_BASIC_FAN_SPEED_BASE_MAX
                     - MSI_EC_CPU_BASIC_FAN_SPEED_BASE_MIN)
          < (MSI_EC_CPU_BASIC_FAN_SPEED_BASE_MAX
             - MSI_EC_CPU_BASIC_FAN_SPEED_BASE_MIN) + 100
       /\ (100 <= MSI_EC_CPU_BASIC_FAN_SPEED_BASE_MAX
                  - MSI_EC_CPU_BASIC_FAN_SPEED_BASE_MIN ->
           p - 1 <= d))
  /\ (forall s p newline count st,
        numeral s = Some p ->
        100 < p ->
        cpu_basic_fan_speed_store (written s newline) count st
        = ((if p <=? 255 then - EINVAL else - ERANGE), st)).
Proof.
  split; [|exact fan_store_invalid].
  intros Hlo Hw Hhi s p newline count st Hs Hp [Hr Hwr].
  destruct (scale_roundtrip_any_range _ _ p Hlo Hw Hhi Hp)
    as (Henc & Hle & Hloss & _).
  set (w := MSI_EC_CPU_BASIC_FAN_SPEED_BASE_MAX
            - MSI_EC_CPU_BASIC_FAN_SPEED_BASE_MIN) in *.
  set (enc := Z.quot (p * w + 100 * MSI_EC_CPU_BASIC_FAN_SPEED_BASE_MIN) 100)
    in *.
  set (a := u8 MSI_EC_CPU_BASIC_FAN_SPEED_ADDRESS).
  set (st1 := set_reg (log_call st (EvWrite a enc)) a enc).
  assert (Hstore : cpu_basic_fan_speed_store (written s newline) count st
                   = (count, st1)).
  { rewrite (fan_store_valid s p newline count st Hs (proj2 Hp)).
    fold w enc. rewrite (ec_write_ok _ _ _ (Hwr _ _ _)).
    cbv beta iota. change (0 <? 0) with false. cbv iota.
    rewrite (u8_small enc) by lia. reflexivity. }
  assert (Hreg : u8 (ec_regs st1 a) = enc).
  { unfold st1. rewrite reg_after_write. apply u8_small. lia. }
  unfold store_then_show. rewrite Hstore.
  rewrite (fan_show_in_range "" st1 (Hr _ _) (Z.lt_neq _ _ Hw))
    by (fold a; rewrite Hreg; exact Henc).
  fold a w. rewrite Hreg. cbv zeta.
  eexists. split; [reflexivity|].
  split; [exact Hle|]. split; [exact Hloss|].
  intros Hwide. nia.
Qed.

(** C8.  With [BASE_MIN = 0x00] and [BASE_MAX = 0x96]: when the register of
    the basic fan speed holds [0x4B], the show callback prints [50]; and
    storing [50] writes [0x4B] to that register. *)
Theorem basic_fan_speed_end_to_end :
  MSI_EC_CPU_BASIC_FAN_SPEED_BASE_MIN = 0x00 ->
  MSI_EC_CPU_BASIC_FAN_SPEED_BASE_MAX = 0x96 ->
  (forall buf st,
     ec_rfault st (ec_log st) (u8 MSI_EC_CPU_BASIC_FAN_SPEED_ADDRESS) = None ->
     u8 (ec_regs st (u8 MSI_EC_CPU_BASIC_FAN_SPEED_ADDRESS)) = 0x4B ->
     cpu_basic_fan_speed_show buf st
     = (3, "50" +++ nl,
        log_call st (EvRead (u8 MSI_EC_CPU_BASIC_FAN_SPEED_ADDRESS))))
  /\ (forall newline count st,
        ec_wfault st (ec_log st) (u8 MSI_EC_CPU_BASIC_FAN_SPEED_ADDRESS) 0x4B
        = None ->
        cpu_basic_fan_speed_store (written "50" newline) count st
        = (count,
           set_reg (log_call st
                      (EvWrite (u8 MSI_EC_CPU_BASIC_FAN_SPEED_ADDRESS) 0x4B))
                   (u8 MSI_EC_CPU_BASIC_FAN_SPEED_ADDRESS) 0x4B)).
Proof.
  intros Hmin Hmax. split.
  - intros buf st Hok Hreg.
    rewrite (fan_show_in_range buf st Hok)
      by (rewrite ?Hreg, Hmin, Hmax; lia).
    rewrite Hreg, Hmin, Hmax. reflexivity.
  - intros newline count st Hok.
    rewrite (fan_store_valid "50" 50 newline count st eq_refl ltac:(lia)).
    rewrite Hmin, Hmax.
    change (Z.quot (50 * (0x96 - 0x00) + 100 * 0x00) 100) with 0x4B.
    rewrite (ec_write_ok MSI_EC_CPU_BASIC_FAN_SPEED_ADDRESS 0x4B st Hok).
    reflexivity.
Qed.

Lemma threshold_store_cases (offset : Z) (s : string) (v : Z) (newline : bool)
      (count : Z) (st : ec_state) :
  numeral s = Some v ->
  v <= 255 ->
  charge_control_threshold_store offset (written s newline) count st
  = (let wdata := u8 (v + u8 offset) in
     if (wdata <? MSI_EC_CHARGE_CONTROL_RANGE_MIN)
        || (wdata >? MSI_EC_CHARGE_CONTROL_RANGE_MAX)
     then (- EINVAL, st)
     else
       let '(r, st') := ec_write MSI_EC_CHARGE_CONTROL_ADDRESS wdata st in
       if r <? 0 then (r, st') else (count, st')).
Proof.
  intros Hs Hv. unfold charge_control_threshold_store.
  rewrite (kstrtou8_numeral s v newline Hs).
  replace (v <=? 255) with true by (symmetry; apply Z.leb_le; lia).
  reflexivity.
Qed.

Lemma threshold_store_too_big (offset : Z) (s : string) (v : Z)
      (newline : bool) (count : Z) (st : ec_state) :
  numeral s = Some v ->
  255 < v ->
  charge_control_threshold_store offset (written s newline) count st
  = (- ERANGE, st).
Proof.
  intros Hs Hv. unfold charge_control_threshold_store.
  rewrite (kstrtou8_numeral s v newline Hs).
  replace (v <=? 255) with false by (symmetry; apply Z.leb_gt; lia).
  reflexivity.
Qed.

Lemma threshold_store_invalid (offset : Z) (s : string) (v : Z)
      (newline : bool) (count : Z) (st : ec_state) :
  numeral s = Some v ->
  v <= 255 ->
  u8 (v + u8 offset) < MSI_EC_CHARGE_CONTROL_RANGE_MIN
  \/ MSI_EC_CHARGE_CONTROL_RANGE_MAX < u8 (v + u8 offset) ->
  charge_control_threshold_store offset (written s newline) count st
  = (- EINVAL, st).
Proof.
  intros Hs Hv Hout.
  rewrite (threshold_store_cases offset s v newline count st Hs Hv).
  cbv zeta.
  replace ((_ <? MSI_EC_CHARGE_CONTROL_RANGE_MIN)
           || (_ >? MSI_EC_CHARGE_CONTROL_RANGE_MAX)) with true;
    [reflexivity|].
  symmetry. rewrite orb_true_iff, Z.gtb_ltb, !Z.ltb_lt. exact Hout.
Qed.

Lemma threshold_roundtrip (offset : Z) (s : string) (v : Z) (newline : bool)
      (count : Z) (st : ec_state) (r n : Z) (text : string) :
  0 <= offset ->
  offset + 100 <= 255 ->
  numeral s = Some v ->
  0 <= v <= 100 ->
  0 <= count ->
  reliable st ->
  store_then_show (charge_control_threshold_store offset)
                  (charge_control_threshold_show offset)
                  (written s newline) count st = (r, (n, text)) ->
  (0 <= r <->
   MSI_EC_CHARGE_CONTROL_RANGE_MIN <= v + offset
   <= MSI_EC_CHARGE_CONTROL_RANGE_MAX)
  /\ (MSI_EC_CHARGE_CONTROL_RANGE_MIN <= v + offset
      <= MSI_EC_CHARGE_CONTROL_RANGE_MAX ->
      r = count /\ text = fmt_i v +++ nl)
  /\ (~ (MSI_EC_CHARGE_CONTROL_RANGE_MIN <= v + offset
         <= MSI_EC_CHARGE_CONTROL_RANGE_MAX) ->
      r = - EINVAL).
Proof.
  intros Hoff Hfit Hs Hv Hcount [Hr Hw] Hrun.
  unfold store_then_show in Hrun.
  rewrite (threshold_store_cases offset s v newline count st Hs ltac:(lia))
    in Hrun.
  cbv zeta in Hrun.
  rewrite (u8_small offset) in Hrun by lia.
  rewrite (u8_small (v + offset)) in Hrun by lia.
  destruct (Z.ltb_spec (v + offset) MSI_EC_CHARGE_CONTROL_RANGE_MIN)
    as [Hlow | Hlow].
  { cbn [orb] in Hrun.
    destruct (charge_control_threshold_show offset "" st) as [[n0 t0] s0].
    injection Hrun as <- _ _. unfold EINVAL.
    repeat split; intros; try lia. }
  rewrite Z.gtb_ltb in Hrun.
  destruct (Z.ltb_spec MSI_EC_CHARGE_CONTROL_RANGE_MAX (v + offset))
    as [Hhigh | Hhigh].
  { cbn [orb] in Hrun.
    destruct (charge_control_threshold_show offset "" st) as [[n0 t0] s0].
    injection Hrun as <- _ _. unfold EINVAL.
    repeat split; intros; try lia. }
  cbn [orb] in Hrun.
  rewrite (ec_write_ok _ _ _ (Hw _ _ _)) in Hrun.
  cbv beta iota in Hrun. change (0 <? 0) with false in Hrun.
  cbv iota in Hrun.
  rewrite (u8_small (v + offset)) in Hrun by lia.
  unfold charge_control_threshold_show in Hrun.
  match type of Hrun with
  | context [ec_read ?a ?s] => rewrite (ec_read_ok a s (Hr _ _)) in Hrun
  end.
  cbv beta iota zeta in Hrun. change (0 <? 0) with false in Hrun.
  cbv iota in Hrun.
  rewrite reg_after_write in Hrun.
  rewrite (u8_small (v + offset)), (u8_small offset) in Hrun by lia.
  replace (v + offset - offset) with v in Hrun by lia.
  unfold sprintf in Hrun. injection Hrun as <- _ <-.
  repeat split; intros; try lia.
Qed.

(** C2.  For the start and the end threshold, when the offset of the role
    leaves room for the percentages in a byte ([0 <= offset],
    [offset + 100 <= 255]) and the chip does not fault: for every [v] in
    [0..100], the store callback succeeds exactly when [v + offset] lies in
    [[RANGE_MIN, RANGE_MAX]] (it returns [-EINVAL] otherwise), and when it
    succeeds the show callback prints [v]. *)
Theorem charge_threshold_roundtrip :
  (0 <= MSI_EC_CHARGE_CONTROL_OFFSET_START ->
   MSI_EC_CHARGE_CONTROL_OFFSET_START + 100 <= 255 ->
   forall s v newline count st r n text,
     numeral s = Some v ->
     0 <= v <= 100 ->
     0 <= count ->
     reliable st ->
     store_then_show charge_control_start_threshold_store
                     charge_control_start_threshold_show
                     (written s newline) count st = (r, (n, text)) ->
     (0 <= r <->
      MSI_EC_CHARGE_CONTROL_RANGE_MIN
      <= v + MSI_EC_CHARGE_CONTROL_OFFSET_START
      <= MSI_EC_CHARGE_CONTROL_RANGE_MAX)
     /\ (MSI_EC_CHARGE_CONTROL_RANGE_MIN
         <= v + MSI_EC_CHARGE_CONTROL_OFFSET_START
         <= MSI_EC_CHARGE_CONTROL_RANGE_MAX ->
         r = count /\ text = fmt_i v +++ nl)
     /\ (~ (MSI_EC_CHARGE_CONTROL_RANGE_MIN
            <= v + MSI_EC_CHARGE_CONTROL_OFFSET_START
            <= MSI_EC_CHARGE_CONTROL_RANGE_MAX) ->
         r = - EINVAL))
  /\ (0 <= MSI_EC_CHARGE_CONTROL_OFFSET_END ->
      MSI_EC_CHARGE_CONTROL_OFFSET_END + 100 <= 255 ->
      forall s v newline count st r n text,
        numeral s = Some v ->
        0 <= v <= 100 ->
        0 <= count ->
        reliable st ->
        store_then_show charge_control_end_threshold_store
                        charge_control_end_threshold_show
                        (written s newline) count st = (r, (n, text)) ->
        (0 <= r <->
         MSI_EC_CHARGE_CONTROL_RANGE_MIN
         <= v + MSI_EC_CHARGE_CONTROL_OFFSET_END
         <= MSI_EC_CHARGE_CONTROL_RANGE_MAX)
        /\ (MSI_EC_CHARGE_CONTROL_RANGE_MIN
            <= v + MSI_EC_CHARGE_CONTROL_OFFSET_END
            <= MSI_EC_CHARGE_CONTROL_RANGE_MAX ->
            r = count /\ text = fmt_i v +++ nl)
        /\ (~ (MSI_EC_CHARGE_CONTROL_RANGE_MIN
               <= v + MSI_EC_CHARGE_CONTROL_OFFSET_END
               <= MSI_EC_CHARGE_CONTROL_RANGE_MAX) ->
            r = - EINVAL)).
Proof.
  split.
  - intros Hoff Hfit s v newline count st r n text Hs Hv Hc Hrel Hrun.
    exact (threshold_roundtrip _ s v newline count st r n text
             Hoff Hfit Hs Hv Hc Hrel Hrun).
  - intros Hoff Hfit s v newline count st r n text Hs Hv Hc Hrel Hrun.
    exact (threshold_roundtrip _ s v newline count st r n text
             Hoff Hfit Hs Hv Hc Hrel Hrun).
Qed.

Lemma numeric_store_unparsed (buf : string) (count : Z) (st : ec_state) :
  fst (kstrtou8 buf) < 0 ->
  cpu_basic_fan_speed_store buf count st = (fst (kstrtou8 buf), st)
  /\ charge_control_start_threshold_store buf count st
     = (fst (kstrtou8 buf), st)
  /\ charge_control_end_threshold_store buf count st
     = (fst (kstrtou8 buf), st).
Proof.
  intros H. unfold cpu_basic_fan_speed_store,
    charge_control_start_threshold_store, charge_control_end_threshold_store,
    charge_control_threshold_store.
  destruct (kstrtou8 buf) as [result wdata]. simpl in H |- *.
  replace (result <? 0) with true by (symmetry; apply Z.ltb_lt; lia).
  auto.
Qed.

Lemma kbd_bl_sysfs_set_invalid (brightness : Z) (st : ec_state) :
  brightness < 0 \/ 3 < brightness ->
  kbd_bl_sysfs_set brightness st = (- 1, st).
Proof.
  intros H. unfold kbd_bl_sysfs_set.
  replace ((brightness <? 0) || (brightness >? 3)) with true; [reflexivity|].
  symmetry. rewrite orb_true_iff, Z.gtb_ltb, !Z.ltb_lt. exact H.
Qed.

(** C6.  A store callback given a value outside the attribute's domain
    returns a negative errno and leaves the chip state as it was: the log of
    transport calls has not grown (no write was issued) and the registers
    are the same.  This holds for a name that is not listed (the seven
    switches and modes, [-EINVAL]), a fan percentage above 100 ([-EINVAL],
    or [-ERANGE] above 255), a threshold whose byte [v + offset] is outside
    [[RANGE_MIN, RANGE_MAX]] ([-EINVAL], or [-ERANGE] for [v] above 255),
    any text that [kstrtou8] refuses, and a keyboard backlight level
    outside [0..3] ([-1]). *)
Theorem invalid_input_rejected_before_any_write :
  (forall a buf count st,
     In a enum_attrs ->
     nul_free buf = true ->
     ~ listed (ea_codes a) buf ->
     ea_store a buf count st = (- EINVAL, st))
  /\ (forall s p newline count st,
        numeral s = Some p ->
        100 < p ->
        cpu_basic_fan_speed_store (written s newline) count st
        = ((if p <=? 255 then - EINVAL else - ERANGE), st))
  /\ (forall s v newline count st,
        numeral s = Some v ->
        v <= 255 ->
        u8 (v + u8 MSI_EC_CHARGE_CONTROL_OFFSET_START)
        < MSI_EC_CHARGE_CONTROL_RANGE_MIN
        \/ MSI_EC_CHARGE_CONTROL_RANGE_MAX
           < u8 (v + u8 MSI_EC_CHARGE_CONTROL_OFFSET_START) ->
        charge_control_start_threshold_store (written s newline) count st
        = (- EINVAL, st))
  /\ (forall s v newline count st,
        numeral s = Some v ->
        v <= 255 ->
        u8 (v + u8 MSI_EC_CHARGE_CONTROL_OFFSET_END)
        < MSI_EC_CHARGE_CONTROL_RANGE_MIN
        \/ MSI_EC_CHARGE_CONTROL_RANGE_MAX
           < u8 (v + u8 MSI_EC_CHARGE_CONTROL_OFFSET_END) ->
        charge_control_end_threshold_store (written s newline) count st
        = (- EINVAL, st))
  /\ (forall s v newline count st,
        numeral s = Some v ->
        255 < v ->
        charge_control_start_threshold_store (written s newline) count st
        = (- ERANGE, st)
        /\ charge_control_end_threshold_store (written s newline) count st
           = (- ERANGE, st))
  /\ (forall buf count st,
        fst (kstrtou8 buf) < 0 ->
        cpu_basic_fan_speed_store buf count st = (fst (kstrtou8 buf), st)
        /\ charge_control_start_threshold_store buf count st
           = (fst (kstrtou8 buf), st)
        /\ charge_control_end_threshold_store buf count st
           = (fst (kstrtou8 buf), st))
  /\ (forall brightness st,
        brightness < 0 \/ 3 < brightness ->
        kbd_bl_sysfs_set brightness st = (- 1, st)).
Proof.
  repeat apply conj.
  - intros a buf count st Ha Hnul Hno.
    exact (enum_store_reject a Ha buf count st Hnul
             (not_listed_forall _ _ Hno)).
  - exact fan_store_invalid.
  - intros s v newline count st Hs Hv Hout.
    exact (threshold_store_invalid _ s v newline count st Hs Hv Hout).
  - intros s v newline count st Hs Hv Hout.
    exact (threshold_store_invalid _ s v newline count st Hs Hv Hout).
  - intros s v newline count st Hs Hv. split.
    + exact (threshold_store_too_big _ s v newline count st Hs Hv).
    + exact (threshold_store_too_big _ s v newline count st Hs Hv).
  - exact numeric_store_unparsed.
  - exact kbd_bl_sysfs_set_invalid.
Qed.

End NumericAttributes.

(** ** Propagation of transport faults *)

Section Propagation.

Context {K : constants}.

Lemma fp_ext (run run' : ec_state -> option (Z * ec_state)) :
  (forall st, run st = run' st) ->
  faults_propagate run' -> faults_propagate run.
Proof.
  intros Hext H st r st' before ev after e Hrun.
  rewrite Hext in Hrun. exact (H st r st' before ev after e Hrun).
Qed.

Lemma fp_pure (r0 : Z) : faults_propagate (fun st => Some (r0, st)).
Proof.
  intros st r st' before ev after e Hrun Hlog Hlen Hf.
  injection Hrun as <- <-. exfalso. eapply no_call_split; eauto.
Qed.

Lemma fp_write (addr data c : Z) :
  faults_propagate
    (fun st => Some (let '(result, st1) := ec_write addr data st in
                     if result <? 0 then (result, st1) else (c, st1))).
Proof.
  intros st r st' before ev after e Hrun Hlog Hlen Hf.
  unfold ec_write in Hrun.
  destruct (ec_wfault st (ec_log st) (u8 addr) (u8 data)) as [e0|] eqn:E;
    cbn in Hrun; injection Hrun as <- <-; cbn [ec_log log_call set_reg] in Hlog;
    destruct (one_call_split _ _ _ _ _ Hlog Hlen) as (-> & -> & ->);
    cbn [call_fault] in Hf; rewrite E in Hf; [|discriminate].
  injection Hf as ->. auto.
Qed.

Lemma fp_write_raw (addr data : Z) :
  faults_propagate (fun st => Some (ec_write addr data st)).
Proof.
  intros st r st' before ev after e Hrun Hlog Hlen Hf.
  unfold ec_write in Hrun.
  destruct (ec_wfault st (ec_log st) (u8 addr) (u8 data)) as [e0|] eqn:E;
    injection Hrun as <- <-; cbn [ec_log log_call set_reg] in Hlog;
    destruct (one_call_split _ _ _ _ _ Hlog Hlen) as (-> & -> & ->);
    cbn [call_fault] in Hf; rewrite E in Hf; [|discriminate].
  injection Hf as ->. auto.
Qed.

(** A show callback that reads one register, checks the result and then
    only computes. *)
Ltac show_propagates :=
  let st := fresh "st" in
  let Hrun := fresh "Hrun" in
  let Hlog := fresh "Hlog" in
  let Hlen := fresh "Hlen" in
  let Hf := fresh "Hf" in
  let E := fresh "E" in
  intros st ? ? ? ? ? ? Hrun Hlog Hlen Hf;
  unfold of_show, charge_control_start_threshold_show,
    charge_control_end_threshold_show, charge_control_threshold_show,
    webcam_show, fn_key_show, win_key_show, battery_mode_show,
    cooler_boost_show, shift_mode_show, fan_mode_show,
    cpu_realtime_temperature_show, cpu_realtime_fan_speed_show,
    cpu_basic_fan_speed_show, gpu_realtime_temperature_show,
    gpu_realtime_fan_speed_show, sprintf, ec_read in Hrun;
  match type of Hrun with
  | context [ec_rfault st (ec_log st) ?a] =>
      destruct (ec_rfault st (ec_log st) a) eqn:E
  end;
  cbv beta iota zeta in Hrun;
  [ match type of Hrun with
    | context [Zneg ?p <? 0] => change (Zneg p <? 0) with true in Hrun
    end
  | change (0 <? 0) with false in Hrun ];
  cbv beta iota zeta in Hrun;
  repeat match type of Hrun with
         | context [if ?c then _ else _] =>
             destruct c; cbv beta iota zeta in Hrun
         end;
  injection Hrun as <- <-; cbn [ec_log log_call] in Hlog;
  destruct (one_call_split _ _ _ _ _ Hlog Hlen) as (-> & -> & ->);
  cbn [call_fault] in Hf; rewrite E in Hf;
  first [ discriminate | injection Hf as ->; auto ].

Lemma single_read_shows_propagate (buf : string) :
  Forall faults_propagate
    [ of_show (charge_control_start_threshold_show buf);
      of_show (charge_control_end_threshold_show buf);
      of_show (webcam_show buf);
      of_show (fn_key_show buf);
      of_show (win_key_show buf);
      of_show (battery_mode_show buf);
      of_show (cooler_boost_show buf);
      of_show (shift_mode_show buf);
      of_show (fan_mode_show buf);
      of_show (cpu_realtime_temperature_show buf);
      of_show (cpu_realtime_fan_speed_show buf);
      of_show (cpu_basic_fan_speed_show buf);
      of_show (gpu_realtime_temperature_show buf);
      of_show (gpu_realtime_fan_speed_show buf) ].
Proof.
  repeat (apply Forall_cons; [show_propagates|]). apply Forall_nil.
Qed.

Lemma enum_store_propagates (a : enum_attr) (buf : string) (count : Z) :
  In a enum_attrs ->
  nul_free buf = true ->
  faults_propagate (of_store (ea_store a buf count)).
Proof.
  intros Ha Hnul.
  destruct (listed_or_not (ea_codes a) buf) as [(name & code & Hin & Hm) | Hno].
  - eapply fp_ext; [|apply (fp_write (ea_address a) code count)].
    intros st. unfold of_store.
    now rewrite (enum_store_accept a Ha name code buf count st Hin Hm).
  - eapply fp_ext; [|apply (fp_pure (- EINVAL))].
    intros st. unfold of_store.
    now rewrite (enum_store_reject a Ha buf count st Hnul Hno).
Qed.

Lemma numeric_stores_propagate (buf : string) (count : Z) :
  faults_propagate (of_store (cpu_basic_fan_speed_store buf count))
  /\ faults_propagate (of_store (charge_control_start_threshold_store buf count))
  /\ faults_propagate (of_store (charge_control_end_threshold_store buf count)).
Proof.
  unfold of_store, cpu_basic_fan_speed_store,
    charge_control_start_threshold_store, charge_control_end_threshold_store,
    charge_control_threshold_store.
  destruct (kstrtou8 buf) as [result wdata].
  destruct (result <? 0);
    [split; [|split]; apply (fp_pure result)|].
  split; [|split].
  - destruct (wdata >? 100); [apply fp_pure | apply fp_write].
  - cbv zeta.
    match goal with
    | |- context [if ?c then _ else _] => destruct c
    end; [apply fp_pure | apply fp_write].
  - cbv zeta.
    match goal with
    | |- context [if ?c then _ else _] => destruct c
    end; [apply fp_pure | apply fp_write].
Qed.

Lemma led_sets_propagate (brightness : Z) :
  faults_propagate (of_store (micmute_led_sysfs_set brightness))
  /\ faults_propagate (of_store (mute_led_sysfs_set brightness))
  /\ faults_propagate (of_store (kbd_bl_sysfs_set brightness)).
Proof.
  unfold of_store, micmute_led_sysfs_set, mute_led_sysfs_set,
    kbd_bl_sysfs_set.
  split; [|split].
  - cbv zeta. apply fp_write.
  - cbv zeta. apply fp_write.
  - destruct ((brightness <? 0) || (brightness >? 3));
      [apply fp_pure | cbv zeta; apply fp_write_raw].
Qed.

Lemma ec_read_seq_propagates (fuel : nat) (addr : Z) (buf : list Z) (len : Z) :
  faults_propagate (of_seq (ec_read_seq fuel addr buf len)).
Proof.
  intros st r st' before ev after e Hrun Hlog Hlen Hf.
  unfold of_seq, ec_read_seq in Hrun.
  destruct (ec_read_seq_loop fuel (u8 addr) buf len 0 st)
    as [[[r0 buf0] st0]|] eqn:Hloop; [|discriminate].
  injection Hrun as <- <-.
  exact (loop_faults_propagate fuel _ _ _ _ _ _ _ _ _ _ _ _ Hloop Hlog
           Hlen Hf).
Qed.

Lemma fw_version_show_propagates (fuel : nat) (buf : string) :
  faults_propagate (of_show_opt (fw_version_show fuel buf)).
Proof.
  intros st r st' before ev after e Hrun Hlog Hlen Hf.
  unfold of_show_opt, fw_version_show in Hrun.
  destruct (ec_read_seq fuel MSI_EC_FW_VERSION_ADDRESS
              (zeroed (MSI_EC_FW_VERSION_LENGTH + 1))
              MSI_EC_FW_VERSION_LENGTH st)
    as [[[r0 rdata] st0]|] eqn:Hseq; [|discriminate].
  assert (Hs : of_seq (ec_read_seq fuel MSI_EC_FW_VERSION_ADDRESS
                         (zeroed (MSI_EC_FW_VERSION_LENGTH + 1))
                         MSI_EC_FW_VERSION_LENGTH) st = Some (r0, st0))
    by (unfold of_seq; now rewrite Hseq).
  destruct (r0 <? 0) eqn:Hr0.
  - injection Hrun as <- <-.
    exact (ec_read_seq_propagates _ _ _ _ _ _ _ _ _ _ _ Hs Hlog Hlen Hf).
  - unfold sprintf in Hrun. injection Hrun as <- <-.
    destruct (ec_read_seq_propagates _ _ _ _ _ _ _ _ _ _ _ Hs Hlog Hlen Hf)
      as [-> _].
    discriminate Hr0.
Qed.

Lemma app_split_left (l l2 before after : list event) (ev : event) :
  before ++ ev :: after = l ++ l2 ->
  (List.length before < List.length l)%nat ->
  exists after1, l = before ++ ev :: after1.
Proof.
  revert l. induction before as [|b before IH]; intros [|x l] H Hlen;
    simpl in *; try lia.
  - injection H as <- _. now exists l.
  - injection H as <- H. destruct (IH l H ltac:(lia)) as (after1 & ->).
    now exists after1.
Qed.

Lemma ec_read_seq_frame (fuel : nat) (addr : Z) (buf : list Z) (len : Z)
      (st st' : ec_state) (r : Z) (buf' : list Z) :
  ec_read_seq fuel addr buf len st = Some (r, buf', st') ->
  (exists l, ec_log st' = ec_log st ++ l)
  /\ ec_regs st' = ec_regs st
  /\ ec_rfault st' = ec_rfault st /\ ec_wfault st' = ec_wfault st.
Proof. unfold ec_read_seq. apply loop_frame. Qed.

Lemma fw_release_date_show_propagates (fuel : nat) (y mo d h mi s : Z)
      (buf : string) :
  faults_propagate (of_show_opt (fw_release_date_show fuel y mo d h mi s buf)).
Proof.
  intros st r st' before ev after e Hrun Hlog Hlen Hf.
  unfold of_show_opt, fw_release_date_show in Hrun.
  destruct (ec_read_seq fuel MSI_EC_FW_DATE_ADDRESS
              (zeroed (MSI_EC_FW_DATE_LENGTH + 1))
              MSI_EC_FW_DATE_LENGTH st)
    as [[[r0 rdate] st1]|] eqn:Hseq1; [|discriminate].
  assert (Hs1 : of_seq (ec_read_seq fuel MSI_EC_FW_DATE_ADDRESS
                          (zeroed (MSI_EC_FW_DATE_LENGTH + 1))
                          MSI_EC_FW_DATE_LENGTH) st = Some (r0, st1))
    by (unfold of_seq; now rewrite Hseq1).
  destruct (r0 <? 0) eqn:Hr0.
  { injection Hrun as <- <-.
    exact (ec_read_seq_propagates _ _ _ _ _ _ _ _ _ _ _ Hs1 Hlog Hlen Hf). }
  destruct (sscanf (cstring rdate) date_format [mo; d; y]) as [n0 date].
  destruct (ec_read_seq fuel MSI_EC_FW_TIME_ADDRESS
              (zeroed (MSI_EC_FW_TIME_LENGTH + 1))
              MSI_EC_FW_TIME_LENGTH st1)
    as [[[r1 rtime] st2]|] eqn:Hseq2; [|discriminate].
  assert (Hs2 : of_seq (ec_read_seq fuel MSI_EC_FW_TIME_ADDRESS
                          (zeroed (MSI_EC_FW_TIME_LENGTH + 1))
                          MSI_EC_FW_TIME_LENGTH) st1 = Some (r1, st2))
    by (unfold of_seq; now rewrite Hseq2).
  destruct (ec_read_seq_frame _ _ _ _ _ _ _ _ Hseq1)
    as ((l1 & Hl1) & _ & Hrf1 & Hwf1).
  destruct (ec_read_seq_frame _ _ _ _ _ _ _ _ Hseq2) as ((l2 & Hl2) & _).
  assert (Hst' : st' = st2).
  { destruct (r1 <? 0).
    - now injection Hrun as _ <-.
    - destruct (sscanf (cstring rtime) time_format _).
      unfold sprintf in Hrun. now injection Hrun as _ <-. }
  subst st'.
  destruct (Nat.lt_ge_cases (List.length before) (List.length (ec_log st1)))
    as [Hin1 | Hin2].
  - exfalso. rewrite Hl2 in Hlog. symmetry in Hlog.
    destruct (app_split_left _ _ _ _ _ Hlog Hin1) as (after1 & Hlog1).
    destruct (ec_read_seq_propagates _ _ _ _ _ _ _ _ _ _ _ Hs1 Hlog1 Hlen Hf)
      as [-> _].
    discriminate Hr0.
  - assert (Hf1 : call_fault st1 before ev = Some e).
    { destruct ev; simpl in *; [rewrite Hrf1 | rewrite Hwf1]; exact Hf. }
    destruct (ec_read_seq_propagates _ _ _ _ _ _ _ _ _ _ _ Hs2 Hlog Hin2 Hf1)
      as [-> ->].
    change (Zneg e <? 0) with true in Hrun.
    injection Hrun as <-. auto.
Qed.

Lemma enum_stores_propagate (buf : string) (count : Z) :
  nul_free buf = true ->
  Forall faults_propagate
         (map (fun a => of_store (ea_store a buf count)) enum_attrs).
Proof.
  intros Hnul. apply Forall_forall. intros run Hrun.
  apply in_map_iff in Hrun. destruct Hrun as (a & <- & Ha).
  now apply enum_store_propagates.
Qed.

Lemma kbd_bl_sysfs_get_on_fault (st : ec_state) (e : positive) :
  ec_rfault st (ec_log st) (u8 MSI_EC_KBD_BL_ADDRESS) = Some e ->
  kbd_bl_sysfs_get st = (0, log_call st (EvRead (u8 MSI_EC_KBD_BL_ADDRESS))).
Proof.
  intros H. unfold kbd_bl_sysfs_get. now rewrite (ec_read_fault _ _ _ H).
Qed.

(** C5 (as amended).  Every operation of the driver that calls the
    transport, except the read of the keyboard backlight level, propagates
    faults: a transport call of it that faults is its last call, and the
    operation returns the errno of that call, unchanged.  This covers
    [ec_read_seq], all the show and store callbacks and the LED setters.
    [kbd_bl_sysfs_get] is the exception: when its read faults it returns
    level 0. *)
Theorem faults_propagate_except_kbd_bl_get :
  (forall i name run,
     nul_free (in_buf i) = true ->
     In (name, run) (operations i) ->
     faults_propagate run)
  /\ (forall st e,
        ec_rfault st (ec_log st) (u8 MSI_EC_KBD_BL_ADDRESS) = Some e ->
        kbd_bl_sysfs_get st
        = (0, log_call st (EvRead (u8 MSI_EC_KBD_BL_ADDRESS)))).
Proof.
  split; [|exact kbd_bl_sysfs_get_on_fault].
  intros i name run Hnul Hin.
  pose proof (single_read_shows_propagate (in_buf i)) as HS.
  repeat (apply Forall_cons_iff in HS; destruct HS as [? HS]).
  pose proof (enum_stores_propagate (in_buf i) (in_count i) Hnul) as HE.
  cbn [map enum_attrs ea_store] in HE.
  repeat (apply Forall_cons_iff in HE; destruct HE as [? HE]).
  destruct (numeric_stores_propagate (in_buf i) (in_count i)) as (? & ? & ?).
  destruct (led_sets_propagate (in_brightness i)) as (? & ? & ?).
  unfold operations in Hin.
  destruct (in_locals i) as [[[[[y mo] d] h] mi] s].
  cbn [In] in Hin.
  repeat (destruct Hin as [Hin | Hin];
          [injection Hin as <- <-;
           first [ assumption
                 | apply ec_read_seq_propagates
                 | apply fw_version_show_propagates
                 | apply fw_release_date_show_propagates ] | ]).
  contradiction.
Qed.

End Propagation.

(** ** The firmware release date *)

Example sscanf_date :
  forall mo d y, sscanf "07042024" date_format [mo; d; y] = (3, [7; 4; 2024]).
Proof. intros. reflexivity. Qed.

Example sscanf_time :
  forall h mi s, sscanf "13:05:59" time_format [h; mi; s] = (3, [13; 5; 59]).
Proof. intros. reflexivity. Qed.

(** A letter in the month field: one conversion, and the arguments for the
    day and the year keep what they held. *)
Example sscanf_date_letter :
  forall mo d y, sscanf "0x042024" date_format [mo; d; y] = (1, [0; d; y]).
Proof. intros. reflexivity. Qed.

(** With the bytes ["07042024"] and ["13:05:59"] in the date and time
    registers the callback prints the date, whatever its locals held. *)
Lemma fw_release_date_show_well_formed (y mo d h mi s : Z) :
  exists st',
    @fw_release_date_show example_constants 9 y mo d h mi s ""
      (quiet_ec (regs_of_strings 0xac "07042024" 0xb4 "13:05:59"))
    = Some (20, "2024/07/04 13:05:59" +++ nl, st').
Proof. eexists. reflexivity. Qed.

(** C7.  The code at the failing input of the claim: the date registers hold
    ["0x042024"], with a letter where the second digit of the month
    belongs, the time registers hold ["13:05:59"], and no read faults.
    [sscanf] converts the month as 0 and stops; its result is not looked
    at, so the callback does not fail: it returns the length of a text in
    which the year and the day are whatever the uninitialised locals
    [year] and [day] held. *)
Theorem fw_release_date_show_ignores_malformed_date (y mo d h mi s : Z) :
  exists st',
    @fw_release_date_show example_constants 9 y mo d h mi s ""
      (quiet_ec (regs_of_strings 0xac "0x042024" 0xb4 "13:05:59"))
    = Some (Z.of_nat (String.length
                        (fmt_0d 4 y +++ "/00/" +++ fmt_0d 2 d
                         +++ " 13:05:59" +++ nl)),
            fmt_0d 4 y +++ "/00/" +++ fmt_0d 2 d +++ " 13:05:59" +++ nl,
            st')
    /\ 0 <= Z.of_nat (String.length
                        (fmt_0d 4 y +++ "/00/" +++ fmt_0d 2 d
                         +++ " 13:05:59" +++ nl)).
Proof.
  eexists. split; [reflexivity | lia].
Qed.

Example fw_release_date_show_garbage :
  exists st',
    @fw_release_date_show example_constants 9 3 1 2 0 0 0 ""
      (quiet_ec (regs_of_strings 0xac "0x042024" 0xb4 "13:05:59"))
    = Some (20, "0003/00/02 13:05:59" +++ nl, st').
Proof. eexists. reflexivity. Qed.

(** A letter in the minutes: the hour is converted, the minute and the
    second are what the locals held. *)
Example fw_release_date_show_garbage_time :
  exists st',
    @fw_release_date_show example_constants 9 0 0 0 0 61 62 ""
      (quiet_ec (regs_of_strings 0xac "07042024" 0xb4 "13:x5:59"))
    = Some (20, "2024/07/04 13:61:62" +++ nl, st').
Proof. eexists. reflexivity. Qed.

(** ** Worked examples *)

Example fmt_i_50 : fmt_i 50 = "50".
Proof. reflexivity. Qed.

Example fmt_0d_fields :
  fmt_0d 4 2024 = "2024" /\ fmt_0d 2 7 = "07" /\ fmt_0d 4 (-5) = "-005".
Proof. repeat split; reflexivity. Qed.

Example streq_on : streq ("on" +++ nl) "on" = true /\ streq "on " "on" = false.
Proof. split; reflexivity. Qed.

Example kstrtou8_examples :
  kstrtou8 "50" = (0, 50)
  /\ kstrtou8 ("50" +++ nl) = (0, 50)
  /\ kstrtou8 "300" = (- ERANGE, 0)
  /\ kstrtou8 "5x" = (- EINVAL, 0)
  /\ kstrtou8 "" = (- EINVAL, 0).
Proof. repeat split; reflexivity. Qed.

Lemma quiet_ec_reliable (regs : Z -> Z) : reliable (quiet_ec regs).
Proof. split; intros; reflexivity. Qed.

(** The webcam attribute of the example configuration. *)
Lemma webcam_in_enum_attrs :
  In (mkEnumAttr "webcam" (@webcam_show example_constants)
                 (@webcam_store example_constants) 0x2e
                 [("on", 0x4a); ("off", 0x48)])
     (@enum_attrs example_constants).
Proof. left. reflexivity. Qed.

(** C1, the claim as it was stated fails on a range of sixteen steps: with
    [BASE_MIN = 0x00] and [BASE_MAX = 0x0f], storing 50 writes 7, and the
    show callback then prints 46, four away from 50. *)
Lemma basic_fan_speed_roundtrip_narrow_range :
  numeral "50" = Some 50
  /\ reliable (quiet_ec (fun _ => 0))
  /\ store_then_show (@cpu_basic_fan_speed_store narrow_fan_constants)
                     (@cpu_basic_fan_speed_show narrow_fan_constants)
                     "50" 2 (quiet_ec (fun _ => 0))
     = (2, (3, fmt_i 46 +++ nl))
  /\ ~ (50 - 1 <= 46 <= 50 + 1).
Proof.
  split; [reflexivity|]. split; [apply quiet_ec_reliable|].
  split; [reflexivity | lia].
Qed.

Lemma basic_fan_speed_roundtrip_bounded_loss_witness :
  (exists d,
     store_then_show (@cpu_basic_fan_speed_store example_constants)
                     (@cpu_basic_fan_speed_show example_constants)
                     (written "50" true) 3 (quiet_ec (fun _ => 0))
     = (3, (Z.of_nat (String.length (fmt_i d +++ nl)), fmt_i d +++ nl))
     /\ d <= 50
     /\ (50 - d) * (0x96 - 0x00) < (0x96 - 0x00) + 100
     /\ (100 <= 0x96 - 0x00 -> 50 - 1 <= d))
  /\ (exists d,
        store_then_show (@cpu_basic_fan_speed_store narrow_fan_constants)
                        (@cpu_basic_fan_speed_show narrow_fan_constants)
                        (written "50" false) 2 (quiet_ec (fun _ => 0))
        = (2, (Z.of_nat (String.length (fmt_i d +++ nl)), fmt_i d +++ nl))
        /\ d <= 50
        /\ (50 - d) * (0x0f - 0x00) < (0x0f - 0x00) + 100
        /\ (100 <= 0x0f - 0x00 -> 50 - 1 <= d))
  /\ @cpu_basic_fan_speed_store example_constants (written "150" false) 3
       (quiet_ec (fun _ => 0))
     = (- EINVAL, quiet_ec (fun _ => 0)).
Proof.
  destruct (@basic_fan_speed_roundtrip_bounded_loss example_constants)
    as [Hround Hreject].
  destruct (@basic_fan_speed_roundtrip_bounded_loss narrow_fan_constants)
    as [Hnarrow _].
  split; [|split].
  - apply (Hround ltac:(simpl; lia) ltac:(simpl; lia) ltac:(simpl; lia)
             "50" 50 true 3 (quiet_ec (fun _ => 0)) eq_refl ltac:(lia)
             (quiet_ec_reliable _)).
  - apply (Hnarrow ltac:(simpl; lia) ltac:(simpl; lia) ltac:(simpl; lia)
             "50" 50 false 2 (quiet_ec (fun _ => 0)) eq_refl ltac:(lia)
             (quiet_ec_reliable _)).
  - exact (Hreject "150" 150 false 3 (quiet_ec (fun _ => 0)) eq_refl
             ltac:(lia)).
Defined.

Lemma charge_threshold_roundtrip_witness :
  (0 <= 3 <-> 0x8a <= 50 + 0x8a <= 0xe4)
  /\ (0 <= - EINVAL <-> 0x8a <= 95 + 0x8a <= 0xe4)
  /\ (0 <= 3 <-> 0x8a <= 50 + 0x80 <= 0xe4).
Proof.
  destruct (@charge_threshold_roundtrip example_constants) as [Hstart Hend].
  split; [|split].
  - exact (proj1 (Hstart ltac:(simpl; lia) ltac:(simpl; lia)
             "50" 50 true 3 (quiet_ec (fun _ => 0)) 3 3 (fmt_i 50 +++ nl)
             eq_refl ltac:(lia) ltac:(lia) (quiet_ec_reliable _) eq_refl)).
  - exact (proj1 (Hstart ltac:(simpl; lia) ltac:(simpl; lia)
             "95" 95 true 3 (quiet_ec (fun _ => 0)) (- EINVAL) 5
             (fmt_i (-138) +++ nl)
             eq_refl ltac:(lia) ltac:(lia) (quiet_ec_reliable _) eq_refl)).
  - exact (proj1 (Hend ltac:(simpl; lia) ltac:(simpl; lia)
             "50" 50 false 3 (quiet_ec (fun _ => 0)) 3 3 (fmt_i 50 +++ nl)
             eq_refl ltac:(lia) ltac:(lia) (quiet_ec_reliable _) eq_refl)).
Defined.

Lemma ec_read_seq_order_and_fault_witness :
  (exists buf' st',
     ec_read_seq 13 0xa0 (zeroed 13) 12 (quiet_ec (fun _ => 0))
     = Some (0, buf', st')
     /\ ec_log st' = read_events 0xa0 12)
  /\ read_events 0xa0 3 = [EvRead 0xa0; EvRead 0xa1; EvRead 0xa2]
  /\ (exists buf' st',
        ec_read_seq 13 0xa0 (zeroed 13) 12 (flaky_ec (fun _ => 0) 0xa2)
        = Some (-5, buf', st')
        /\ ec_log st' = read_events 0xa0 3)
  /\ (exists st',
        @fw_version_show example_constants 13 "" (flaky_ec (fun _ => 0) 0xa2)
        = Some (-5, "", st'))
  /\ (exists st',
        @fw_release_date_show example_constants 9 0 0 0 0 0 0 ""
          (flaky_ec (fun _ => 0) 0xae)
        = Some (-5, "", st'))
  /\ (exists st',
        @fw_release_date_show example_constants 9 0 0 0 0 0 0 ""
          (flaky_ec (fun _ => 0) 0xb6)
        = Some (-5, "", st')).
Proof.
  destruct (@ec_read_seq_order_and_fault example_constants)
    as (Hok & Hplain & Hfault & Hver & Hdate & Htime).
  split; [|split; [|split; [|split; [|split]]]].
  - apply (Hok 13%nat 0xa0 (zeroed 13) 12 (quiet_ec (fun _ => 0)));
      [lia | simpl; lia | intros m Hm; reflexivity].
  - exact (Hplain 0xa0 3%nat ltac:(lia) ltac:(lia)).
  - apply (Hfault 13%nat 0xa0 (zeroed 13) 12 (flaky_ec (fun _ => 0) 0xa2)
             2%nat 5%positive); [lia | lia | lia | | reflexivity].
    intros m Hm. destruct m as [|[|m]]; [reflexivity | reflexivity | lia].
  - eexists. eapply Hver; [reflexivity | lia].
  - eexists. eapply Hdate; [reflexivity | lia].
  - eexists. eapply Htime; [reflexivity | lia | reflexivity | lia].
Defined.

Lemma enum_decode_total_encode_strict_witness :
  (exists text,
     @webcam_show example_constants "" (quiet_ec (fun _ => 7))
     = (Z.of_nat (String.length text), text,
        log_call (quiet_ec (fun _ => 7)) (EvRead 0x2e))
     /\ 0 < Z.of_nat (String.length text))
  /\ (0 <= fst (@webcam_store example_constants "auto" 4
                  (quiet_ec (fun _ => 7))) ->
      listed [("on", 0x4a); ("off", 0x48)] "auto").
Proof.
  destruct (@enum_decode_total_encode_strict example_constants _
              webcam_in_enum_attrs) as [Hshow Hstore].
  split.
  - destruct (Hshow "" (quiet_ec (fun _ => 7)) eq_refl)
      as (text & H1 & H2 & _).
    exists text. split; [exact H1 | exact H2].
  - exact (proj1 (Hstore "auto" 4 (quiet_ec (fun _ => 7)) _ _ eq_refl
                    eq_refl)).
Defined.

(** C5, the claim as it was stated fails on the keyboard backlight: on a
    chip whose reads fault with [EIO], [kbd_bl_sysfs_get] returns level 0,
    the value it returns for a register that holds 0, and not [-EIO]. *)
Lemma kbd_bl_sysfs_get_swallows_fault :
  ec_rfault (deaf_ec (fun _ => 0)) [] 0xf3 = Some 5%positive
  /\ fst (@kbd_bl_sysfs_get example_constants (deaf_ec (fun _ => 0))) = 0
  /\ fst (@kbd_bl_sysfs_get example_constants (quiet_ec (fun _ => 0))) = 0
  /\ ~ faults_propagate (of_store (@kbd_bl_sysfs_get example_constants)).
Proof.
  split; [reflexivity|]. split; [reflexivity|]. split; [reflexivity|].
  intros H.
  destruct (H (deaf_ec (fun _ => 0)) 0
              (log_call (deaf_ec (fun _ => 0)) (EvRead 0xf3))
              [] (EvRead 0xf3) [] 5%positive eq_refl eq_refl
              (Nat.le_refl 0) eq_refl) as [Hr _].
  discriminate Hr.
Qed.

Lemma faults_propagate_except_kbd_bl_get_witness :
  faults_propagate (of_store (@webcam_store example_constants "on" 2))
  /\ @kbd_bl_sysfs_get example_constants (deaf_ec (fun _ => 0))
     = (0, log_call (deaf_ec (fun _ => 0)) (EvRead 0xf3)).
Proof.
  destruct (@faults_propagate_except_kbd_bl_get example_constants)
    as [Hops Hkbd].
  split.
  - apply (Hops (mkInputs "on" 2 1 13 (0, 0, 0, 0, 0, 0) 0xa0 [] 12)
                "webcam_store" _ eq_refl).
    do 6 right. left. reflexivity.
  - exact (Hkbd (deaf_ec (fun _ => 0)) 5%positive eq_refl).
Defined.

Lemma invalid_input_rejected_before_any_write_witness :
  @webcam_store example_constants "auto" 4 (quiet_ec (fun _ => 0))
  = (- EINVAL, quiet_ec (fun _ => 0))
  /\ @cpu_basic_fan_speed_store example_constants "101" 3
       (quiet_ec (fun _ => 0))
     = (- EINVAL, quiet_ec (fun _ => 0))
  /\ @charge_control_start_threshold_store example_constants "95" 2
       (quiet_ec (fun _ => 0))
     = (- EINVAL, quiet_ec (fun _ => 0))
  /\ @charge_control_end_threshold_store example_constants "5" 1
       (quiet_ec (fun _ => 0))
     = (- EINVAL, quiet_ec (fun _ => 0))
  /\ @charge_control_start_threshold_store example_constants "300" 3
       (quiet_ec (fun _ => 0))
     = (- ERANGE, quiet_ec (fun _ => 0))
  /\ @cpu_basic_fan_speed_store example_constants "fast" 4
       (quiet_ec (fun _ => 0))
     = (- EINVAL, quiet_ec (fun _ => 0))
  /\ @kbd_bl_sysfs_set example_constants 4 (quiet_ec (fun _ => 0))
     = (- 1, quiet_ec (fun _ => 0)).
Proof.
  destruct (@invalid_input_rejected_before_any_write example_constants)
    as (Henum & Hfan & Hstart & Hend & Hbig & Htext & Hkbd).
  repeat apply conj.
  - apply (Henum _ "auto" 4 (quiet_ec (fun _ => 0)) webcam_in_enum_attrs
             eq_refl).
    intros (name & code & Hin & Hm).
    destruct Hin as [Hin | [Hin | []]]; injection Hin as <- <-;
      destruct Hm; discriminate.
  - exact (Hfan "101" 101 false 3 (quiet_ec (fun _ => 0)) eq_refl ltac:(lia)).
  - apply (Hstart "95" 95 false 2 (quiet_ec (fun _ => 0)) eq_refl ltac:(lia)).
    right. vm_compute. reflexivity.
  - apply (Hend "5" 5 false 1 (quiet_ec (fun _ => 0)) eq_refl ltac:(lia)).
    left. vm_compute. reflexivity.
  - exact (proj1 (Hbig "300" 300 false 3 (quiet_ec (fun _ => 0)) eq_refl
                    ltac:(lia))).
  - exact (proj1 (Htext "fast" 4 (quiet_ec (fun _ => 0))
                    ltac:(vm_compute; reflexivity))).
  - exact (Hkbd 4 (quiet_ec (fun _ => 0)) ltac:(right; lia)).
Defined.

Lemma basic_fan_speed_end_to_end_witness :
  @cpu_basic_fan_speed_show example_constants "" (quiet_ec (fun _ => 0x4B))
  = (3, "50" +++ nl, log_call (quiet_ec (fun _ => 0x4B)) (EvRead 0x89))
  /\ @cpu_basic_fan_speed_store example_constants "50" 2
       (quiet_ec (fun _ => 0x4B))
     = (2, set_reg (log_call (quiet_ec (fun _ => 0x4B)) (EvWrite 0x89 0x4B))
                   0x89 0x4B).
Proof.
  destruct (@basic_fan_speed_end_to_end example_constants eq_refl eq_refl)
    as [Hshow Hstore].
  split.
  - exact (Hshow "" (quiet_ec (fun _ => 0x4B)) eq_refl eq_refl).
  - exact (Hstore false 2 (quiet_ec (fun _ => 0x4B)) eq_refl).
Defined.

Lemma enum_store_accepts_name_or_name_newline_witness :
  ((exists code,
      store_writes (@webcam_store example_constants) 0x2e code ("on" +++ nl))
   <-> listed [("on", 0x4a); ("off", 0x48)] ("on" +++ nl))
  /\ (store_rejects (@webcam_store example_constants) "on "
      <-> ~ listed [("on", 0x4a); ("off", 0x48)] "on ").
Proof.
  split.
  - exact (proj1 (@enum_store_accepts_name_or_name_newline example_constants
                    _ ("on" +++ nl) webcam_in_enum_attrs eq_refl)).
  - exact (proj1 (proj2
             (@enum_store_accepts_name_or_name_newline example_constants
                _ "on " webcam_in_enum_attrs eq_refl))).
Defined.

(** * Further properties of the driver *)

(** ** What [ec_read_seq] leaves in the buffer *)

Lemma poke_length (buf : list Z) : forall i v,
  List.length (poke buf i v) = List.length buf.
Proof.
  induction buf as [|h t IH]; intros [|i] v; simpl; auto.
Qed.

Lemma nth_poke (buf : list Z) : forall i v m,
  (m < List.length buf)%nat ->
  nth m (poke buf i v) 0 = if Nat.eqb m i then v else nth m buf 0.
Proof.
  induction buf as [|h t IH]; intros i v m Hm; simpl in Hm; [lia|].
  destruct i as [|i], m as [|m]; simpl; try reflexivity.
  apply IH. lia.
Qed.

Lemma range_empty (j m : nat) : (j <=? m)%nat && (m <? j + 0)%nat = false.
Proof.
  destruct (Nat.leb_spec j m), (Nat.ltb_spec m (j + 0)); simpl;
    try reflexivity; lia.
Qed.

(** The loop stores the bytes it reads at their indices and touches nothing
    else of the buffer; [k] is the number of bytes stored. *)
Lemma loop_buffer (fuel : nat) : forall addr buf len j st r buf' st',
  len <= 255 ->
  ec_read_seq_loop fuel addr buf len (Z.of_nat j) st = Some (r, buf', st') ->
  exists k,
    ec_log st' = ec_log st ++ reads_from addr j (k + if r <? 0 then 1 else 0)
    /\ List.length buf' = List.length buf
    /\ (forall m, (m < List.length buf)%nat ->
          nth m buf' 0
          = if (j <=? m)%nat && (m <? j + k)%nat
            then u8 (ec_regs st (u8 (addr + Z.of_nat m)))
            else nth m buf 0)
    /\ (r = 0 -> k = 0%nat /\ len <= Z.of_nat j \/ Z.of_nat (j + k) = len).
Proof.
  induction fuel as [|fuel IH]; intros addr buf len j st r buf' st' Hlen H;
    [discriminate|].
  simpl in H. destruct (Z.ltb_spec (Z.of_nat j) len) as [Hlt | Hge].
  - unfold ec_read in H.
    destruct (ec_rfault st (ec_log st) (u8 (addr + Z.of_nat j))) as [e|].
    + cbn in H. injection H as <- <- <-. exists 0%nat.
      split; [reflexivity|]. split; [reflexivity|]. split.
      * intros m Hm.
        now rewrite range_empty.
      * discriminate.
    + cbn in H. rewrite u8_succ in H by lia. rewrite Nat2Z.id in H.
      apply IH in H; [|exact Hlen].
      destruct H as (k & Hlog & Hlenb & Hnth & Hr).
      exists (S k). split; [|split; [|split]].
      * rewrite Hlog. cbn [ec_log log_call]. rewrite <- app_assoc.
        reflexivity.
      * rewrite Hlenb. apply poke_length.
      * intros m Hm. rewrite Hnth by (rewrite poke_length; exact Hm).
        cbn [ec_regs log_call]. rewrite (nth_poke buf j _ m Hm).
        destruct (Nat.eqb_spec m j) as [-> | Hne].
        -- replace ((S j <=? j)%nat && (j <? S j + k)%nat) with false
             by (symmetry; apply andb_false_iff; left; apply Nat.leb_gt; lia).
           replace ((j <=? j)%nat && (j <? j + S k)%nat) with true;
             [reflexivity|].
           symmetry. apply andb_true_iff. split;
             [apply Nat.leb_le | apply Nat.ltb_lt]; lia.
        -- replace ((S j <=? m)%nat && (m <? S j + k)%nat)
             with ((j <=? m)%nat && (m <? j + S k)%nat); [reflexivity|].
           destruct (Nat.leb_spec j m), (Nat.leb_spec (S j) m),
             (Nat.ltb_spec m (j + S k)), (Nat.ltb_spec m (S j + k));
             simpl; try reflexivity; lia.
      * intros Hr0. right. destruct (Hr Hr0) as [[-> Hle] | Heq]; lia.
  - injection H as <- <- <-. exists 0%nat.
    split; [cbn; now rewrite app_nil_r|]. split; [reflexivity|]. split.
    + intros m Hm.
      now rewrite range_empty.
    + intros _. left. split; [reflexivity | lia].
Qed.

(** X1.  When the [len] reads succeed ([0 <= len <= 255]), [ec_read_seq]
    returns 0 with the byte of register [addr + m] at index [m] of the
    buffer for every [m < len]; the rest of the buffer, its length and the
    registers are as before. *)
Theorem ec_read_seq_fills_buffer (fuel : nat) (addr : Z) (buf : list Z)
        (len : Z) (st : ec_state) :
  0 <= len <= 255 ->
  (Z.to_nat len < fuel)%nat ->
  (forall m, (m < Z.to_nat len)%nat ->
     ec_rfault st (ec_log st ++ read_events addr m)
               (u8 (u8 addr + Z.of_nat m)) = None) ->
  exists buf' st',
    ec_read_seq fuel addr buf len st = Some (0, buf', st')
    /\ List.length buf' = List.length buf
    /\ (forall m, (m < List.length buf)%nat ->
          nth m buf' 0
          = if (m <? Z.to_nat len)%nat
            then u8 (ec_regs st (u8 (u8 addr + Z.of_nat m)))
            else nth m buf 0)
    /\ ec_regs st' = ec_regs st.
Proof.
  intros Hlen Hfuel Hok.
  destruct (ec_read_seq_ok fuel addr buf len st Hlen Hfuel Hok)
    as (buf' & st' & Hrun & _ & Hregs).
  exists buf', st'. split; [exact Hrun|].
  unfold ec_read_seq in Hrun.
  destruct (loop_buffer fuel (u8 addr) buf len 0%nat st 0 buf' st'
              ltac:(lia) Hrun) as (k & _ & Hlenb & Hnth & Hr).
  split; [exact Hlenb|]. split; [|exact Hregs].
  assert (Hk : k = Z.to_nat len).
  { destruct (Hr eq_refl) as [[-> Hle] | Heq]; simpl in *; lia. }
  subst k. intros m Hm. rewrite (Hnth m Hm). reflexivity.
Qed.

(** X2.  When read number [k] is the first that faults, the [k] bytes read
    before it are in the buffer all the same, at indices [0..k-1]; the rest
    of the buffer is as before.  The function itself does not undo a
    partial read. *)
Theorem ec_read_seq_fault_keeps_prefix (fuel : nat) (addr : Z)
        (buf : list Z) (len : Z) (st : ec_state) (k : nat) (e : positive) :
  len <= 255 ->
  Z.of_nat k < len ->
  (k < fuel)%nat ->
  (forall m, (m < k)%nat ->
     ec_rfault st (ec_log st ++ read_events addr m)
               (u8 (u8 addr + Z.of_nat m)) = None) ->
  ec_rfault st (ec_log st ++ read_events addr k)
            (u8 (u8 addr + Z.of_nat k)) = Some e ->
  exists buf' st',
    ec_read_seq fuel addr buf len st = Some (Zneg e, buf', st')
    /\ List.length buf' = List.length buf
    /\ (forall m, (m < List.length buf)%nat ->
          nth m buf' 0
          = if (m <? k)%nat
            then u8 (ec_regs st (u8 (u8 addr + Z.of_nat m)))
            else nth m buf 0).
Proof.
  intros Hlen Hk Hfuel Hok He.
  destruct (ec_read_seq_fault fuel addr buf len st k e ltac:(lia) Hk Hfuel
              Hok He) as (buf' & st' & Hrun & Hlog & _).
  exists buf', st'. split; [exact Hrun|].
  unfold ec_read_seq in Hrun.
  destruct (loop_buffer fuel (u8 addr) buf len 0%nat st (Zneg e) buf' st'
              Hlen Hrun) as (k' & Hlog' & Hlenb & Hnth & _).
  split; [exact Hlenb|].
  assert (Hk' : k' = k).
  { rewrite Hlog in Hlog'. apply app_inv_head in Hlog'.
    apply (f_equal (@List.length event)) in Hlog'.
    unfold read_events in Hlog'. rewrite !reads_from_length in Hlog'.
    change (Z.neg e <? 0) with true in Hlog'. cbv iota in Hlog'. lia. }
  subst k'. intros m Hm. rewrite (Hnth m Hm). reflexivity.
Qed.

(** ** The firmware version *)

Lemma cstring_terminated (l rest : list Z) :
  cstring (l ++ 0 :: rest) = cstring l.
Proof.
  induction l as [|b l IH]; simpl; [reflexivity|].
  destruct (b =? 0); [reflexivity | now rewrite IH].
Qed.

Lemma reg_bytes_length (st : ec_state) (addr : Z) (n : nat) :
  List.length (reg_bytes st addr n) = n.
Proof. unfold reg_bytes. now rewrite length_map, length_seq. Qed.

Lemma nth_reg_bytes (st : ec_state) (addr : Z) (n m : nat) :
  (m < n)%nat ->
  nth m (reg_bytes st addr n) 0 = u8 (ec_regs st (u8 (u8 addr + Z.of_nat m))).
Proof.
  intros Hm. unfold reg_bytes.
  set (f := fun j : nat => u8 (ec_regs st (u8 (u8 addr + Z.of_nat j)))).
  rewrite (nth_indep (map f (seq 0 n)) 0 (f 0%nat))
    by (rewrite length_map, length_seq; exact Hm).
  rewrite (map_nth f), seq_nth by exact Hm. reflexivity.
Qed.

(** Reading [len] registers into a zeroed buffer of [len + 1] bytes gives
    their bytes followed by the terminating 0. *)
Lemma ec_read_seq_zeroed (fuel : nat) (addr len : Z) (st : ec_state) :
  0 <= len <= 255 ->
  (Z.to_nat len < fuel)%nat ->
  (forall m, (m < Z.to_nat len)%nat ->
     ec_rfault st (ec_log st ++ read_events addr m)
               (u8 (u8 addr + Z.of_nat m)) = None) ->
  exists st',
    ec_read_seq fuel addr (zeroed (len + 1)) len st
    = Some (0, reg_bytes st addr (Z.to_nat len) ++ [0], st')
    /\ ec_log st' = ec_log st ++ read_events addr (Z.to_nat len)
    /\ ec_regs st' = ec_regs st
    /\ ec_rfault st' = ec_rfault st /\ ec_wfault st' = ec_wfault st.
Proof.
  intros Hlen Hfuel Hok.
  destruct (ec_read_seq_fills_buffer fuel addr (zeroed (len + 1)) len st
              Hlen Hfuel Hok) as (buf' & st' & Hrun & Hlenb & Hnth & Hregs).
  destruct (ec_read_seq_ok fuel addr (zeroed (len + 1)) len st Hlen Hfuel Hok)
    as (buf2 & st2 & Hrun2 & Hlog & _).
  rewrite Hrun in Hrun2. injection Hrun2 as <- <-.
  destruct (ec_read_seq_frame _ _ _ _ _ _ _ _ Hrun) as (_ & _ & Hrf & Hwf).
  exists st'. repeat split; trivial.
  rewrite Hrun. do 3 f_equal.
  assert (Hz : List.length (zeroed (len + 1)) = S (Z.to_nat len)).
  { unfold zeroed. rewrite repeat_length. lia. }
  apply (nth_ext _ _ 0 0).
  - rewrite Hlenb, Hz, length_app, reg_bytes_length. simpl. lia.
  - intros m Hm. rewrite Hlenb in Hm. rewrite (Hnth m Hm).
    destruct (Nat.ltb_spec m (Z.to_nat len)) as [Hin | Hout].
    + rewrite app_nth1 by (rewrite reg_bytes_length; exact Hin).
      now rewrite nth_reg_bytes.
    + rewrite app_nth2 by (rewrite reg_bytes_length; exact Hout).
      rewrite reg_bytes_length. rewrite Hz in Hm.
      replace (m - Z.to_nat len)%nat with 0%nat by lia.
      unfold zeroed. now rewrite nth_repeat.
Qed.

Section FirmwareText.

Context {K : constants}.

(** X3.  When the reads succeed, [fw_version_show] prints the bytes of the
    [MSI_EC_FW_VERSION_LENGTH] registers from [MSI_EC_FW_VERSION_ADDRESS]
    on as text, up to the first NUL among them, and a newline; it returns
    the length of that text and leaves the registers as they were. *)
Theorem fw_version_show_prints_registers (fuel : nat) (buf : string)
        (st : ec_state) :
  0 <= MSI_EC_FW_VERSION_LENGTH <= 255 ->
  (Z.to_nat MSI_EC_FW_VERSION_LENGTH < fuel)%nat ->
  (forall before a, ec_rfault st before a = None) ->
  exists st',
    fw_version_show fuel buf st
    = Some (Z.of_nat
              (String.length
                 (cstring (reg_bytes st MSI_EC_FW_VERSION_ADDRESS
                                     (Z.to_nat MSI_EC_FW_VERSION_LENGTH))
                  +++ nl)),
            cstring (reg_bytes st MSI_EC_FW_VERSION_ADDRESS
                               (Z.to_nat MSI_EC_FW_VERSION_LENGTH)) +++ nl,
            st')
    /\ ec_regs st' = ec_regs st.
Proof.
  intros Hlen Hfuel Hok.
  destruct (ec_read_seq_zeroed fuel MSI_EC_FW_VERSION_ADDRESS
              MSI_EC_FW_VERSION_LENGTH st Hlen Hfuel
              (fun m _ => Hok _ _)) as (st' & Hrun & _ & Hregs & _).
  exists st'. split; [|exact Hregs].
  unfold fw_version_show. rewrite Hrun.
  change (0 <? 0) with false. cbv iota.
  rewrite cstring_terminated. reflexivity.
Qed.

End FirmwareText.

(** ** The firmware release date, for well-formed registers *)

Lemma code_chr (b : Z) : 0 <= b <= 255 -> code (chr b) = b.
Proof.
  intros H. unfold code, chr. rewrite N_ascii_embedding; lia.
Qed.

Lemma chr_code (c : ascii) : chr (code c) = c.
Proof.
  unfold code, chr. rewrite N2Z.id. apply ascii_N_embedding.
Qed.

Lemma isdigit_chr (c : ascii) : isdigit c = true -> c = chr (48 + digit_val c).
Proof.
  intros _. unfold digit_val.
  replace (48 + (code c - 48)) with (code c) by lia.
  symmetry. apply chr_code.
Qed.

Lemma isdigit_not_space (c : ascii) : isdigit c = true -> isspace c = false.
Proof.
  unfold isdigit, isspace. intros H. apply andb_prop in H.
  destruct H as [H1 H2]. apply Z.leb_le in H1. apply Z.leb_le in H2.
  repeat (apply orb_false_iff; split).
  - apply andb_false_iff. right. apply Z.leb_gt. lia.
  - apply Z.eqb_neq. lia.
  - apply Z.eqb_neq. lia.
Qed.

Lemma isdigit_not_minus (c : ascii) : isdigit c = true -> (code c =? 45) = false.
Proof.
  unfold isdigit. intros H. apply andb_prop in H. destruct H as [H _].
  apply Z.leb_le in H. apply Z.eqb_neq. lia.
Qed.

Lemma s32_small (x : Z) : 0 <= x < 2 ^ 31 -> s32 x = x.
Proof.
  intros H. unfold s32. rewrite Z.mod_small; lia.
Qed.

Lemma parse_limit_zero (s : string) (res rv : Z) (ovf : bool) :
  _parse_integer_limit s 0 res rv ovf = (rv, res, ovf, s).
Proof. destruct s; reflexivity. Qed.

(** A field of two digits under [%02d]. *)
Lemma scan_d2 (c1 c2 : ascii) (rest : string) (fmt' : list fmt_item)
      (a : Z) (args' : list Z) (num : Z) :
  isdigit c1 = true -> isdigit c2 = true ->
  vsscanf (String c1 (String c2 rest)) (FmtD 2 :: fmt') (a :: args') num
  = (let '(n, r) := vsscanf rest fmt' args' (num + 1) in
     (n, (10 * digit_val c1 + digit_val c2) :: r)).
Proof.
  intros H1 H2.
  pose proof (isdigit_digit_val c1 H1) as V1.
  pose proof (isdigit_digit_val c2 H2) as V2.
  cbn [vsscanf skip_spaces]. rewrite (isdigit_not_space c1 H1).
  rewrite (isdigit_not_minus c1 H1). cbn [andb]. rewrite H1.
  unfold simple_strntoll. rewrite (isdigit_not_minus c1 H1).
  cbn [_parse_integer_limit]. rewrite H1, H2.
  rewrite (Z.mod_small (0 * 10 + digit_val c1)) by lia.
  rewrite (Z.mod_small ((0 * 10 + digit_val c1) * 10 + digit_val c2)) by lia.
  rewrite parse_limit_zero. cbv beta iota.
  destruct (vsscanf rest fmt' args' (num + 1)) as [n r].
  rewrite s32_small by lia. do 2 f_equal. lia.
Qed.

(** A field of four digits under [%04d]. *)
Lemma scan_d4 (c1 c2 c3 c4 : ascii) (rest : string) (fmt' : list fmt_item)
      (a : Z) (args' : list Z) (num : Z) :
  isdigit c1 = true -> isdigit c2 = true ->
  isdigit c3 = true -> isdigit c4 = true ->
  vsscanf (String c1 (String c2 (String c3 (String c4 rest))))
          (FmtD 4 :: fmt') (a :: args') num
  = (let '(n, r) := vsscanf rest fmt' args' (num + 1) in
     (n, (1000 * digit_val c1 + 100 * digit_val c2
          + 10 * digit_val c3 + digit_val c4) :: r)).
Proof.
  intros H1 H2 H3 H4.
  pose proof (isdigit_digit_val c1 H1) as V1.
  pose proof (isdigit_digit_val c2 H2) as V2.
  pose proof (isdigit_digit_val c3 H3) as V3.
  pose proof (isdigit_digit_val c4 H4) as V4.
  cbn [vsscanf skip_spaces]. rewrite (isdigit_not_space c1 H1).
  rewrite (isdigit_not_minus c1 H1). cbn [andb]. rewrite H1.
  unfold simple_strntoll. rewrite (isdigit_not_minus c1 H1).
  cbn [_parse_integer_limit]. rewrite H1, H2, H3, H4.
  rewrite (Z.mod_small (0 * 10 + digit_val c1)) by lia.
  rewrite (Z.mod_small ((0 * 10 + digit_val c1) * 10 + digit_val c2)) by lia.
  rewrite (Z.mod_small (((0 * 10 + digit_val c1) * 10 + digit_val c2) * 10
                        + digit_val c3)) by lia.
  rewrite (Z.mod_small ((((0 * 10 + digit_val c1) * 10 + digit_val c2) * 10
                         + digit_val c3) * 10 + digit_val c4)) by lia.
  rewrite parse_limit_zero. cbv beta iota.
  destruct (vsscanf rest fmt' args' (num + 1)) as [n r].
  rewrite s32_small by lia. do 2 f_equal. lia.
Qed.

Lemma scan_lit (c : ascii) (rest : string) (fmt' : list fmt_item)
      (args : list Z) (num : Z) :
  vsscanf (String c rest) (FmtLit c :: fmt') args num
  = vsscanf rest fmt' args num.
Proof. cbn [vsscanf]. now rewrite Z.eqb_refl. Qed.

(** [%02d] and [%04d] print the digits back. *)
Lemma fmt_0d_2_digits (a b : Z) :
  0 <= a <= 9 -> 0 <= b <= 9 ->
  fmt_0d 2 (10 * a + b) = String (chr (48 + a)) (String (chr (48 + b)) "").
Proof.
  intros Ha Hb.
  assert (H : forallb (fun a => forallb (fun b =>
                String.eqb (fmt_0d 2 (10 * a + b))
                           (String (chr (48 + a)) (String (chr (48 + b)) "")))
                [0; 1; 2; 3; 4; 5; 6; 7; 8; 9])
              [0; 1; 2; 3; 4; 5; 6; 7; 8; 9] = true)
    by (vm_compute; reflexivity).
  rewrite forallb_forall in H.
  specialize (H a ltac:(simpl; lia)). rewrite forallb_forall in H.
  specialize (H b ltac:(simpl; lia)). now apply String.eqb_eq in H.
Qed.

Lemma fmt_0d_4_digits (a b c d : Z) :
  0 <= a <= 9 -> 0 <= b <= 9 -> 0 <= c <= 9 -> 0 <= d <= 9 ->
  fmt_0d 4 (1000 * a + 100 * b + 10 * c + d)
  = String (chr (48 + a)) (String (chr (48 + b))
      (String (chr (48 + c)) (String (chr (48 + d)) ""))).
Proof.
  intros Ha Hb Hc Hd.
  assert (H : forallb (fun a => forallb (fun b => forallb (fun c =>
                forallb (fun d =>
                  String.eqb (fmt_0d 4 (1000 * a + 100 * b + 10 * c + d))
                    (String (chr (48 + a)) (String (chr (48 + b))
                       (String (chr (48 + c)) (String (chr (48 + d)) "")))))
                [0; 1; 2; 3; 4; 5; 6; 7; 8; 9])
                [0; 1; 2; 3; 4; 5; 6; 7; 8; 9])
                [0; 1; 2; 3; 4; 5; 6; 7; 8; 9])
              [0; 1; 2; 3; 4; 5; 6; 7; 8; 9] = true)
    by (vm_compute; reflexivity).
  rewrite forallb_forall in H.
  specialize (H a ltac:(simpl; lia)). rewrite forallb_forall in H.
  specialize (H b ltac:(simpl; lia)). rewrite forallb_forall in H.
  specialize (H c ltac:(simpl; lia)). rewrite forallb_forall in H.
  specialize (H d ltac:(simpl; lia)). now apply String.eqb_eq in H.
Qed.

Lemma cstring_codes (l : list ascii) :
  forallb (fun c => negb (code c =? 0)) l = true ->
  cstring (map code l) = string_of_chars l.
Proof.
  induction l as [|c l IH]; simpl; intros H; [reflexivity|].
  apply andb_prop in H. destruct H as [Hc Hl].
  apply negb_true_iff in Hc. rewrite Hc, chr_code. f_equal. now apply IH.
Qed.

Lemma isdigit_not_nul (c : ascii) :
  isdigit c = true -> negb (code c =? 0) = true.
Proof.
  unfold isdigit. intros H. apply andb_prop in H. destruct H as [H _].
  apply Z.leb_le in H. apply negb_true_iff, Z.eqb_neq. lia.
Qed.

Section ReleaseDate.

Context {K : constants}.

(** X4.  With a date and a time of 8 bytes each, reads that succeed, the
    date registers holding eight digits [MMDDYYYY] and the time registers
    holding [HH:MM:SS] with digits, [fw_release_date_show] prints these
    very digits as [YYYY/MM/DD HH:MM:SS] and a newline, 20 characters,
    whatever its uninitialised locals held. *)
Theorem fw_release_date_show_reorders_fields
        (fuel : nat) (y mo d h mi s : Z) (buf : string) (st : ec_state)
        (m1 m2 d1 d2 y1 y2 y3 y4 h1 h2 n1 n2 s1 s2 : ascii) :
  MSI_EC_FW_DATE_LENGTH = 8 ->
  MSI_EC_FW_TIME_LENGTH = 8 ->
  (8 < fuel)%nat ->
  (forall before a, ec_rfault st before a = None) ->
  forallb isdigit [m1; m2; d1; d2; y1; y2; y3; y4; h1; h2; n1; n2; s1; s2]
  = true ->
  reg_bytes st MSI_EC_FW_DATE_ADDRESS 8
  = map code [m1; m2; d1; d2; y1; y2; y3; y4] ->
  reg_bytes st MSI_EC_FW_TIME_ADDRESS 8
  = map code [h1; h2; ":"%char; n1; n2; ":"%char; s1; s2] ->
  exists st',
    fw_release_date_show fuel y mo d h mi s buf st
    = Some (20,
            string_of_chars
              [y1; y2; y3; y4; "/"%char; m1; m2; "/"%char; d1; d2; " "%char;
               h1; h2; ":"%char; n1; n2; ":"%char; s1; s2] +++ nl,
            st')
    /\ ec_regs st' = ec_regs st.
Proof.
  intros Hdl Htl Hfuel Hok Hdig Hdate Htime.
  cbn [forallb] in Hdig.
  repeat match type of Hdig with
         | _ && _ = true =>
             apply andb_prop in Hdig;
             let H := fresh "D" in destruct Hdig as [H Hdig]
         end.
  clear Hdig.
  assert (Hd8 : 0 <= MSI_EC_FW_DATE_LENGTH <= 255) by lia.
  assert (Ht8 : 0 <= MSI_EC_FW_TIME_LENGTH <= 255) by lia.
  assert (Hfd : (Z.to_nat MSI_EC_FW_DATE_LENGTH < fuel)%nat) by lia.
  assert (Hft : (Z.to_nat MSI_EC_FW_TIME_LENGTH < fuel)%nat) by lia.
  destruct (ec_read_seq_zeroed fuel MSI_EC_FW_DATE_ADDRESS
              MSI_EC_FW_DATE_LENGTH st Hd8 Hfd (fun m _ => Hok _ _))
    as (st1 & Hrun1 & _ & Hregs1 & Hrf1 & _).
  assert (Hok1 : forall before a, ec_rfault st1 before a = None)
    by (intros; rewrite Hrf1; apply Hok).
  destruct (ec_read_seq_zeroed fuel MSI_EC_FW_TIME_ADDRESS
              MSI_EC_FW_TIME_LENGTH st1 Ht8 Hft (fun m _ => Hok1 _ _))
    as (st2 & Hrun2 & _ & Hregs2 & _).
  exists st2. split; [|congruence].
  assert (Hb1 : reg_bytes st1 MSI_EC_FW_TIME_ADDRESS 8
                = reg_bytes st MSI_EC_FW_TIME_ADDRESS 8)
    by (unfold reg_bytes; now rewrite Hregs1).
  unfold fw_release_date_show. rewrite Hrun1.
  change (0 <? 0) with false. cbv iota.
  rewrite Hdl. change (Z.to_nat 8) with 8%nat.
  rewrite Hdate, cstring_terminated, cstring_codes
    by (cbn [forallb];
        repeat match goal with
               | H : isdigit ?c = true |- context [negb (code ?c =? 0)] =>
                   rewrite (isdigit_not_nul c H)
               end; reflexivity).
  cbn [string_of_chars]. unfold sscanf, date_format.
  rewrite scan_d2 by assumption. rewrite scan_d2 by assumption.
  rewrite scan_d4 by assumption. cbn [vsscanf nth].
  rewrite Hrun2. change (0 <? 0) with false. cbv iota.
  rewrite Htl. change (Z.to_nat 8) with 8%nat.
  rewrite Hb1, Htime, cstring_terminated, cstring_codes
    by (cbn [forallb];
        repeat match goal with
               | H : isdigit ?c = true |- context [negb (code ?c =? 0)] =>
                   rewrite (isdigit_not_nul c H)
               end; reflexivity).
  cbn [string_of_chars]. unfold time_format.
  rewrite scan_d2 by assumption. rewrite scan_lit.
  rewrite scan_d2 by assumption. rewrite scan_lit.
  rewrite scan_d2 by assumption. cbn [vsscanf nth].
  rewrite !fmt_0d_2_digits, fmt_0d_4_digits
    by (apply isdigit_digit_val; assumption).
  rewrite <- !isdigit_chr by assumption.
  reflexivity.
Qed.

End ReleaseDate.

Lemma fw_release_date_show_reorders_fields_witness :
  exists st',
    @fw_release_date_show example_constants 9 0 0 0 0 0 0 ""
      (quiet_ec (regs_of_strings 0xac "12312023" 0xb4 "23:59:07"))
    = Some (20, "2023/12/31 23:59:07" +++ nl, st')
    /\ ec_regs st' = regs_of_strings 0xac "12312023" 0xb4 "23:59:07".
Proof.
  apply (@fw_release_date_show_reorders_fields example_constants 9 0 0 0 0 0 0
           "" (quiet_ec (regs_of_strings 0xac "12312023" 0xb4 "23:59:07"))
           "1" "2" "3" "1" "2" "0" "2" "3" "2" "3" "5" "9" "0" "7"
           eq_refl eq_refl ltac:(lia) (fun _ _ => eq_refl) eq_refl eq_refl
           eq_refl).
Defined.

(** ** What the callbacks do to the chip *)

Lemma u8_add_u8 (a j : Z) : u8 (a + u8 j) = u8 (a + j).
Proof. unfold u8. apply Zplus_mod_idemp_r. Qed.

Lemma u8_succ_u8 (j : nat) : u8 (u8 (Z.of_nat j) + 1) = u8 (Z.of_nat (S j)).
Proof.
  unfold u8. rewrite Zplus_mod_idemp_l. f_equal. lia.
Qed.

(** Whatever the length, the loop only issues reads, at consecutive
    addresses (in a byte). *)
Lemma loop_reads_only (fuel : nat) : forall addr buf len j st r buf' st',
  ec_read_seq_loop fuel addr buf len (u8 (Z.of_nat j)) st
  = Some (r, buf', st') ->
  exists k, ec_log st' = ec_log st ++ reads_from addr j k.
Proof.
  induction fuel as [|fuel IH]; intros addr buf len j st r buf' st' H;
    [discriminate|].
  simpl in H. destruct (u8 (Z.of_nat j) <? len).
  - unfold ec_read in H. rewrite u8_add_u8 in H.
    destruct (ec_rfault st (ec_log st) (u8 (addr + Z.of_nat j))) as [e|].
    + cbn in H. injection H as <- <- <-. exists 1%nat. reflexivity.
    + cbn in H. rewrite u8_succ_u8 in H. apply IH in H.
      destruct H as (k & Hlog). exists (S k). rewrite Hlog.
      cbn [ec_log log_call]. rewrite <- app_assoc. reflexivity.
  - injection H as <- <- <-. exists 0%nat. cbn. now rewrite app_nil_r.
Qed.

Lemma ec_read_seq_reads_only (fuel : nat) (addr : Z) (buf : list Z) (len : Z)
      (st st' : ec_state) (r : Z) (buf' : list Z) :
  ec_read_seq fuel addr buf len st = Some (r, buf', st') ->
  ec_regs st' = ec_regs st
  /\ exists n, ec_log st' = ec_log st ++ read_events addr n.
Proof.
  intros H.
  destruct (ec_read_seq_frame _ _ _ _ _ _ _ _ H) as (_ & Hregs & _).
  split; [exact Hregs|]. unfold ec_read_seq in H.
  change 0 with (u8 (Z.of_nat 0)) in H.
  exact (loop_reads_only _ _ _ _ _ _ _ _ _ H).
Qed.

Section ChipFootprint.

Context {K : constants}.

(** Unfolds the show callbacks that read one register. *)
Ltac unfold_shows :=
  unfold charge_control_start_threshold_show,
    charge_control_end_threshold_show, charge_control_threshold_show,
    webcam_show, fn_key_show, win_key_show, battery_mode_show,
    cooler_boost_show, shift_mode_show, fan_mode_show,
    cpu_realtime_temperature_show, cpu_realtime_fan_speed_show,
    cpu_basic_fan_speed_show, gpu_realtime_temperature_show,
    gpu_realtime_fan_speed_show, sprintf.

Lemma single_read_show_state (addr : Z) (divisor : option Z)
      (show : string -> ec_state -> Z * string * ec_state) :
  In (addr, divisor, show) single_read_shows ->
  divisor <> Some 0 ->
  forall buf st, snd (show buf st) = log_call st (EvRead (u8 addr)).
Proof.
  intros Hin _ buf st. unfold single_read_shows in Hin. cbn [In] in Hin.
  repeat (destruct Hin as [Hin | Hin]; [injection Hin as <- <- <- | ]);
    [.. | contradiction];
    unfold_shows; unfold ec_read;
    match goal with
    | |- context [ec_rfault st (ec_log st) ?a] =>
        destruct (ec_rfault st (ec_log st) a)
    end;
    cbv beta iota zeta;
    try match goal with
        | |- context [Zneg ?p <? 0] => change (Zneg p <? 0) with true
        end;
    try change (0 <? 0) with false; cbv beta iota zeta;
    repeat match goal with
           | |- context [if ?c then _ else _] => destruct c; cbv beta iota zeta
           end;
    reflexivity.
Qed.

Lemma single_read_show_repeat (addr : Z) (divisor : option Z)
      (show : string -> ec_state -> Z * string * ec_state) :
  In (addr, divisor, show) single_read_shows ->
  divisor <> Some 0 ->
  forall buf st,
    reliable st ->
    fst (show buf (snd (show buf st))) = fst (show buf st).
Proof.
  intros Hin Hdiv buf st [Hr _].
  rewrite (single_read_show_state addr divisor show Hin Hdiv buf st).
  clear Hdiv. unfold single_read_shows in Hin. cbn [In] in Hin.
  repeat (destruct Hin as [Hin | Hin]; [injection Hin as <- <- <- | ]);
    [.. | contradiction];
    unfold_shows;
    rewrite (ec_read_ok _ st (Hr _ _));
    match goal with
    | |- context [ec_read ?a (log_call st ?ev)] =>
        rewrite (ec_read_ok a (log_call st ev) (Hr _ _))
    end;
    cbn [ec_regs log_call]; cbv beta iota zeta;
    change (0 <? 0) with false; cbv beta iota zeta;
    repeat match goal with
           | |- context [if ?c then _ else _] => destruct c; cbv beta iota zeta
           end;
    reflexivity.
Qed.

(** X5.  The show callbacks are read-only.  Each of the fourteen that read
    one register leaves the chip as it was but for the log, which gains
    exactly one read of the attribute's own register, fault or not; on a
    chip that never faults, showing again returns the same length.  For the
    two that compute a percentage this is stated when what they divide by,
    [BASE_MAX - BASE_MIN], is not 0: with an empty range of one byte the C
    code traps on that byte instead of returning.
    [kbd_bl_sysfs_get] does one read of its register.
    [fw_version_show] and [fw_release_date_show] leave the registers as they
    were and only add reads of consecutive registers to the log. *)
Theorem show_callbacks_are_read_only :
  (forall addr divisor show,
     In (addr, divisor, show) single_read_shows ->
     divisor <> Some 0 ->
     forall buf st,
       snd (show buf st) = log_call st (EvRead (u8 addr))
       /\ (reliable st ->
           fst (show buf (snd (show buf st))) = fst (show buf st)))
  /\ (forall st,
        snd (kbd_bl_sysfs_get st)
        = log_call st (EvRead (u8 MSI_EC_KBD_BL_ADDRESS)))
  /\ (forall fuel buf st r text st',
        fw_version_show fuel buf st = Some (r, text, st') ->
        ec_regs st' = ec_regs st
        /\ exists n,
             ec_log st' = ec_log st ++ read_events MSI_EC_FW_VERSION_ADDRESS n)
  /\ (forall fuel y mo d h mi s buf st r text st',
        fw_release_date_show fuel y mo d h mi s buf st = Some (r, text, st') ->
        ec_regs st' = ec_regs st
        /\ exists n1 n2,
             ec_log st'
             = ec_log st ++ read_events MSI_EC_FW_DATE_ADDRESS n1
                         ++ read_events MSI_EC_FW_TIME_ADDRESS n2).
Proof.
  split; [|split; [|split]].
  - intros addr divisor show Hin Hdiv buf st. split.
    + exact (single_read_show_state addr divisor show Hin Hdiv buf st).
    + exact (single_read_show_repeat addr divisor show Hin Hdiv buf st).
  - intros st. unfold kbd_bl_sysfs_get, ec_read.
    destruct (ec_rfault st (ec_log st) (u8 MSI_EC_KBD_BL_ADDRESS));
      reflexivity.
  - intros fuel buf st r text st' H. unfold fw_version_show in H.
    destruct (ec_read_seq fuel MSI_EC_FW_VERSION_ADDRESS
                (zeroed (MSI_EC_FW_VERSION_LENGTH + 1))
                MSI_EC_FW_VERSION_LENGTH st)
      as [[[r0 rdata] st0]|] eqn:Hseq; [|discriminate].
    assert (st' = st0).
    { destruct (r0 <? 0); [now injection H as _ _ <-|].
      unfold sprintf in H. now injection H as _ _ <-. }
    subst st0. exact (ec_read_seq_reads_only _ _ _ _ _ _ _ _ Hseq).
  - intros fuel y mo d h mi s buf st r text st' H.
    unfold fw_release_date_show in H.
    destruct (ec_read_seq fuel MSI_EC_FW_DATE_ADDRESS
                (zeroed (MSI_EC_FW_DATE_LENGTH + 1))
                MSI_EC_FW_DATE_LENGTH st)
      as [[[r0 rdate] st1]|] eqn:Hseq1; [|discriminate].
    destruct (ec_read_seq_reads_only _ _ _ _ _ _ _ _ Hseq1)
      as (Hregs1 & n1 & Hlog1).
    destruct (r0 <? 0).
    { injection H as _ _ <-. split; [exact Hregs1|].
      exists n1, 0%nat. rewrite Hlog1. cbn. now rewrite app_nil_r. }
    destruct (sscanf (cstring rdate) date_format [mo; d; y]) as [c date].
    destruct (ec_read_seq fuel MSI_EC_FW_TIME_ADDRESS
                (zeroed (MSI_EC_FW_TIME_LENGTH + 1))
                MSI_EC_FW_TIME_LENGTH st1)
      as [[[r1 rtime] st2]|] eqn:Hseq2; [|discriminate].
    destruct (ec_read_seq_reads_only _ _ _ _ _ _ _ _ Hseq2)
      as (Hregs2 & n2 & Hlog2).
    assert (st' = st2).
    { destruct (r1 <? 0); [now injection H as _ _ <-|].
      destruct (sscanf (cstring rtime) time_format _).
      unfold sprintf in H. now injection H as _ _ <-. }
    subst st2. split; [congruence|].
    exists n1, n2. rewrite Hlog2, Hlog1, <- app_assoc. reflexivity.
Qed.

Lemma one_call_regs (st st' : ec_state) (a d : Z) :
  untouched_or_one_call st st' (EvWrite a d) ->
  forall a', a' <> a -> ec_regs st' a' = ec_regs st a'.
Proof.
  intros [-> | [-> | ->]] a' Ha; try reflexivity.
  simpl. now replace (a' =? a) with false by (symmetry; apply Z.eqb_neq; lia).
Qed.

Lemma ec_write_footprint (addr data c : Z) (st : ec_state) :
  untouched_or_one_call st
    (snd (let '(r0, st0) := ec_write addr data st in
          if r0 <? 0 then (r0, st0) else (c, st0)))
    (EvWrite (u8 addr) (u8 data)).
Proof.
  unfold ec_write.
  destruct (ec_wfault st (ec_log st) (u8 addr) (u8 data)) as [e|]; cbn.
  - right. left. reflexivity.
  - right. right. reflexivity.
Qed.

Lemma ec_write_raw_footprint (addr data : Z) (st : ec_state) :
  untouched_or_one_call st (snd (ec_write addr data st))
                        (EvWrite (u8 addr) (u8 data)).
Proof.
  unfold ec_write.
  destruct (ec_wfault st (ec_log st) (u8 addr) (u8 data)) as [e|]; cbn.
  - right. left. reflexivity.
  - right. right. reflexivity.
Qed.

Lemma enum_store_footprint (a : enum_attr) (buf : string) (count : Z)
      (st : ec_state) :
  In a enum_attrs ->
  nul_free buf = true ->
  exists d, untouched_or_one_call st (snd (ea_store a buf count st))
                                  (EvWrite (u8 (ea_address a)) d).
Proof.
  intros Ha Hnul.
  destruct (listed_or_not (ea_codes a) buf) as [(name & code & Hin & Hm) | Hno].
  - rewrite (enum_store_accept a Ha name code buf count st Hin Hm).
    exists (u8 code). apply ec_write_footprint.
  - rewrite (enum_store_reject a Ha buf count st Hnul Hno).
    exists 0. left. reflexivity.
Qed.

Lemma threshold_store_footprint (offset : Z) (buf : string) (count : Z)
      (st : ec_state) :
  exists d,
    untouched_or_one_call st
      (snd (charge_control_threshold_store offset buf count st))
      (EvWrite (u8 MSI_EC_CHARGE_CONTROL_ADDRESS) d).
Proof.
  unfold charge_control_threshold_store.
  destruct (kstrtou8 buf) as [result wdata].
  destruct (result <? 0); [exists 0; left; reflexivity|].
  cbv zeta.
  match goal with
  | |- context [if ?c then _ else _] => destruct c
  end; [exists 0; left; reflexivity|].
  eexists. apply ec_write_footprint.
Qed.

Lemma fan_store_footprint (buf : string) (count : Z) (st : ec_state) :
  exists d,
    untouched_or_one_call st (snd (cpu_basic_fan_speed_store buf count st))
                          (EvWrite (u8 MSI_EC_CPU_BASIC_FAN_SPEED_ADDRESS) d).
Proof.
  unfold cpu_basic_fan_speed_store.
  destruct (kstrtou8 buf) as [result wdata].
  destruct (result <? 0); [exists 0; left; reflexivity|].
  destruct (wdata >? 100); [exists 0; left; reflexivity|].
  eexists. apply ec_write_footprint.
Qed.

Lemma store_footprint (addr : Z)
      (store : string -> Z -> ec_state -> Z * ec_state) :
  In (addr, store) single_write_stores ->
  forall buf count st,
    nul_free buf = true ->
    exists d, untouched_or_one_call st (snd (store buf count st))
                                    (EvWrite (u8 addr) d).
Proof.
  intros Hin buf count st Hnul.
  assert (HE : Forall (fun a =>
                 exists d, untouched_or_one_call st
                             (snd (ea_store a buf count st))
                             (EvWrite (u8 (ea_address a)) d)) enum_attrs).
  { apply Forall_forall. intros a Ha.
    now apply enum_store_footprint. }
  unfold enum_attrs in HE.
  repeat (apply Forall_cons_iff in HE; destruct HE as [? HE]).
  cbn [ea_store ea_address] in *.
  unfold single_write_stores in Hin. cbn [In] in Hin.
  repeat (destruct Hin as [Hin | Hin]; [injection Hin as <- <- | ]);
    [.. | contradiction];
    first [ assumption
          | apply threshold_store_footprint
          | apply fan_store_footprint ].
Qed.

Lemma led_setter_footprint (addr : Z) (set : Z -> ec_state -> Z * ec_state) :
  In (addr, set) led_setters ->
  forall brightness st,
    exists d, untouched_or_one_call st (snd (set brightness st))
                                    (EvWrite (u8 addr) d).
Proof.
  intros Hin brightness st. unfold led_setters in Hin. cbn [In] in Hin.
  destruct Hin as [Hin | [Hin | [Hin | []]]]; injection Hin as <- <-.
  - unfold micmute_led_sysfs_set. cbv zeta. eexists.
    apply ec_write_footprint.
  - unfold mute_led_sysfs_set. cbv zeta. eexists. apply ec_write_footprint.
  - unfold kbd_bl_sysfs_set.
    destruct ((brightness <? 0) || (brightness >? 3));
      [exists 0; left; reflexivity|].
    cbv zeta. eexists. apply ec_write_raw_footprint.
Qed.

(** X6.  A store callback or LED setter does nothing to the chip, or makes
    exactly one transport call, a write to the register of its own
    attribute (which is in the log whether it faults or not, and in the
    register when it does not).  So no other register ever changes. *)
Theorem store_callbacks_touch_one_register :
  (forall addr store,
     In (addr, store) single_write_stores ->
     forall buf count st,
       nul_free buf = true ->
       (exists d, untouched_or_one_call st (snd (store buf count st))
                                        (EvWrite (u8 addr) d))
       /\ (forall a', a' <> u8 addr ->
             ec_regs (snd (store buf count st)) a' = ec_regs st a'))
  /\ (forall addr set,
        In (addr, set) led_setters ->
        forall brightness st,
          (exists d, untouched_or_one_call st (snd (set brightness st))
                                           (EvWrite (u8 addr) d))
          /\ (forall a', a' <> u8 addr ->
                ec_regs (snd (set brightness st)) a' = ec_regs st a')).
Proof.
  split.
  - intros addr store Hin buf count st Hnul.
    destruct (store_footprint addr store Hin buf count st Hnul) as (d & Hd).
    split; [now exists d|]. exact (one_call_regs _ _ _ _ Hd).
  - intros addr set Hin brightness st.
    destruct (led_setter_footprint addr set Hin brightness st) as (d & Hd).
    split; [now exists d|]. exact (one_call_regs _ _ _ _ Hd).
Qed.

End ChipFootprint.

(** ** Round trips of the switches and modes *)

Lemma nodup_snd_functional (l : list (string * Z)) (n1 n2 : string) (c : Z) :
  NoDup (map snd l) -> In (n1, c) l -> In (n2, c) l -> n1 = n2.
Proof.
  induction l as [|[n c0] l IH]; intros Hnd H1 H2; [contradiction|].
  simpl in Hnd. inversion Hnd as [|? ? Hnotin Hnd']. subst.
  destruct H1 as [H1 | H1], H2 as [H2 | H2].
  - congruence.
  - injection H1 as -> ->. exfalso. apply Hnotin.
    apply in_map_iff. exists (n2, c). auto.
  - injection H2 as -> ->. exfalso. apply Hnotin.
    apply in_map_iff. exists (n1, c). auto.
  - now apply IH.
Qed.

Section EnumRoundTrip.

Context {K : constants}.

(** X7.  For each switch or mode whose codes are distinct: storing a listed
    name whose code is a byte (with or without the newline) and then showing
    the attribute prints that name, on a chip that does not fault. *)
Theorem enum_store_then_show (a : enum_attr) (name : string) (code : Z)
        (newline : bool) (count : Z) (st : ec_state) :
  In a enum_attrs ->
  In (name, code) (ea_codes a) ->
  NoDup (map snd (ea_codes a)) ->
  0 <= code <= 255 ->
  reliable st ->
  store_then_show (ea_store a) (ea_show a) (written name newline) count st
  = (count, (Z.of_nat (String.length (name +++ nl)), name +++ nl)).
Proof.
  intros Ha Hin Hnd Hcode [Hr Hw].
  unfold store_then_show.
  rewrite (enum_store_accept a Ha name code (written name newline) count st
             Hin ltac:(destruct newline; simpl; auto)).
  rewrite (ec_write_ok _ _ _ (Hw _ _ _)).
  cbv beta iota. change (0 <? 0) with false. cbv iota.
  rewrite (u8_small code) by lia.
  set (st1 := set_reg (log_call st (EvWrite (u8 (ea_address a)) code))
                      (u8 (ea_address a)) code).
  destruct (enum_show_ok a Ha "" st1 (Hr _ _)) as (text & Hshow & Htext).
  rewrite Hshow.
  assert (Hreg : u8 (ec_regs st1 (u8 (ea_address a))) = code).
  { unfold st1. simpl. rewrite Z.eqb_refl. apply u8_small. lia. }
  rewrite Hreg in Htext.
  destruct Htext as [(name' & Hin' & ->) | (Hno & _)].
  - now rewrite (nodup_snd_functional _ _ _ _ Hnd Hin' Hin).
  - exfalso. exact (Hno name code Hin eq_refl).
Qed.

End EnumRoundTrip.

(** ** Attributes that share a register *)

Section SharedRegisters.

Context {K : constants}.

(** X8.  [fn_key] and [win_key] are two views of one register: after a
    successful store to [win_key], [fn_key_show] decodes the code that
    [win_key_store] wrote, under the codes of [fn_key]. *)
Theorem win_key_store_shows_in_fn_key (name : string) (code : Z)
        (newline : bool) (count : Z) (st : ec_state) :
  In (name, code) [("left", MSI_EC_WIN_KEY_LEFT);
                   ("right", MSI_EC_WIN_KEY_RIGHT)] ->
  0 <= code <= 255 ->
  reliable st ->
  store_then_show win_key_store fn_key_show (written name newline) count st
  = (count,
     sprintf (if code =? MSI_EC_FN_KEY_LEFT then "left" +++ nl
              else if code =? MSI_EC_FN_KEY_RIGHT then "right" +++ nl
              else "unknown" +++ " (" +++ fmt_i code +++ ")" +++ nl)).
Proof.
  intros Hin Hcode [Hr Hw].
  assert (Ha : In (mkEnumAttr "win_key" win_key_show win_key_store
                              MSI_EC_FN_WIN_ADDRESS
                              [("left", MSI_EC_WIN_KEY_LEFT);
                               ("right", MSI_EC_WIN_KEY_RIGHT)]) enum_attrs)
    by (unfold enum_attrs; cbn [In]; auto).
  pose proof (enum_store_accept _ Ha name code (written name newline) count st
                Hin ltac:(destruct newline; simpl; auto)) as Hacc.
  cbn [ea_store ea_address] in Hacc.
  unfold store_then_show. rewrite Hacc.
  rewrite (ec_write_ok _ _ _ (Hw _ _ _)).
  cbv beta iota. change (0 <? 0) with false. cbv iota.
  rewrite (u8_small code) by lia.
  unfold fn_key_show.
  match goal with
  | |- context [ec_read ?a ?s] => rewrite (ec_read_ok a s (Hr _ _))
  end.
  cbv beta iota zeta. change (0 <? 0) with false. cbv iota.
  rewrite reg_after_write, (u8_small code) by lia.
  destruct (code =? MSI_EC_FN_KEY_LEFT); [reflexivity|].
  destruct (code =? MSI_EC_FN_KEY_RIGHT); reflexivity.
Qed.

(** X9.  The start and the end threshold are two views of one register.
    After a successful store of [v] to the end threshold, the start
    threshold shows [v + OFFSET_END - OFFSET_START], and the other way
    round (offsets within a byte, [v + offset <= 255], no fault). *)
Theorem charge_thresholds_share_register (s : string) (v : Z)
        (newline : bool) (count : Z) (st : ec_state) :
  0 <= MSI_EC_CHARGE_CONTROL_OFFSET_START <= 255 ->
  0 <= MSI_EC_CHARGE_CONTROL_OFFSET_END <= 255 ->
  numeral s = Some v ->
  reliable st ->
  (v + MSI_EC_CHARGE_CONTROL_OFFSET_END <= 255 ->
   MSI_EC_CHARGE_CONTROL_RANGE_MIN <= v + MSI_EC_CHARGE_CONTROL_OFFSET_END
   <= MSI_EC_CHARGE_CONTROL_RANGE_MAX ->
   store_then_show charge_control_end_threshold_store
                   charge_control_start_threshold_show
                   (written s newline) count st
   = (count,
      sprintf (fmt_i (v + MSI_EC_CHARGE_CONTROL_OFFSET_END
                      - MSI_EC_CHARGE_CONTROL_OFFSET_START) +++ nl)))
  /\ (v + MSI_EC_CHARGE_CONTROL_OFFSET_START <= 255 ->
      MSI_EC_CHARGE_CONTROL_RANGE_MIN
      <= v + MSI_EC_CHARGE_CONTROL_OFFSET_START
      <= MSI_EC_CHARGE_CONTROL_RANGE_MAX ->
      store_then_show charge_control_start_threshold_store
                      charge_control_end_threshold_show
                      (written s newline) count st
      = (count,
         sprintf (fmt_i (v + MSI_EC_CHARGE_CONTROL_OFFSET_START
                         - MSI_EC_CHARGE_CONTROL_OFFSET_END) +++ nl))).
Proof.
  intros Hs0 He0 Hs [Hr Hw].
  pose proof (numeral_nonneg s v Hs) as Hv.
  assert (Hgen : forall o1 o2,
             0 <= o1 <= 255 -> 0 <= o2 <= 255 ->
             v + o1 <= 255 ->
             MSI_EC_CHARGE_CONTROL_RANGE_MIN <= v + o1
             <= MSI_EC_CHARGE_CONTROL_RANGE_MAX ->
             store_then_show (charge_control_threshold_store o1)
                             (charge_control_threshold_show o2)
                             (written s newline) count st
             = (count, sprintf (fmt_i (v + o1 - o2) +++ nl))).
  { intros o1 o2 H1 H2 Hfit Hin. unfold store_then_show.
    rewrite (threshold_store_cases o1 s v newline count st Hs ltac:(lia)).
    cbv zeta. rewrite (u8_small o1), (u8_small (v + o1)) by lia.
    replace (v + o1 <? MSI_EC_CHARGE_CONTROL_RANGE_MIN) with false
      by (symmetry; apply Z.ltb_ge; lia).
    replace (v + o1 >? MSI_EC_CHARGE_CONTROL_RANGE_MAX) with false
      by (symmetry; rewrite Z.gtb_ltb; apply Z.ltb_ge; lia).
    cbn [orb]. rewrite (ec_write_ok _ _ _ (Hw _ _ _)).
    cbv beta iota. change (0 <? 0) with false. cbv iota.
    rewrite (u8_small (v + o1)) by lia.
    unfold charge_control_threshold_show.
    match goal with
    | |- context [ec_read ?a ?s] => rewrite (ec_read_ok a s (Hr _ _))
    end.
    cbv beta iota zeta. change (0 <? 0) with false. cbv iota.
    rewrite reg_after_write, (u8_small (v + o1)), (u8_small o2) by lia.
    reflexivity. }
  split; intros Hfit Hin; apply Hgen; assumption.
Qed.

End SharedRegisters.

(** ** Fan speeds as percentages *)

(** The percentage of a byte within its range. *)
Lemma percent_bounds (lo hi r : Z) :
  lo < hi -> lo <= r <= hi ->
  0 <= Z.quot (100 * (r - lo)) (hi - lo) <= 100
  /\ (r = lo -> Z.quot (100 * (r - lo)) (hi - lo) = 0)
  /\ (r = hi -> Z.quot (100 * (r - lo)) (hi - lo) = 100).
Proof.
  intros Hw Hr. rewrite Z.quot_div_nonneg by nia.
  split; [split|split].
  - apply Z.div_pos; nia.
  - apply Z.div_le_upper_bound; nia.
  - intros ->. replace (lo - lo) with 0 by lia. reflexivity.
  - intros ->. apply Z.div_mul. lia.
Qed.

Section FanSpeed.

Context {K : constants}.

Lemma realtime_fan_show_in_range (buf : string) (st : ec_state) :
  ec_rfault st (ec_log st) (u8 MSI_EC_CPU_REALTIME_FAN_SPEED_ADDRESS) = None ->
  MSI_EC_CPU_REALTIME_FAN_SPEED_BASE_MIN
  <> MSI_EC_CPU_REALTIME_FAN_SPEED_BASE_MAX ->
  MSI_EC_CPU_REALTIME_FAN_SPEED_BASE_MIN
  <= u8 (ec_regs st (u8 MSI_EC_CPU_REALTIME_FAN_SPEED_ADDRESS))
  <= MSI_EC_CPU_REALTIME_FAN_SPEED_BASE_MAX ->
  cpu_realtime_fan_speed_show buf st
  = (let text :=
       fmt_i (Z.quot
                (100 * (u8 (ec_regs st
                              (u8 MSI_EC_CPU_REALTIME_FAN_SPEED_ADDRESS))
                        - MSI_EC_CPU_REALTIME_FAN_SPEED_BASE_MIN))
                (MSI_EC_CPU_REALTIME_FAN_SPEED_BASE_MAX
                 - MSI_EC_CPU_REALTIME_FAN_SPEED_BASE_MIN)) +++ nl in
     (Z.of_nat (String.length text), text,
      log_call st (EvRead (u8 MSI_EC_CPU_REALTIME_FAN_SPEED_ADDRESS)))).
Proof.
  intros Hok _ Hr. unfold cpu_realtime_fan_speed_show.
  rewrite (ec_read_ok _ _ Hok). cbv beta iota zeta.
  change (0 <? 0) with false. cbv iota.
  replace (_ <? MSI_EC_CPU_REALTIME_FAN_SPEED_BASE_MIN) with false
    by (symmetry; apply Z.ltb_ge; lia).
  replace (_ >? MSI_EC_CPU_REALTIME_FAN_SPEED_BASE_MAX) with false
    by (symmetry; rewrite Z.gtb_ltb; apply Z.ltb_ge; lia).
  reflexivity.
Qed.

Lemma fan_shows_out_of_range (buf : string) (st : ec_state) :
  (ec_rfault st (ec_log st) (u8 MSI_EC_CPU_REALTIME_FAN_SPEED_ADDRESS) = None ->
   u8 (ec_regs st (u8 MSI_EC_CPU_REALTIME_FAN_SPEED_ADDRESS))
   < MSI_EC_CPU_REALTIME_FAN_SPEED_BASE_MIN
   \/ MSI_EC_CPU_REALTIME_FAN_SPEED_BASE_MAX
      < u8 (ec_regs st (u8 MSI_EC_CPU_REALTIME_FAN_SPEED_ADDRESS)) ->
   cpu_realtime_fan_speed_show buf st
   = (- EINVAL, buf,
      log_call st (EvRead (u8 MSI_EC_CPU_REALTIME_FAN_SPEED_ADDRESS))))
  /\ (ec_rfault st (ec_log st) (u8 MSI_EC_CPU_BASIC_FAN_SPEED_ADDRESS) = None ->
      u8 (ec_regs st (u8 MSI_EC_CPU_BASIC_FAN_SPEED_ADDRESS))
      < MSI_EC_CPU_BASIC_FAN_SPEED_BASE_MIN
      \/ MSI_EC_CPU_BASIC_FAN_SPEED_BASE_MAX
         < u8 (ec_regs st (u8 MSI_EC_CPU_BASIC_FAN_SPEED_ADDRESS)) ->
      cpu_basic_fan_speed_show buf st
      = (- EINVAL, buf,
         log_call st (EvRead (u8 MSI_EC_CPU_BASIC_FAN_SPEED_ADDRESS)))).
Proof.
  split; intros Hok Hout;
    unfold cpu_realtime_fan_speed_show, cpu_basic_fan_speed_show;
    rewrite (ec_read_ok _ _ Hok); cbv beta iota zeta;
    change (0 <? 0) with false; cbv iota;
    match goal with
    | |- context [if ?c then _ else _] => replace c with true; [reflexivity|]
    end;
    symmetry; rewrite orb_true_iff, Z.gtb_ltb, !Z.ltb_lt; exact Hout.
Qed.

(** X10.  The two scaled fan speeds ([cpu_realtime_fan_speed_show] and
    [cpu_basic_fan_speed_show]), when the read succeeds: a byte outside
    [[BASE_MIN, BASE_MAX]] gives [-EINVAL] and no text; a byte inside (with
    [BASE_MIN < BASE_MAX]) prints a percentage between 0 and 100, which is 0
    at [BASE_MIN] and 100 at [BASE_MAX]. *)
Theorem fan_speed_show_percentage (buf : string) (st : ec_state) :
  (ec_rfault st (ec_log st) (u8 MSI_EC_CPU_REALTIME_FAN_SPEED_ADDRESS) = None ->
   let rdata := u8 (ec_regs st (u8 MSI_EC_CPU_REALTIME_FAN_SPEED_ADDRESS)) in
   (rdata < MSI_EC_CPU_REALTIME_FAN_SPEED_BASE_MIN
    \/ MSI_EC_CPU_REALTIME_FAN_SPEED_BASE_MAX < rdata ->
    cpu_realtime_fan_speed_show buf st
    = (- EINVAL, buf,
       log_call st (EvRead (u8 MSI_EC_CPU_REALTIME_FAN_SPEED_ADDRESS))))
   /\ (MSI_EC_CPU_REALTIME_FAN_SPEED_BASE_MIN
       < MSI_EC_CPU_REALTIME_FAN_SPEED_BASE_MAX ->
       MSI_EC_CPU_REALTIME_FAN_SPEED_BASE_MIN <= rdata
       <= MSI_EC_CPU_REALTIME_FAN_SPEED_BASE_MAX ->
       exists d,
         cpu_realtime_fan_speed_show buf st
         = (Z.of_nat (String.length (fmt_i d +++ nl)), fmt_i d +++ nl,
            log_call st (EvRead (u8 MSI_EC_CPU_REALTIME_FAN_SPEED_ADDRESS)))
         /\ 0 <= d <= 100
         /\ (rdata = MSI_EC_CPU_REALTIME_FAN_SPEED_BASE_MIN -> d = 0)
         /\ (rdata = MSI_EC_CPU_REALTIME_FAN_SPEED_BASE_MAX -> d = 100)))
  /\ (ec_rfault st (ec_log st) (u8 MSI_EC_CPU_BASIC_FAN_SPEED_ADDRESS) = None ->
      let rdata := u8 (ec_regs st (u8 MSI_EC_CPU_BASIC_FAN_SPEED_ADDRESS)) in
      (rdata < MSI_EC_CPU_BASIC_FAN_SPEED_BASE_MIN
       \/ MSI_EC_CPU_BASIC_FAN_SPEED_BASE_MAX < rdata ->
       cpu_basic_fan_speed_show buf st
       = (- EINVAL, buf,
          log_call st (EvRead (u8 MSI_EC_CPU_BASIC_FAN_SPEED_ADDRESS))))
      /\ (MSI_EC_CPU_BASIC_FAN_SPEED_BASE_MIN
          < MSI_EC_CPU_BASIC_FAN_SPEED_BASE_MAX ->
          MSI_EC_CPU_BASIC_FAN_SPEED_BASE_MIN <= rdata
          <= MSI_EC_CPU_BASIC_FAN_SPEED_BASE_MAX ->
          exists d,
            cpu_basic_fan_speed_show buf st
            = (Z.of_nat (String.length (fmt_i d +++ nl)), fmt_i d +++ nl,
               log_call st (EvRead (u8 MSI_EC_CPU_BASIC_FAN_SPEED_ADDRESS)))
            /\ 0 <= d <= 100
            /\ (rdata = MSI_EC_CPU_BASIC_FAN_SPEED_BASE_MIN -> d = 0)
            /\ (rdata = MSI_EC_CPU_BASIC_FAN_SPEED_BASE_MAX -> d = 100))).
Proof.
  destruct (fan_shows_out_of_range buf st) as [Hrt Hbs].
  split; intros Hok rdata; (split; [auto|]); intros Hw Hin.
  - rewrite (realtime_fan_show_in_range buf st Hok (Z.lt_neq _ _ Hw) Hin).
    cbv zeta.
    eexists. split; [reflexivity|].
    destruct (percent_bounds _ _ _ Hw Hin) as (Hb & H0 & H100).
    split; [exact Hb|]. split; [exact H0 | exact H100].
  - rewrite (fan_show_in_range buf st Hok (Z.lt_neq _ _ Hw) Hin). cbv zeta.
    eexists. split; [reflexivity|].
    destruct (percent_bounds _ _ _ Hw Hin) as (Hb & H0 & H100).
    split; [exact Hb|]. split; [exact H0 | exact H100].
Qed.

(** X11.  For any basic fan range within a byte ([0 <= BASE_MIN < BASE_MAX
    <= 255]) and any [p] in [0..100], on a chip that does not fault: the
    store writes a byte inside the range, so the show that follows never
    fails; the percentage [d] it prints never exceeds [p], falls short of it
    by less than [1 + 100 / (BASE_MAX - BASE_MIN)], and equals [p] at 0 and
    at 100. *)
Theorem basic_fan_speed_roundtrip_any_range (s : string) (p : Z)
        (newline : bool) (count : Z) (st : ec_state) :
  0 <= MSI_EC_CPU_BASIC_FAN_SPEED_BASE_MIN ->
  MSI_EC_CPU_BASIC_FAN_SPEED_BASE_MIN < MSI_EC_CPU_BASIC_FAN_SPEED_BASE_MAX ->
  MSI_EC_CPU_BASIC_FAN_SPEED_BASE_MAX <= 255 ->
  numeral s = Some p ->
  0 <= p <= 100 ->
  reliable st ->
  exists d,
    store_then_show cpu_basic_fan_speed_store cpu_basic_fan_speed_show
                    (written s newline) count st
    = (count, (Z.of_nat (String.length (fmt_i d +++ nl)), fmt_i d +++ nl))
    /\ d <= p
    /\ (p - d) * (MSI_EC_CPU_BASIC_FAN_SPEED_BASE_MAX
                  - MSI_EC_CPU_BASIC_FAN_SPEED_BASE_MIN)
       < (MSI_EC_CPU_BASIC_FAN_SPEED_BASE_MAX
          - MSI_EC_CPU_BASIC_FAN_SPEED_BASE_MIN) + 100
    /\ (p = 0 -> d = 0)
    /\ (p = 100 -> d = 100).
Proof.
  intros Hlo Hw Hhi Hs Hp Hrel.
  destruct (scale_roundtrip_any_range _ _ p Hlo Hw Hhi Hp)
    as (Henc & Hle & Hloss & H0 & H100).
  set (enc := Z.quot (p * (MSI_EC_CPU_BASIC_FAN_SPEED_BASE_MAX
                           - MSI_EC_CPU_BASIC_FAN_SPEED_BASE_MIN)
                      + 100 * MSI_EC_CPU_BASIC_FAN_SPEED_BASE_MIN) 100) in *.
  unfold store_then_show.
  rewrite (fan_store_valid s p newline count st Hs ltac:(lia)).
  fold enc. destruct Hrel as [Hr Hwr].
  rewrite (ec_write_ok _ _ _ (Hwr _ _ _)).
  cbv beta iota. change (0 <? 0) with false. cbv iota.
  rewrite (u8_small enc) by lia.
  set (a := u8 MSI_EC_CPU_BASIC_FAN_SPEED_ADDRESS).
  set (st1 := set_reg (log_call st (EvWrite a enc)) a enc).
  assert (Hreg : u8 (ec_regs st1 a) = enc).
  { unfold st1. rewrite reg_after_write. apply u8_small. lia. }
  rewrite (fan_show_in_range "" st1 (Hr _ _) (Z.lt_neq _ _ Hw))
    by (fold a; rewrite Hreg; lia).
  fold a. rewrite Hreg. cbv zeta.
  eexists. split; [reflexivity|].
  split; [exact Hle|]. split; [exact Hloss|].
  split; [intros E; exact (proj2 (H0 E)) | intros E; exact (proj2 (H100 E))].
Qed.

End FanSpeed.

(** ** The keyboard backlight *)

Lemma land_mask_bounds (x m : Z) : 0 <= m -> 0 <= Z.land x m <= m.
Proof.
  intros Hm. apply Z.ldiff_le; [exact Hm|].
  apply Z.bits_inj'. intros n Hn.
  rewrite Z.ldiff_spec, Z.land_spec, Z.bits_0.
  destruct (Z.testbit x n), (Z.testbit m n); reflexivity.
Qed.

Section KeyboardBacklight.

Context {K : constants}.

(** X12.  [kbd_bl_sysfs_get] returns a level between 0 and the mask, fault
    or not (so a caller cannot tell a fault from level 0).  If the code of
    level [b] in [MSI_EC_KBD_BL_STATE] carries [b] under the mask, then
    after [kbd_bl_sysfs_set b] (which returns 0) the level read back is
    [b], for [b] in [0..3] on a chip that does not fault. *)
Theorem kbd_bl_level_range_and_roundtrip :
  (forall st,
     0 <= MSI_EC_KBD_BL_STATE_MASK ->
     0 <= fst (kbd_bl_sysfs_get st) <= MSI_EC_KBD_BL_STATE_MASK)
  /\ (forall b st,
        0 <= b <= 3 ->
        Z.land (u8 (nth (Z.to_nat b) MSI_EC_KBD_BL_STATE 0))
               MSI_EC_KBD_BL_STATE_MASK = b ->
        reliable st ->
        fst (kbd_bl_sysfs_set b st) = 0
        /\ fst (kbd_bl_sysfs_get (snd (kbd_bl_sysfs_set b st))) = b).
Proof.
  split.
  - intros st Hm. unfold kbd_bl_sysfs_get, ec_read.
    destruct (ec_rfault st (ec_log st) (u8 MSI_EC_KBD_BL_ADDRESS)); cbn.
    + lia.
    + apply land_mask_bounds. exact Hm.
  - intros b st Hb Hcode [Hr Hw]. unfold kbd_bl_sysfs_set.
    replace ((b <? 0) || (b >? 3)) with false.
    2:{ symmetry. apply orb_false_iff. split;
          [apply Z.ltb_ge | rewrite Z.gtb_ltb; apply Z.ltb_ge]; lia. }
    cbv zeta. rewrite (ec_write_ok _ _ _ (Hw _ _ _)).
    split; [reflexivity|]. cbn [snd]. unfold kbd_bl_sysfs_get.
    match goal with
    | |- context [ec_read ?a ?s] => rewrite (ec_read_ok a s (Hr _ _))
    end.
    cbv beta iota zeta. change (0 <? 0) with false. cbv iota. cbn [fst].
    rewrite reg_after_write, u8_idem. exact Hcode.
Qed.

End KeyboardBacklight.

(** ** What the numeric stores accept *)

(** Any string starts with a run of digits, followed by nothing or by a
    character that is no digit. *)
Lemma digits_split (s : string) :
  exists ds rest,
    s = ds +++ rest /\ all_digits ds = true
    /\ (rest = "" \/ exists c r, rest = String c r /\ isdigit c = false).
Proof.
  induction s as [|c s IH].
  - exists "", "". repeat split. now left.
  - destruct (isdigit c) eqn:Hc.
    + destruct IH as (ds & rest & -> & Hd & Hrest).
      exists (String c ds), rest. repeat split; [|exact Hrest].
      simpl. now rewrite Hc.
    + exists "", (String c s). repeat split. right. now exists c, s.
Qed.

Lemma append_empty (s : string) : s +++ "" = s.
Proof. induction s as [|c s IH]; simpl; [reflexivity | now rewrite IH]. Qed.

(** [kstrtou8] returns 0 only for a decimal numeral of at most 255, with an
    optional [+] before it and an optional newline after it. *)
Lemma kstrtou8_accepts_only_numerals (buf : string) (v : Z) :
  kstrtou8 buf = (0, v) ->
  exists (s : string) (plus newline : bool),
    buf = (if plus then "+" else "") +++ written s newline
    /\ numeral s = Some v /\ v <= 255.
Proof.
  intros H. unfold kstrtou8 in H.
  destruct (kstrtoull buf) as [rv tmp] eqn:Hk.
  destruct (rv <? 0) eqn:Hrv; [injection H as H _; subst rv; discriminate|].
  destruct (tmp =? u8 tmp) eqn:Hu8; cbn in H; [|discriminate].
  injection H as <-. apply Z.eqb_eq in Hu8.
  assert (Hv : tmp <= 255) by (pose proof (u8_range tmp); lia).
  unfold kstrtoull in Hk.
  set (body := match buf with
               | String c s' => if code c =? 43 then s' else buf
               | EmptyString => buf
               end) in Hk.
  assert (Hplus : exists plus : bool, buf = (if plus then "+" else "") +++ body).
  { unfold body. destruct buf as [|c s']; [now exists false|].
    destruct (code c =? 43) eqn:Hc; [|now exists false].
    exists true. apply Z.eqb_eq in Hc.
    change 43 with (code "+"%char) in Hc. apply code_inj in Hc.
    now subst c. }
  destruct Hplus as (plus & Hbuf).
  destruct (digits_split body) as (ds & rest & Hbody & Hd & Hrest).
  unfold _parse_integer in Hk.
  destruct (parse_digits ds rest Hrest (String.length body) 0 0 false Hd
              ltac:(rewrite Hbody, append_length; lia) ltac:(lia))
    as (R & HR & Hexact).
  rewrite Hbody in Hk at 1. rewrite HR in Hk. cbn [orb] in Hk.
  destruct (Z.leb_spec (2 ^ 64) (dec_value 0 ds)) as [Hov | Hfit];
    [injection Hk as <- _; discriminate|].
  destruct (0 + Z.of_nat (String.length ds) =? 0) eqn:Hlen;
    [injection Hk as <- _; discriminate|].
  apply Z.eqb_neq in Hlen.
  assert (Hnum : numeral ds = Some (dec_value 0 ds)).
  { unfold numeral. destruct ds; [simpl in Hlen; lia | now rewrite Hd]. }
  rewrite (Hexact Hfit) in Hk.
  destruct Hrest as [-> | (c & r & -> & Hc)].
  - injection Hk as _ <-. exists ds, plus, false.
    split; [|split; [exact Hnum | exact Hv]].
    rewrite Hbuf, Hbody, append_empty. reflexivity.
  - destruct (code c =? 10) eqn:Hnl.
    + destruct r; [|injection Hk as <- _; discriminate].
      injection Hk as _ <-.
      exists ds, plus, true. split; [|split; [exact Hnum | exact Hv]].
      rewrite Hbuf, Hbody. apply Z.eqb_eq in Hnl.
      change 10 with (code (chr 10)) in Hnl. apply code_inj in Hnl.
      subst c. reflexivity.
    + injection Hk as <- _. discriminate.
Qed.

Lemma kstrtou8_zero_or_negative (buf : string) :
  fst (kstrtou8 buf) = 0 \/ fst (kstrtou8 buf) < 0.
Proof.
  unfold kstrtou8. destruct (kstrtoull buf) as [rv tmp] eqn:Hk.
  destruct (Z.ltb_spec rv 0) as [Hneg | Hpos]; [right; exact Hneg|].
  assert (rv = 0).
  { unfold kstrtoull in Hk.
    destruct (_parse_integer _) as [[[n res] ovf] rest].
    destruct ovf; [injection Hk as <- _; unfold ERANGE in Hpos; lia|].
    destruct (n =? 0); [injection Hk as <- _; unfold EINVAL in Hpos; lia|].
    destruct (match rest with
              | String c r => if code c =? 10 then r else rest
              | EmptyString => rest
              end);
      injection Hk as <- _; [reflexivity | unfold EINVAL in Hpos; lia]. }
  subst rv. destruct (negb (tmp =? u8 tmp)); cbn; [right | left];
    unfold ERANGE; lia.
Qed.

Section NumericAcceptance.

Context {K : constants}.

(** X13.  The stores of the numeric attributes call the transport only for
    a decimal numeral, which may have a [+] before it and one newline after
    it: of at most 100 for the basic fan speed, and of at most 255 with the
    byte [v + offset] (wrapped to 8 bits) inside [[RANGE_MIN, RANGE_MAX]]
    for the charge thresholds. *)
Theorem numeric_stores_write_only_for_numerals (buf : string) (count : Z)
        (st : ec_state) :
  (ec_log (snd (cpu_basic_fan_speed_store buf count st)) <> ec_log st ->
   exists (s : string) (plus newline : bool) (v : Z),
     buf = (if plus then "+" else "") +++ written s newline
     /\ numeral s = Some v /\ v <= 100)
  /\ (ec_log (snd (charge_control_start_threshold_store buf count st))
      <> ec_log st ->
      exists (s : string) (plus newline : bool) (v : Z),
        buf = (if plus then "+" else "") +++ written s newline
        /\ numeral s = Some v /\ v <= 255
        /\ MSI_EC_CHARGE_CONTROL_RANGE_MIN
           <= u8 (v + u8 MSI_EC_CHARGE_CONTROL_OFFSET_START)
           <= MSI_EC_CHARGE_CONTROL_RANGE_MAX)
  /\ (ec_log (snd (charge_control_end_threshold_store buf count st))
      <> ec_log st ->
      exists (s : string) (plus newline : bool) (v : Z),
        buf = (if plus then "+" else "") +++ written s newline
        /\ numeral s = Some v /\ v <= 255
        /\ MSI_EC_CHARGE_CONTROL_RANGE_MIN
           <= u8 (v + u8 MSI_EC_CHARGE_CONTROL_OFFSET_END)
           <= MSI_EC_CHARGE_CONTROL_RANGE_MAX).
Proof.
  unfold cpu_basic_fan_speed_store, charge_control_start_threshold_store,
    charge_control_end_threshold_store, charge_control_threshold_store.
  pose proof (kstrtou8_zero_or_negative buf) as Hres.
  destruct (kstrtou8 buf) as [result wdata] eqn:Hk. cbn [fst] in Hres.
  destruct Hres as [-> | Hneg].
  2:{ replace (result <? 0) with true by (symmetry; apply Z.ltb_lt; lia).
      repeat split; intros H; exfalso; now apply H. }
  destruct (kstrtou8_accepts_only_numerals buf wdata Hk)
    as (s & plus & newline & Hbuf & Hs & Hv).
  change (0 <? 0) with false. cbv iota zeta.
  split; [|split].
  - destruct (Z.gtb_spec wdata 100) as [Hbig | Hok];
      [intros H; exfalso; now apply H|].
    intros _. exists s, plus, newline, wdata. auto.
  - match goal with
    | |- context [if ?c then _ else _] => destruct c eqn:Hc
    end; [intros H; exfalso; now apply H|].
    intros _. exists s, plus, newline, wdata.
    apply orb_false_iff in Hc. destruct Hc as [H1 H2].
    apply Z.ltb_ge in H1. rewrite Z.gtb_ltb in H2. apply Z.ltb_ge in H2.
    auto.
  - match goal with
    | |- context [if ?c then _ else _] => destruct c eqn:Hc
    end; [intros H; exfalso; now apply H|].
    intros _. exists s, plus, newline, wdata.
    apply orb_false_iff in Hc. destruct Hc as [H1 H2].
    apply Z.ltb_ge in H1. rewrite Z.gtb_ltb in H2. apply Z.ltb_ge in H2.
    auto.
Qed.

(** X14.  A charge threshold store checks the range on the byte it is
    about to write, [(v + offset) mod 256]: for a numeral [v] of at most 255
    whose byte is in range, and a write that does not fault, it writes that
    byte to [MSI_EC_CHARGE_CONTROL_ADDRESS] and returns the count, also
    when the sum [v + offset] itself is above 255. *)
Theorem charge_threshold_store_writes_wrapped_byte (s : string) (v : Z)
        (newline : bool) (count : Z) (st : ec_state) :
  numeral s = Some v ->
  v <= 255 ->
  (forall before a d, ec_wfault st before a d = None) ->
  (MSI_EC_CHARGE_CONTROL_RANGE_MIN
   <= u8 (v + u8 MSI_EC_CHARGE_CONTROL_OFFSET_START)
   <= MSI_EC_CHARGE_CONTROL_RANGE_MAX ->
   charge_control_start_threshold_store (written s newline) count st
   = (count,
      set_reg (log_call st
                 (EvWrite (u8 MSI_EC_CHARGE_CONTROL_ADDRESS)
                          (u8 (v + u8 MSI_EC_CHARGE_CONTROL_OFFSET_START))))
              (u8 MSI_EC_CHARGE_CONTROL_ADDRESS)
              (u8 (v + u8 MSI_EC_CHARGE_CONTROL_OFFSET_START))))
  /\ (MSI_EC_CHARGE_CONTROL_RANGE_MIN
      <= u8 (v + u8 MSI_EC_CHARGE_CONTROL_OFFSET_END)
      <= MSI_EC_CHARGE_CONTROL_RANGE_MAX ->
      charge_control_end_threshold_store (written s newline) count st
      = (count,
         set_reg (log_call st
                    (EvWrite (u8 MSI_EC_CHARGE_CONTROL_ADDRESS)
                             (u8 (v + u8 MSI_EC_CHARGE_CONTROL_OFFSET_END))))
                 (u8 MSI_EC_CHARGE_CONTROL_ADDRESS)
                 (u8 (v + u8 MSI_EC_CHARGE_CONTROL_OFFSET_END)))).
Proof.
  intros Hs Hv Hw.
  assert (Hgen : forall offset,
             MSI_EC_CHARGE_CONTROL_RANGE_MIN <= u8 (v + u8 offset)
             <= MSI_EC_CHARGE_CONTROL_RANGE_MAX ->
             charge_control_threshold_store offset (written s newline) count st
             = (count,
                set_reg (log_call st
                           (EvWrite (u8 MSI_EC_CHARGE_CONTROL_ADDRESS)
                                    (u8 (v + u8 offset))))
                        (u8 MSI_EC_CHARGE_CONTROL_ADDRESS)
                        (u8 (v + u8 offset)))).
  { intros offset Hin.
    rewrite (threshold_store_cases offset s v newline count st Hs Hv).
    cbv zeta.
    replace (u8 (v + u8 offset) <? MSI_EC_CHARGE_CONTROL_RANGE_MIN) with false
      by (symmetry; apply Z.ltb_ge; lia).
    replace (u8 (v + u8 offset) >? MSI_EC_CHARGE_CONTROL_RANGE_MAX) with false
      by (symmetry; rewrite Z.gtb_ltb; apply Z.ltb_ge; lia).
    cbn [orb]. rewrite (ec_write_ok _ _ _ (Hw _ _ _)).
    now rewrite u8_idem. }
  split; intros Hin; apply Hgen; exact Hin.
Qed.

End NumericAcceptance.

(** ** Module load and unload *)

Lemma kdo_spec (c : kcall) (k : kernel) :
  exists r,
    kdo c k
    = (r, mkKernel (acpi_disabled k) (k_log k ++ [(c, r)]) (k_oracle k)
                   (msi_platform_device k)).
Proof. eexists. reflexivity. Qed.

(** Runs the next kernel call of a hypothesis, naming its result. *)
Ltac kstep H r :=
  match type of H with
  | context [kdo ?c ?kk] =>
      let E := fresh "E" in
      destruct (kdo_spec c kk) as (r & E); rewrite E in H; clear E;
      cbv beta iota in H;
      cbn [acpi_disabled k_log k_oracle msi_platform_device
           set_platform_device] in H
  end.

(** Closes a case of [msi_ec_init_cases] once its calls are named. *)
Ltac finish_case :=
  repeat eexists; cbn [app]; first [reflexivity | lia | assumption].

(** The outcomes of [msi_ec_init], by the calls it made and their results;
    [l] is what it added to the log. *)
Lemma msi_ec_init_cases (k : kernel) :
  exists l k',
    snd (msi_ec_init k) = k' /\ k_log k' = k_log k ++ l
    /\ ((exists m r, fst (msi_ec_init k) = - ENODEV /\ l = [(pr_err m, r)])
        \/ (exists r1, fst (msi_ec_init k) = r1 /\ r1 < 0
                       /\ l = [(platform_driver_register, r1)])
        \/ (exists r1 r2,
              fst (msi_ec_init k) = - ENOMEM /\ 0 <= r1
              /\ l = [(platform_driver_register, r1);
                      (platform_device_alloc, 0);
                      (platform_driver_unregister, r2)])
        \/ (exists r1 dev r3 r4 r5,
              fst (msi_ec_init k) = r3 /\ 0 <= r1 /\ r3 < 0
              /\ l = [(platform_driver_register, r1);
                      (platform_device_alloc, dev);
                      (platform_device_add, r3);
                      (platform_device_del, r4);
                      (platform_driver_unregister, r5)])
        \/ (exists r1 dev r3 r4 r5 r6 r7 r8,
              fst (msi_ec_init k) = 0 /\ 0 <= r1 /\ 0 <= r3
              /\ l = [(platform_driver_register, r1);
                      (platform_device_alloc, dev);
                      (platform_device_add, r3);
                      (battery_hook_register, r4);
                      (led_classdev_register micmute_led_cdev, r5);
                      (led_classdev_register mute_led_cdev, r6);
                      (led_classdev_register msiacpi_led_kbdlight, r7);
                      (pr_info ("msi-ec: module_init" +++ nl), r8)])).
Proof.
  remember (msi_ec_init k) as res eqn:Hres.
  unfold msi_ec_init in Hres.
  destruct (acpi_disabled k) eqn:Hacpi.
  { kstep Hres r. subst res. cbn [fst snd]. eexists _, _.
    split; [reflexivity|]. cbn [k_log].
    split; [reflexivity|]. left. finish_case. }
  kstep Hres r1. destruct (Z.ltb_spec r1 0) as [Hr1 | Hr1].
  { subst res. cbn [fst snd]. eexists _, _.
    split; [reflexivity|]. cbn [k_log].
    split; [reflexivity|]. right. left. finish_case. }
  kstep Hres dev. destruct (dev =? 0) eqn:Hdev.
  { apply Z.eqb_eq in Hdev. subst dev. kstep Hres r2. subst res.
    cbn [fst snd]. eexists _, _.
    split; [reflexivity|]. cbn [k_log].
    split; [rewrite <- !app_assoc; reflexivity|].
    right. right. left. finish_case. }
  kstep Hres r3. destruct (Z.ltb_spec r3 0) as [Hr3 | Hr3].
  { kstep Hres r4. kstep Hres r5. subst res. cbn [fst snd]. eexists _, _.
    split; [reflexivity|]. cbn [k_log].
    split; [rewrite <- !app_assoc; reflexivity|].
    right. right. right. left. finish_case. }
  kstep Hres r4. kstep Hres r5. kstep Hres r6. kstep Hres r7. kstep Hres r8.
  subst res. cbn [fst snd]. eexists _, _.
  split; [reflexivity|]. cbn [k_log].
  split; [rewrite <- !app_assoc; reflexivity|].
  right. right. right. right. finish_case.
Qed.

Lemma msi_ec_exit_log (k : kernel) :
  exists r1 r2 r3 r4 r5 r6 r7,
    k_log (msi_ec_exit k)
    = k_log k ++ [(led_classdev_unregister mute_led_cdev, r1);
                  (led_classdev_unregister micmute_led_cdev, r2);
                  (led_classdev_unregister msiacpi_led_kbdlight, r3);
                  (battery_hook_unregister, r4);
                  (platform_driver_unregister, r5);
                  (platform_device_del, r6);
                  (pr_info ("msi-ec: module_exit" +++ nl), r7)].
Proof.
  remember (msi_ec_exit k) as res eqn:Hres.
  unfold msi_ec_exit in Hres.
  kstep Hres r1. kstep Hres r2. kstep Hres r3. kstep Hres r4.
  kstep Hres r5. kstep Hres r6. kstep Hres r7. subst res.
  cbn [k_log]. rewrite <- !app_assoc. eexists _, _, _, _, _, _, _.
  reflexivity.
Qed.

(** X15.  [msi_ec_init] returns 0 or a negative errno.  When it fails,
    nothing it registered is left registered (a driver registered before a
    later step failed is unregistered again) and neither the battery hook
    nor a LED device was registered.  When it returns 0 it has made its
    eight calls in order; the results of the three LED registrations are
    not looked at. *)
Theorem msi_ec_init_all_or_nothing (k : kernel) :
  exists l,
    k_log (snd (msi_ec_init k)) = k_log k ++ l
    /\ (fst (msi_ec_init k) = 0 \/ fst (msi_ec_init k) < 0)
    /\ (fst (msi_ec_init k) < 0 ->
        outstanding l = []
        /\ forall c, In c (calls l) ->
                     c <> battery_hook_register
                     /\ forall name, c <> led_classdev_register name)
    /\ (fst (msi_ec_init k) = 0 ->
        calls l
        = [platform_driver_register; platform_device_alloc;
           platform_device_add; battery_hook_register;
           led_classdev_register micmute_led_cdev;
           led_classdev_register mute_led_cdev;
           led_classdev_register msiacpi_led_kbdlight;
           pr_info ("msi-ec: module_init" +++ nl)]).
Proof.
  destruct (msi_ec_init_cases k) as (l & k' & Hk' & Hlog & Hcases).
  exists l. rewrite Hk'. split; [exact Hlog|].
  unfold ENODEV, ENOMEM in Hcases.
  destruct Hcases
    as [(m & r & Hr & ->)
       | [(r1 & Hr & Hneg & ->)
         | [(r1 & r2 & Hr & H1 & ->)
           | [(r1 & dev & r3 & r4 & r5 & Hr & H1 & H3 & ->)
             | (r1 & dev & r3 & r4 & r5 & r6 & r7 & r8 & Hr & H1 & H3 & ->)]]]];
    rewrite Hr;
    (split; [first [left; reflexivity | right; lia]|]);
    (split; [|first [lia | intros _; reflexivity]]);
    first [ lia | intros _ ]; (split;
      [ cbn; rewrite ?andb_false_r;
        try (replace (0 <=? r1) with false
               by (symmetry; apply Z.leb_gt; lia));
        reflexivity
      | intros c Hc; cbn in Hc;
        repeat (destruct Hc as [<- | Hc];
                [split; [discriminate | intros; discriminate]|]);
        contradiction ]).
Qed.

(** X16.  After a successful [msi_ec_init], [msi_ec_exit] undoes every
    registration of it: over the two together no registration is left
    outstanding.  [msi_ec_exit] makes its seven calls whatever happened
    before, so it also unregisters a LED device whose registration had
    failed. *)
Theorem msi_ec_exit_undoes_init (k : kernel) :
  fst (msi_ec_init k) = 0 ->
  exists l1 l2,
    k_log (snd (msi_ec_init k)) = k_log k ++ l1
    /\ k_log (msi_ec_exit (snd (msi_ec_init k))) = k_log k ++ l1 ++ l2
    /\ outstanding (l1 ++ l2) = []
    /\ calls l2
       = [led_classdev_unregister mute_led_cdev;
          led_classdev_unregister micmute_led_cdev;
          led_classdev_unregister msiacpi_led_kbdlight;
          battery_hook_unregister; platform_driver_unregister;
          platform_device_del; pr_info ("msi-ec: module_exit" +++ nl)].
Proof.
  intros Hok.
  destruct (msi_ec_init_cases k) as (l & k' & Hk' & Hlog & Hcases).
  rewrite Hk'.
  destruct (msi_ec_exit_log k') as (u1 & u2 & u3 & u4 & u5 & u6 & u7 & Hexit).
  unfold ENODEV, ENOMEM in Hcases.
  destruct Hcases
    as [(m & r & Hr & ->)
       | [(r1 & Hr & Hneg & ->)
         | [(r1 & r2 & Hr & H1 & ->)
           | [(r1 & dev & r3 & r4 & r5 & Hr & H1 & H3 & ->)
             | (r1 & dev & r3 & r4 & r5 & r6 & r7 & r8 & Hr & H1 & H3 & ->)]]]];
    try (rewrite Hr in Hok; lia).
  eexists _, _. split; [exact Hlog|].
  split; [rewrite Hexit, Hlog, <- app_assoc; reflexivity|].
  split; [|reflexivity].
  cbn. now rewrite !andb_false_r.
Qed.

Lemma msi_ec_exit_undoes_init_witness :
  exists l1 l2,
    k_log (snd (msi_ec_init (fresh_kernel leds_fail))) = [] ++ l1
    /\ k_log (msi_ec_exit (snd (msi_ec_init (fresh_kernel leds_fail))))
       = [] ++ l1 ++ l2
    /\ outstanding (l1 ++ l2) = []
    /\ calls l2
       = [led_classdev_unregister mute_led_cdev;
          led_classdev_unregister micmute_led_cdev;
          led_classdev_unregister msiacpi_led_kbdlight;
          battery_hook_unregister; platform_driver_unregister;
          platform_device_del; pr_info ("msi-ec: module_exit" +++ nl)].
Proof.
  exact (msi_ec_exit_undoes_init (fresh_kernel leds_fail) eq_refl).
Defined.

(** ** When the sequential reader and its callers return *)

(** Reads that never fault leave 0 as the result of the loop. *)
Lemma loop_no_fault_result (fuel : nat) : forall addr buf len i st r buf' st',
  (forall before a, ec_rfault st before a = None) ->
  ec_read_seq_loop fuel addr buf len i st = Some (r, buf', st') ->
  r = 0.
Proof.
  induction fuel as [|fuel IH]; intros addr buf len i st r buf' st' Hok H;
    [discriminate|].
  simpl in H. destruct (i <? len).
  - unfold ec_read in H. rewrite Hok in H. cbn in H.
    apply IH in H; [exact H|]. intros before a. apply Hok.
  - now injection H as <- _ _.
Qed.

Section CallersReturn.

Context {K : constants}.

Lemma fw_version_show_diverges (fuel : nat) (buf : string) (st : ec_state) :
  256 <= MSI_EC_FW_VERSION_LENGTH ->
  (forall before a, ec_rfault st before a = None) ->
  fw_version_show fuel buf st = None.
Proof.
  intros Hlen Hok. unfold fw_version_show.
  now rewrite (ec_read_seq_diverges fuel _ _ _ st Hlen Hok).
Qed.

Lemma fw_release_date_show_diverges (fuel : nat) (y mo d h mi s : Z)
      (buf : string) (st : ec_state) :
  256 <= MSI_EC_FW_DATE_LENGTH \/ 256 <= MSI_EC_FW_TIME_LENGTH ->
  (forall before a, ec_rfault st before a = None) ->
  fw_release_date_show fuel y mo d h mi s buf st = None.
Proof.
  intros Hlen Hok. unfold fw_release_date_show.
  destruct (ec_read_seq fuel MSI_EC_FW_DATE_ADDRESS
              (zeroed (MSI_EC_FW_DATE_LENGTH + 1))
              MSI_EC_FW_DATE_LENGTH st)
    as [[[r rdate] st1]|] eqn:Hdate; [|reflexivity].
  destruct Hlen as [Hd | Ht].
  { rewrite (ec_read_seq_diverges fuel _ _ _ st Hd Hok) in Hdate.
    discriminate. }
  assert (Hr : r = 0).
  { unfold ec_read_seq in Hdate.
    exact (loop_no_fault_result _ _ _ _ _ _ _ _ _ Hok Hdate). }
  destruct (ec_read_seq_frame _ _ _ _ _ _ _ _ Hdate) as (_ & _ & Hrf & _).
  subst r. change (0 <? 0) with false. cbv iota.
  destruct (sscanf (cstring rdate) date_format [mo; d; y]) as [n0 date].
  rewrite (ec_read_seq_diverges fuel _ _ _ st1 Ht); [reflexivity|].
  intros before a. rewrite Hrf. apply Hok.
Qed.

(** X17.  The counter of [ec_read_seq] is a [u8] compared with an [int]
    length.  For [0 <= len <= 255] and reads that succeed, the function
    returns 0 after exactly [len] reads (and for [len <= 255] it returns
    whether reads fault or not).  For [len >= 256] and reads that never
    fault, the counter wraps before it reaches [len]: the loop does not end,
    whatever the fuel.  The callers pass the lengths of [constants.h], which
    the driver does not check: [fw_version_show] and [fw_release_date_show]
    return when these lengths are between 0 and 255, and on a chip whose
    reads never fault they do not return when one of them is 256 or more. *)
Theorem ec_read_seq_termination :
  (forall fuel addr buf len st,
     0 <= len <= 255 ->
     (Z.to_nat len < fuel)%nat ->
     (forall before a, ec_rfault st before a = None) ->
     exists buf' st',
       ec_read_seq fuel addr buf len st = Some (0, buf', st')
       /\ ec_log st' = ec_log st ++ read_events addr (Z.to_nat len)
       /\ Z.of_nat (List.length (read_events addr (Z.to_nat len))) = len)
  /\ (forall fuel addr buf len st,
        len <= 255 ->
        (Z.to_nat len < fuel)%nat ->
        exists res, ec_read_seq fuel addr buf len st = Some res)
  /\ (forall fuel addr buf len st,
        256 <= len ->
        (forall before a, ec_rfault st before a = None) ->
        ec_read_seq fuel addr buf len st = None)
  /\ (forall fuel buf st,
        0 <= MSI_EC_FW_VERSION_LENGTH <= 255 ->
        (255 < fuel)%nat ->
        exists res, fw_version_show fuel buf st = Some res)
  /\ (forall fuel buf st,
        256 <= MSI_EC_FW_VERSION_LENGTH ->
        (forall before a, ec_rfault st before a = None) ->
        fw_version_show fuel buf st = None)
  /\ (forall fuel y mo d h mi s buf st,
        0 <= MSI_EC_FW_DATE_LENGTH <= 255 ->
        0 <= MSI_EC_FW_TIME_LENGTH <= 255 ->
        (255 < fuel)%nat ->
        exists res,
          fw_release_date_show fuel y mo d h mi s buf st = Some res)
  /\ (forall fuel y mo d h mi s buf st,
        256 <= MSI_EC_FW_DATE_LENGTH \/ 256 <= MSI_EC_FW_TIME_LENGTH ->
        (forall before a, ec_rfault st before a = None) ->
        fw_release_date_show fuel y mo d h mi s buf st = None).
Proof.
  split; [|split; [|split; [|split; [|split; [|split]]]]].
  - intros fuel addr buf len st Hlen Hfuel Hok.
    destruct (ec_read_seq_ok fuel addr buf len st Hlen Hfuel)
      as (buf' & st' & H1 & H2 & _).
    { intros m _. apply Hok. }
    exists buf', st'. split; [exact H1|]. split; [exact H2|].
    unfold read_events. rewrite reads_from_length. lia.
  - exact ec_read_seq_terminates.
  - exact ec_read_seq_diverges.
  - intros fuel buf st [_ Hlen]. now apply fw_version_show_terminates.
  - exact fw_version_show_diverges.
  - intros fuel y mo d h mi s buf st [_ Hd] [_ Ht].
    now apply fw_release_date_show_terminates.
  - exact fw_release_date_show_diverges.
Qed.

End CallersReturn.

(** ** The further properties on the example configuration *)

Lemma ec_read_seq_fills_buffer_witness :
  exists buf' st',
    ec_read_seq 4 0xa0 [7; 7; 7; 7; 7] 3 (quiet_ec (regs_of_string 0xa0 "E14"))
    = Some (0, buf', st')
    /\ List.length buf' = 5%nat
    /\ (forall m, (m < 5)%nat ->
          nth m buf' 0
          = if (m <? 3)%nat
            then u8 (regs_of_string 0xa0 "E14" (u8 (u8 0xa0 + Z.of_nat m)))
            else nth m [7; 7; 7; 7; 7] 0)
    /\ ec_regs st' = regs_of_string 0xa0 "E14".
Proof.
  apply (ec_read_seq_fills_buffer 4 0xa0 [7; 7; 7; 7; 7] 3
           (quiet_ec (regs_of_string 0xa0 "E14")));
    [lia | simpl; lia | intros m Hm; reflexivity].
Defined.

Lemma ec_read_seq_fault_keeps_prefix_witness :
  exists buf' st',
    ec_read_seq 4 0xa0 [7; 7; 7; 7; 7] 3
                (flaky_ec (regs_of_string 0xa0 "E14") 0xa2)
    = Some (-5, buf', st')
    /\ List.length buf' = 5%nat
    /\ (forall m, (m < 5)%nat ->
          nth m buf' 0
          = if (m <? 2)%nat
            then u8 (regs_of_string 0xa0 "E14" (u8 (u8 0xa0 + Z.of_nat m)))
            else nth m [7; 7; 7; 7; 7] 0).
Proof.
  apply (ec_read_seq_fault_keeps_prefix 4 0xa0 [7; 7; 7; 7; 7] 3
           (flaky_ec (regs_of_string 0xa0 "E14") 0xa2) 2 5);
    [lia | lia | lia | | reflexivity].
  intros m Hm. destruct m as [|[|m]]; [reflexivity | reflexivity | lia].
Defined.

Lemma fw_version_show_prints_registers_witness :
  exists st',
    @fw_version_show example_constants 13 ""
      (quiet_ec (regs_of_string 0xa0 "14DLEMS1.109"))
    = Some (13, "14DLEMS1.109" +++ nl, st')
    /\ ec_regs st' = regs_of_string 0xa0 "14DLEMS1.109".
Proof.
  apply (@fw_version_show_prints_registers example_constants 13 ""
           (quiet_ec (regs_of_string 0xa0 "14DLEMS1.109")));
    [simpl; lia | simpl; lia | intros before a; reflexivity].
Defined.

Lemma show_callbacks_are_read_only_witness :
  (snd (@webcam_show example_constants "" (quiet_ec (fun _ => 0x4a)))
   = log_call (quiet_ec (fun _ => 0x4a)) (EvRead 0x2e)
   /\ fst (@webcam_show example_constants ""
             (snd (@webcam_show example_constants ""
                     (quiet_ec (fun _ => 0x4a)))))
      = fst (@webcam_show example_constants "" (quiet_ec (fun _ => 0x4a))))
  /\ (snd (@cpu_basic_fan_speed_show example_constants ""
             (quiet_ec (fun _ => 0x4b)))
      = log_call (quiet_ec (fun _ => 0x4b)) (EvRead 0x89)
      /\ fst (@cpu_basic_fan_speed_show example_constants ""
                (snd (@cpu_basic_fan_speed_show example_constants ""
                        (quiet_ec (fun _ => 0x4b)))))
         = fst (@cpu_basic_fan_speed_show example_constants ""
                  (quiet_ec (fun _ => 0x4b)))).
Proof.
  destruct (@show_callbacks_are_read_only example_constants) as (Hone & _).
  split.
  - destruct (Hone 0x2e None (@webcam_show example_constants)
                (or_intror (or_intror (or_introl eq_refl)))
                ltac:(discriminate)
                "" (quiet_ec (fun _ => 0x4a))) as [Hstate Hrepeat].
    split; [exact Hstate | exact (Hrepeat (quiet_ec_reliable _))].
  - assert (Hdiv : Some (0x96 - 0x00) <> Some 0)
      by (vm_compute; discriminate).
    destruct (Hone 0x89 (Some (0x96 - 0x00))
                (@cpu_basic_fan_speed_show example_constants)
                ltac:(do 11 right; left; reflexivity) Hdiv
                "" (quiet_ec (fun _ => 0x4b))) as [Hstate Hrepeat].
    split; [exact Hstate | exact (Hrepeat (quiet_ec_reliable _))].
Defined.

Lemma store_callbacks_touch_one_register_witness :
  (exists d,
     untouched_or_one_call
       (quiet_ec (fun _ => 0))
       (snd (@webcam_store example_constants "on" 2 (quiet_ec (fun _ => 0))))
       (EvWrite 0x2e d))
  /\ (forall a', a' <> 0x2e ->
        ec_regs (snd (@webcam_store example_constants "on" 2
                        (quiet_ec (fun _ => 0)))) a' = 0)
  /\ (forall a', a' <> 0x2b ->
        ec_regs (snd (@micmute_led_sysfs_set example_constants 1
                        (quiet_ec (fun _ => 0)))) a' = 0).
Proof.
  destruct (@store_callbacks_touch_one_register example_constants)
    as (Hstore & Hled).
  destruct (Hstore 0x2e (@webcam_store example_constants)
              (or_intror (or_intror (or_introl eq_refl)))
              "on" 2 (quiet_ec (fun _ => 0)) eq_refl) as [Hcall Hregs].
  destruct (Hled 0x2b (@micmute_led_sysfs_set example_constants)
              (or_introl eq_refl) 1 (quiet_ec (fun _ => 0)))
    as [_ Hregs'].
  split; [exact Hcall | split; [exact Hregs | exact Hregs']].
Defined.

Lemma enum_store_then_show_witness :
  store_then_show (@webcam_store example_constants)
                  (@webcam_show example_constants)
                  (written "on" true) 3 (quiet_ec (fun _ => 0))
  = (3, (3, "on" +++ nl)).
Proof.
  apply (@enum_store_then_show example_constants _ "on" 0x4a true 3
           (quiet_ec (fun _ => 0)) webcam_in_enum_attrs
           (or_introl eq_refl)).
  - simpl. repeat constructor; simpl; intuition discriminate.
  - lia.
  - apply quiet_ec_reliable.
Defined.

Lemma win_key_store_shows_in_fn_key_witness :
  store_then_show (@win_key_store example_constants)
                  (@fn_key_show example_constants)
                  (written "left" true) 5 (quiet_ec (fun _ => 0))
  = (5, sprintf ("right" +++ nl)).
Proof.
  apply (@win_key_store_shows_in_fn_key example_constants "left" 0x50 true 5
           (quiet_ec (fun _ => 0)) (or_introl eq_refl));
    [lia | apply quiet_ec_reliable].
Defined.

Lemma charge_thresholds_share_register_witness :
  store_then_show (@charge_control_end_threshold_store example_constants)
                  (@charge_control_start_threshold_show example_constants)
                  (written "50" true) 3 (quiet_ec (fun _ => 0))
  = (3, sprintf (fmt_i 40 +++ nl))
  /\ store_then_show (@charge_control_start_threshold_store example_constants)
                     (@charge_control_end_threshold_show example_constants)
                     (written "50" true) 3 (quiet_ec (fun _ => 0))
     = (3, sprintf (fmt_i 60 +++ nl)).
Proof.
  destruct (@charge_thresholds_share_register example_constants "50" 50 true
              3 (quiet_ec (fun _ => 0)) ltac:(simpl; lia) ltac:(simpl; lia)
              eq_refl (quiet_ec_reliable _)) as [Hend Hstart].
  split.
  - exact (Hend ltac:(simpl; lia) ltac:(simpl; lia)).
  - exact (Hstart ltac:(simpl; lia) ltac:(simpl; lia)).
Defined.

Lemma fan_speed_show_percentage_witness :
  (exists d,
     @cpu_realtime_fan_speed_show example_constants ""
       (quiet_ec (fun _ => 0x37))
     = (Z.of_nat (String.length (fmt_i d +++ nl)), fmt_i d +++ nl,
        log_call (quiet_ec (fun _ => 0x37)) (EvRead 0x71))
     /\ 0 <= d <= 100
     /\ (0x37 = 0x19 -> d = 0)
     /\ (0x37 = 0x37 -> d = 100))
  /\ @cpu_basic_fan_speed_show example_constants ""
       (quiet_ec (fun _ => 0x97))
     = (- EINVAL, "", log_call (quiet_ec (fun _ => 0x97)) (EvRead 0x89)).
Proof.
  split.
  - destruct (@fan_speed_show_percentage example_constants ""
                (quiet_ec (fun _ => 0x37))) as [Hreal _].
    destruct (Hreal eq_refl) as [_ Hin].
    exact (Hin ltac:(simpl; lia) ltac:(vm_compute; split; discriminate)).
  - destruct (@fan_speed_show_percentage example_constants ""
                (quiet_ec (fun _ => 0x97))) as [_ Hbasic].
    destruct (Hbasic eq_refl) as [Hout _].
    apply Hout. right. vm_compute. reflexivity.
Defined.

Lemma basic_fan_speed_roundtrip_any_range_witness :
  exists d,
    store_then_show (@cpu_basic_fan_speed_store narrow_fan_constants)
                    (@cpu_basic_fan_speed_show narrow_fan_constants)
                    (written "50" false) 2 (quiet_ec (fun _ => 0))
    = (2, (Z.of_nat (String.length (fmt_i d +++ nl)), fmt_i d +++ nl))
    /\ d <= 50
    /\ (50 - d) * (0x0f - 0x00) < (0x0f - 0x00) + 100
    /\ (50 = 0 -> d = 0)
    /\ (50 = 100 -> d = 100).
Proof.
  apply (@basic_fan_speed_roundtrip_any_range narrow_fan_constants "50" 50
           false 2 (quiet_ec (fun _ => 0)));
    [simpl; lia | simpl; lia | simpl; lia | reflexivity | lia
    | apply quiet_ec_reliable].
Defined.

Lemma kbd_bl_level_range_and_roundtrip_witness :
  0 <= fst (@kbd_bl_sysfs_get example_constants (quiet_ec (fun _ => 0xff)))
  <= 3
  /\ fst (@kbd_bl_sysfs_set example_constants 2 (quiet_ec (fun _ => 0))) = 0
  /\ fst (@kbd_bl_sysfs_get example_constants
            (snd (@kbd_bl_sysfs_set example_constants 2
                    (quiet_ec (fun _ => 0))))) = 2.
Proof.
  destruct (@kbd_bl_level_range_and_roundtrip example_constants)
    as [Hrange Hround].
  split.
  - exact (Hrange (quiet_ec (fun _ => 0xff)) ltac:(simpl; lia)).
  - exact (Hround 2 (quiet_ec (fun _ => 0)) ltac:(lia) eq_refl
             (quiet_ec_reliable _)).
Defined.

Lemma numeric_stores_write_only_for_numerals_witness :
  exists (s : string) (plus newline : bool) (v : Z),
    "+50" +++ nl = (if plus then "+" else "") +++ written s newline
    /\ numeral s = Some v /\ v <= 100.
Proof.
  destruct (@numeric_stores_write_only_for_numerals example_constants
              ("+50" +++ nl) 4 (quiet_ec (fun _ => 0))) as (Hfan & _).
  apply Hfan. vm_compute. discriminate.
Defined.

Lemma charge_threshold_store_writes_wrapped_byte_witness :
  @charge_control_start_threshold_store example_constants
    (written "50" true) 3 (quiet_ec (fun _ => 0))
  = (3, set_reg (log_call (quiet_ec (fun _ => 0)) (EvWrite 0xef 188))
                0xef 188)
  /\ @charge_control_end_threshold_store example_constants
       (written "50" true) 3 (quiet_ec (fun _ => 0))
     = (3, set_reg (log_call (quiet_ec (fun _ => 0)) (EvWrite 0xef 178))
                   0xef 178).
Proof.
  destruct (@charge_threshold_store_writes_wrapped_byte example_constants
              "50" 50 true 3 (quiet_ec (fun _ => 0)) eq_refl ltac:(lia)
              (fun _ _ _ => eq_refl)) as [Hstart Hend].
  split.
  - exact (Hstart ltac:(vm_compute; split; discriminate)).
  - exact (Hend ltac:(vm_compute; split; discriminate)).
Defined.

Lemma msi_ec_init_all_or_nothing_witness :
  exists l,
    k_log (snd (msi_ec_init (fresh_kernel add_fails))) = [] ++ l
    /\ (fst (msi_ec_init (fresh_kernel add_fails)) = 0
        \/ fst (msi_ec_init (fresh_kernel add_fails)) < 0)
    /\ (fst (msi_ec_init (fresh_kernel add_fails)) < 0 ->
        outstanding l = []
        /\ forall c, In c (calls l) ->
                     c <> battery_hook_register
                     /\ forall name, c <> led_classdev_register name)
    /\ (fst (msi_ec_init (fresh_kernel add_fails)) = 0 ->
        calls l
        = [platform_driver_register; platform_device_alloc;
           platform_device_add; battery_hook_register;
           led_classdev_register micmute_led_cdev;
           led_classdev_register mute_led_cdev;
           led_classdev_register msiacpi_led_kbdlight;
           pr_info ("msi-ec: module_init" +++ nl)]).
Proof.
  exact (msi_ec_init_all_or_nothing (fresh_kernel add_fails)).
Defined.

Lemma ec_read_seq_termination_witness :
  (exists buf' st',
     ec_read_seq 9 0xac (zeroed 9) 8 (quiet_ec (fun _ => 0))
     = Some (0, buf', st')
     /\ ec_log st' = read_events 0xac 8
     /\ Z.of_nat (List.length (read_events 0xac 8)) = 8)
  /\ (exists res,
        ec_read_seq 9 0xac (zeroed 9) 8 (flaky_ec (fun _ => 0) 0xad)
        = Some res)
  /\ ec_read_seq 1000 0x00 (zeroed 257) 256 (quiet_ec (fun _ => 0)) = None
  /\ (exists res,
        @fw_version_show example_constants 256 "" (quiet_ec (fun _ => 0))
        = Some res)
  /\ @fw_version_show long_version_constants 1000 "" (quiet_ec (fun _ => 0))
     = None
  /\ (exists res,
        @fw_release_date_show example_constants 256 0 0 0 0 0 0 ""
          (quiet_ec (fun _ => 0)) = Some res).
Proof.
  destruct (@ec_read_seq_termination example_constants)
    as (Hexact & Hterm & Hdiv & Hver & _ & Hdate & _).
  destruct (@ec_read_seq_termination long_version_constants)
    as (_ & _ & _ & _ & Hlong & _).
  split; [|split; [|split; [|split; [|split]]]].
  - apply (Hexact 9%nat 0xac (zeroed 9) 8 (quiet_ec (fun _ => 0)));
      [lia | simpl; lia | reflexivity].
  - apply (Hterm 9%nat 0xac (zeroed 9) 8 (flaky_ec (fun _ => 0) 0xad));
      [lia | simpl; lia].
  - apply (Hdiv 1000%nat 0x00 (zeroed 257) 256 (quiet_ec (fun _ => 0)));
      [lia | reflexivity].
  - apply (Hver 256%nat "" (quiet_ec (fun _ => 0))); [simpl; lia | lia].
  - apply (Hlong 1000%nat "" (quiet_ec (fun _ => 0)));
      [simpl; lia | reflexivity].
  - apply (Hdate 256%nat 0 0 0 0 0 0 "" (quiet_ec (fun _ => 0)));
      [simpl; lia | simpl; lia | lia].
Defined.
